(** * bioregistry_curator/app.py: a shallow embedding and its specification

    The program is one Flask module.  Its own logic is string handling:
    regular-expression scans, line parsing, and dictionary assembly around
    two external collaborators (a bibliographic lookup service and a
    browsing agent).  The embedding has four layers:

    - [PyChar], [PyStr]: the [str] methods the module calls, on strings
      whose code points are below 256 (one [ascii] per code point);
    - [Re]: a backtracking matcher with Python's priority order (greedy
      repetition, left alternative first), and [re.match], [re.search],
      [re.fullmatch], [re.findall], [re.sub] on top of it;
    - [Py]: dynamically typed values, exceptions as results, dictionaries
      in insertion order;
    - [App]: the functions of app.py, under their source names.

    External collaborators are inputs, gathered in the record [Py.world]:
    what the import and the call of the lookup service do, and what the
    agent's run ends in.

    [Ref] holds direct descriptions of what the patterns compute and the
    sentences of the specification that the code does not satisfy as
    they are worded.  The modules of lemmas that follow relate the
    matcher to these descriptions; the last part states the properties
    of the specification, each on the functions of [App], and further
    properties of the scanner, the metadata client, the extractor, the
    assembler and the endpoint. *)

From Stdlib Require Import Ascii String List ZArith Lia Bool Arith DecimalString.
Import ListNotations.
Set Warnings "-register-all".
Open Scope list_scope.
Open Scope string_scope.

(* ================================================================== *)
(** * Characters *)
(* ================================================================== *)

Module PyChar.

Definition code (c : ascii) : nat := nat_of_ascii c.

Definition in_range (lo hi : nat) (c : ascii) : bool :=
  (lo <=? code c)%nat && (code c <=? hi)%nat.

(** [str.isspace] on one code point below 256; also what [\s] matches
    and what [str.strip()] and [str.split()] treat as blank:
    TAB LF VT FF CR, FS GS RS US, SPACE, NEL (0x85), NBSP (0xA0). *)
Definition is_space (c : ascii) : bool :=
  in_range 9 13 c || in_range 28 32 c || (code c =? 133)%nat || (code c =? 160)%nat.

(** [\d]: the decimal digits; below 256 these are 0-9 only. *)
Definition is_digit (c : ascii) : bool := in_range 48 57 c.

(** [[A-Z]] and [[a-z]]. *)
Definition is_upper (c : ascii) : bool := in_range 65 90 c.
Definition is_lower (c : ascii) : bool := in_range 97 122 c.
Definition is_alpha (c : ascii) : bool := is_upper c || is_lower c.

(** [[0-9a-zA-Z]]. *)
Definition is_alnum (c : ascii) : bool := is_digit c || is_alpha c.

(** [str.lower] on one code point below 256: A-Z, and the Latin-1
    capitals 0xC0-0xDE except the multiplication sign 0xD7. *)
Definition lower (c : ascii) : ascii :=
  if is_upper c || (in_range 192 222 c && negb (code c =? 215)%nat)
  then ascii_of_nat (code c + 32) else c.

(** Line boundaries of [str.splitlines]: LF VT FF CR FS GS RS NEL. *)
Definition is_linebreak (c : ascii) : bool :=
  in_range 10 13 c || in_range 28 30 c || (code c =? 133)%nat.

Definition LF : ascii := ascii_of_nat 10.
Definition CR : ascii := ascii_of_nat 13.
Definition BACKSLASH : ascii := ascii_of_nat 92.

(** Equality with a given character, as a class. *)
Definition is_char (a : ascii) (c : ascii) : bool := Ascii.eqb c a.

(** Case-insensitive equality with an ASCII letter ([(?i)]). *)
Definition is_ci (a : ascii) (c : ascii) : bool := Ascii.eqb (lower c) (lower a).

End PyChar.

(* ================================================================== *)
(** * Strings *)
(* ================================================================== *)

Module PyStr.
Import PyChar.

Definition is_empty (s : string) : bool :=
  match s with EmptyString => true | String _ _ => false end.

(** [s[:n]] and [s[n:]]. *)
Fixpoint take (n : nat) (s : string) : string :=
  match n, s with
  | S n', String c s' => String c (take n' s')
  | _, _ => EmptyString
  end.

Fixpoint drop (n : nat) (s : string) : string :=
  match n, s with
  | S n', String _ s' => drop n' s'
  | _, _ => s
  end.

Fixpoint all (p : ascii -> bool) (s : string) : bool :=
  match s with
  | EmptyString => true
  | String c s' => p c && all p s'
  end.

Fixpoint filter (p : ascii -> bool) (s : string) : string :=
  match s with
  | EmptyString => EmptyString
  | String c s' => if p c then String c (filter p s') else filter p s'
  end.

Fixpoint count (p : ascii -> bool) (s : string) : nat :=
  match s with
  | EmptyString => 0
  | String c s' => (if p c then 1 else 0) + count p s'
  end.

Fixpoint map (f : ascii -> ascii) (s : string) : string :=
  match s with
  | EmptyString => EmptyString
  | String c s' => String (f c) (map f s')
  end.

(** [s.lower()]. *)
Definition lower (s : string) : string := map PyChar.lower s.

(** [s.lstrip()], [s.rstrip()], [s.strip()]. *)
Fixpoint lstrip (s : string) : string :=
  match s with
  | String c s' => if is_space c then lstrip s' else s
  | EmptyString => EmptyString
  end.

Fixpoint rstrip (s : string) : string :=
  match s with
  | EmptyString => EmptyString
  | String c s' =>
      let r := rstrip s' in
      if is_empty r && is_space c then EmptyString else String c r
  end.

Definition strip (s : string) : string := rstrip (lstrip s).

(** [s.startswith(p)]. *)
Fixpoint startswith (p s : string) : bool :=
  match p, s with
  | EmptyString, _ => true
  | String a p', String c s' => Ascii.eqb a c && startswith p' s'
  | String _ _, EmptyString => false
  end.

(** [sub in s], for a non-empty [sub]. *)
Fixpoint contains (sub s : string) : bool :=
  startswith sub s ||
  match s with
  | EmptyString => false
  | String _ s' => contains sub s'
  end.

(** [s.split()]: the maximal runs of non-blank characters. *)
Fixpoint split (s : string) : list string :=
  match s with
  | EmptyString => []
  | String c s' =>
      if is_space c then split s'
      else match s' with
           | EmptyString => [String c EmptyString]
           | String c' _ =>
               if is_space c' then String c EmptyString :: split s'
               else match split s' with
                    | w :: ws => String c w :: ws
                    | [] => [String c EmptyString]
                    end
           end
  end.

(** [s.split(sep)] for a one-character separator: always at least one
    piece, empty pieces kept. *)
Fixpoint split_on (sep : ascii) (s : string) : list string :=
  match s with
  | EmptyString => [EmptyString]
  | String c s' =>
      if Ascii.eqb c sep then EmptyString :: split_on sep s'
      else match split_on sep s' with
           | w :: ws => String c w :: ws
           | [] => [String c EmptyString]
           end
  end.

(** [s.splitlines()]: CR LF is one boundary; no empty last line. *)
Fixpoint splitlines (s : string) : list string :=
  match s with
  | EmptyString => []
  | String c s' =>
      if is_linebreak c then
        EmptyString ::
          (if Ascii.eqb c CR then
             match s' with
             | String c' s'' => if Ascii.eqb c' LF then splitlines s'' else splitlines s'
             | EmptyString => []
             end
           else splitlines s')
      else match splitlines s' with
           | w :: ws => String c w :: ws
           | [] => [String c EmptyString]
           end
  end.

(** [s.replace(old, new)] for a non-empty [old]: occurrences are taken
    left to right and do not overlap.  [skip] counts the characters of
    an occurrence still to be passed over. *)
Fixpoint replace_from (old new : string) (skip : nat) (s : string) : string :=
  match s with
  | EmptyString => EmptyString
  | String c s' =>
      match skip with
      | S k => replace_from old new k s'
      | 0 =>
          if startswith old s
          then new ++ replace_from old new (String.length old - 1) s'
          else String c (replace_from old new 0 s')
      end
  end.

Definition replace (old new s : string) : string := replace_from old new 0 s.

(** [''.join(l)]. *)
Definition join (l : list string) : string := List.fold_right String.append EmptyString l.

(** [str(n)] for a natural number. *)
Definition of_nat (n : nat) : string := NilEmpty.string_of_uint (Nat.to_uint n).

(** The value of a string of decimal digits ([int(s)] on such a string). *)
Definition digit_val (c : ascii) : Z := Z.of_nat (code c - 48).

Fixpoint int_digits_acc (acc : Z) (s : string) : Z :=
  match s with
  | EmptyString => acc
  | String c s' => int_digits_acc (10 * acc + digit_val c)%Z s'
  end.

Definition int_digits (s : string) : Z := int_digits_acc 0%Z s.

End PyStr.

(* ================================================================== *)
(** * Regular expressions *)
(* ================================================================== *)

Module Re.
Import PyChar PyStr.

(** The constructs the patterns of app.py use.  [Chr p] is one character
    of a class; [Star] is the greedy [*]; [Grp n] is the n-th capturing
    group; [Bol] and [Eol] are [^] and [$] without MULTILINE. *)
Inductive regex : Type :=
| Eps
| Chr (p : ascii -> bool)
| Cat (r1 r2 : regex)
| Alt (r1 r2 : regex)
| Star (r : regex)
| Grp (n : nat) (r : regex)
| Bol
| Eol.

(** [r+], [r?], a literal, a case-insensitive literal. *)
Definition Plus (r : regex) : regex := Cat r (Star r).
Definition Opt (r : regex) : regex := Alt r Eps.

Fixpoint Lit (s : string) : regex :=
  match s with
  | EmptyString => Eps
  | String c s' => Cat (Chr (is_char c)) (Lit s')
  end.

Fixpoint LitCI (s : string) : regex :=
  match s with
  | EmptyString => Eps
  | String c s' => Cat (Chr (is_ci c)) (LitCI s')
  end.

(** Captured groups, most recent first. *)
Definition captures : Type := list (nat * string).

Fixpoint group (n : nat) (caps : captures) : option string :=
  match caps with
  | [] => None
  | (k, v) :: caps' => if (k =? n)%nat then Some v else group n caps'
  end.

(** The greedy star over a matcher [body]: one more iteration first,
    then stopping.  An iteration that consumes nothing is not repeated,
    so [String.length s] iterations are enough. *)
Fixpoint iterate (body : string -> captures -> list (string * captures))
  (n : nat) (s : string) (caps : captures) {struct n}
  : list (string * captures) :=
  match n with
  | 0 => [(s, caps)]
  | S n' =>
      (flat_map
         (fun x =>
            if (String.length (fst x) <? String.length s)%nat
            then iterate body n' (fst x) (snd x) else [])
         (body s caps)
       ++ [(s, caps)])%list
  end.

(** [run total r s caps]: every way [r] matches a prefix of [s], as the
    remaining input and the captures, in the order a backtracking
    matcher tries them (so the head is the match Python reports).
    [total] is the length of the whole subject, for [^]. *)
Fixpoint run (total : nat) (r : regex) (s : string) (caps : captures)
  {struct r} : list (string * captures) :=
  match r with
  | Eps => [(s, caps)]
  | Chr p =>
      match s with
      | String c s' => if p c then [(s', caps)] else []
      | EmptyString => []
      end
  | Cat r1 r2 =>
      flat_map (fun x => run total r2 (fst x) (snd x)) (run total r1 s caps)
  | Alt r1 r2 => (run total r1 s caps ++ run total r2 s caps)%list
  | Star r1 => iterate (run total r1) (String.length s) s caps
  | Grp n r1 =>
      List.map
        (fun x => (fst x, (n, take (String.length s - String.length (fst x)) s) :: snd x))
        (run total r1 s caps)
  | Bol => if (String.length s =? total)%nat then [(s, caps)] else []
  | Eol =>
      match s with
      | EmptyString => [(s, caps)]
      | String c EmptyString => if Ascii.eqb c LF then [(s, caps)] else []
      | String _ (String _ _) => []
      end
  end.

(** A match object: the matched text ([m.group(0)]), the input after
    it, and the groups. *)
Record rmatch : Type := mkMatch {
  m_text : string;
  m_rest : string;
  m_caps : captures
}.

Definition m_group (n : nat) (m : rmatch) : string :=
  match group n (m_caps m) with Some v => v | None => EmptyString end.

Definition to_match (s : string) (x : string * captures) : rmatch :=
  mkMatch (take (String.length s - String.length (fst x)) s) (fst x) (snd x).

(** A match starting exactly at the head of [s], the suffix of a subject
    of length [total]. *)
Definition match_at (total : nat) (r : regex) (s : string) : option rmatch :=
  match run total r s [] with
  | x :: _ => Some (to_match s x)
  | [] => None
  end.

(** [re.match(r, s)]. *)
Definition re_match (r : regex) (s : string) : option rmatch :=
  match_at (String.length s) r s.

(** [re.fullmatch(r, s)]: the first way to match that reaches the end. *)
Definition re_fullmatch (r : regex) (s : string) : option rmatch :=
  match List.filter (fun x => is_empty (fst x)) (run (String.length s) r s []) with
  | x :: _ => Some (to_match s x)
  | [] => None
  end.

(** [re.search(r, s)]: the leftmost position with a match, the end of the
    subject included. *)
Fixpoint search_from (total : nat) (r : regex) (s : string) : option rmatch :=
  match match_at total r s with
  | Some m => Some m
  | None =>
      match s with
      | EmptyString => None
      | String _ s' => search_from total r s'
      end
  end.

Definition re_search (r : regex) (s : string) : option rmatch :=
  search_from (String.length s) r s.

(** [re.findall(r, s)] for a pattern without groups: the texts of the
    successive non-overlapping matches.  [skip] counts the characters of
    the last match still to be passed over; after an empty match the
    scan moves on by one character. *)
Fixpoint findall_from (total : nat) (r : regex) (skip : nat) (s : string)
  : list string :=
  match skip with
  | S k =>
      match s with
      | EmptyString => []
      | String _ s' => findall_from total r k s'
      end
  | 0 =>
      match match_at total r s with
      | Some m =>
          m_text m ::
            match s with
            | EmptyString => []
            | String _ s' => findall_from total r (String.length (m_text m) - 1) s'
            end
      | None =>
          match s with
          | EmptyString => []
          | String _ s' => findall_from total r 0 s'
          end
      end
  end.

Definition re_findall (r : regex) (s : string) : list string :=
  findall_from (String.length s) r 0 s.

(** [re.sub(r, repl, s)] for a replacement without group references. *)
Fixpoint sub_from (total : nat) (r : regex) (repl : string) (skip : nat)
  (s : string) : string :=
  match skip with
  | S k =>
      match s with
      | EmptyString => EmptyString
      | String _ s' => sub_from total r repl k s'
      end
  | 0 =>
      match match_at total r s with
      | Some m =>
          match String.length (m_text m), s with
          | S k, String _ s' => repl ++ sub_from total r repl k s'
          | 0, String c s' => repl ++ String c (sub_from total r repl 0 s')
          | _, EmptyString => repl
          end
      | None =>
          match s with
          | EmptyString => EmptyString
          | String c s' => String c (sub_from total r repl 0 s')
          end
      end
  end.

Definition re_sub (r : regex) (repl s : string) : string :=
  sub_from (String.length s) r repl 0 s.

End Re.

(* ================================================================== *)
(** * Python values and exceptions *)
(* ================================================================== *)

Module Py.
Import PyChar PyStr.

(** The values that flow through app.py: JSON-like data.  A dictionary
    is its items in insertion order; keys are strings and pairwise
    distinct, and a lookup takes the first item with the key. *)
Inductive pyval : Type :=
| PNone
| PBool (b : bool)
| PInt (z : Z)
| PStr (s : string)
| PList (l : list pyval)
| PDict (d : list (string * pyval)).

Inductive exn_kind : Type :=
| AttributeError | TypeError | KeyError | IndexError | OtherError.

(** An exception: its class and [str(e)]. *)
Record exn : Type := mkExn { exn_kind_of : exn_kind; exn_msg : string }.

(** The outcome of evaluating code that may raise. *)
Inductive res (A : Type) : Type :=
| Ok (a : A)
| Raise (e : exn).
Arguments Ok {A} a.
Arguments Raise {A} e.

Definition bind {A B : Type} (m : res A) (f : A -> res B) : res B :=
  match m with
  | Ok a => f a
  | Raise e => Raise e
  end.

(** [bool(v)]. *)
Definition truthy (v : pyval) : bool :=
  match v with
  | PNone => false
  | PBool b => b
  | PInt z => negb (Z.eqb z 0)
  | PStr s => negb (is_empty s)
  | PList l => match l with [] => false | _ :: _ => true end
  | PDict d => match d with [] => false | _ :: _ => true end
  end.

Definition type_name (v : pyval) : string :=
  match v with
  | PNone => "NoneType"
  | PBool _ => "bool"
  | PInt _ => "int"
  | PStr _ => "str"
  | PList _ => "list"
  | PDict _ => "dict"
  end.

Definition no_attribute (v : pyval) (attr : string) : exn :=
  mkExn AttributeError ("'" ++ type_name v ++ "' object has no attribute '" ++ attr ++ "'").

Definition not_subscriptable (v : pyval) : exn :=
  mkExn TypeError ("'" ++ type_name v ++ "' object is not subscriptable").

Definition expected_string (v : pyval) : exn :=
  mkExn TypeError ("expected string or bytes-like object, got '" ++ type_name v ++ "'").

Fixpoint lookup (k : string) (d : list (string * pyval)) : option pyval :=
  match d with
  | [] => None
  | (k', v) :: d' => if String.eqb k' k then Some v else lookup k d'
  end.

(** [v.get(k, dflt)]; only a dictionary has the method. *)
Definition get_default (v : pyval) (k : string) (dflt : pyval) : res pyval :=
  match v with
  | PDict d => Ok (match lookup k d with Some x => x | None => dflt end)
  | _ => Raise (no_attribute v "get")
  end.

(** [v.get(k)]. *)
Definition get (v : pyval) (k : string) : res pyval := get_default v k PNone.

(** [a or b], where [b] is only evaluated when [a] is falsy. *)
Definition por (a : pyval) (b : res pyval) : res pyval :=
  if truthy a then Ok a else b.

(** [v.strip()]; only a string has the method. *)
Definition strip_of (v : pyval) : res string :=
  match v with
  | PStr s => Ok (strip s)
  | _ => Raise (no_attribute v "strip")
  end.

(** The subject of an [re] function must be a string. *)
Definition subject (v : pyval) : res string :=
  match v with
  | PStr s => Ok s
  | _ => Raise (expected_string v)
  end.

(** [v[0]]. *)
Definition item0 (v : pyval) : res pyval :=
  match v with
  | PList (x :: _) => Ok x
  | PList [] => Raise (mkExn IndexError "list index out of range")
  | PStr (String c _) => Ok (PStr (String c EmptyString))
  | PStr EmptyString => Raise (mkExn IndexError "string index out of range")
  | PDict _ => Raise (mkExn KeyError "0")
  | _ => Raise (not_subscriptable v)
  end.

(** [v[:50]], evaluated for a log line; a list or a string can be sliced
    (exception texts as in CPython 3.12). *)
Definition slice50 (v : pyval) : res pyval :=
  match v with
  | PStr s => Ok (PStr (take 50 s))
  | PList l => Ok (PList (firstn 50 l))
  | PDict _ => Raise (mkExn KeyError "slice(None, 50, None)")
  | _ => Raise (not_subscriptable v)
  end.

Definition is_dict (v : pyval) : bool :=
  match v with PDict _ => true | _ => false end.

Definition is_list (v : pyval) : bool :=
  match v with PList _ => true | _ => false end.

(** [str(z)] for an integer. *)
Definition str_of_Z (z : Z) : string := NilEmpty.string_of_int (Z.to_int z).

(** What the embedding leaves to the interpreter and to the two
    external collaborators:
    - [int_of_str s] is [int(s)] on a string, [None] when it raises;
    - [container_str v] is [str(v)] on a list or a dictionary;
    - [indra_import_error] is the exception of
      [from indra.literature.pubmed_client import get_metadata_for_ids],
      if it raises;
    - [get_metadata_for_ids ids] is that call with [get_abstracts=True]
      and [detailed_authors=False];
    - [agent_final url] is what importing, building and running the
      browsing agent on the instructions for [url] ends in: an exception, or the
      agent's final result, a string or [None]. *)
Record world : Type := mkWorld {
  int_of_str : string -> option Z;
  container_str : pyval -> string;
  indra_import_error : option exn;
  get_metadata_for_ids : list string -> res pyval;
  agent_final : string -> res (option string)
}.

(** [str(v)]. *)
Definition str_of (W : world) (v : pyval) : string :=
  match v with
  | PStr s => s
  | PNone => "None"
  | PBool true => "True"
  | PBool false => "False"
  | PInt z => str_of_Z z
  | PList _ | PDict _ => container_str W v
  end.

(** [int(v)], [None] when it raises. *)
Definition int_of (W : world) (v : pyval) : option Z :=
  match v with
  | PInt z => Some z
  | PBool b => Some (if b then 1 else 0)%Z
  | PStr s => int_of_str W s
  | PNone | PList _ | PDict _ => None
  end.

End Py.

(* ================================================================== *)
(** * app.py *)
(* ================================================================== *)

Module App.
Import PyChar PyStr Re Py.

Notation "x <- m ;; k" := (bind m (fun x => k))
  (at level 61, m at next level, right associativity).

(** ** The patterns, in the order they appear in the source *)

Definition digit : regex := Chr is_digit.
Definition blank : regex := Chr is_space.

(** [(19|20)\d{2}] *)
Definition year_re : regex :=
  Cat (Grp 1 (Alt (Lit "19") (Lit "20"))) (Cat digit digit).

(** [https?://[^\s\)\]]+] *)
Definition url_char (c : ascii) : bool :=
  negb (is_space c || is_char ")" c || is_char "]" c).

Definition url_re : regex :=
  Cat (Lit "http") (Cat (Opt (Chr (is_char "s")))
    (Cat (Lit "://") (Plus (Chr url_char)))).

(** [[\.,;:]+$] *)
Definition is_trailing_punct (c : ascii) : bool :=
  is_char "." c || is_char "," c || is_char ";" c || is_char ":" c.

Definition trailing_punct_re : regex :=
  Cat (Plus (Chr is_trailing_punct)) Eol.

(** [^\s*([^:]+)\s*:\s*(G2)$] where the second group G2 is a dot under
    a star: any run of characters other than LF. *)
Definition not_colon (c : ascii) : bool := negb (is_char ":" c).
Definition not_newline (c : ascii) : bool := negb (is_char LF c).

Definition line_re : regex :=
  Cat Bol (Cat (Star blank) (Cat (Grp 1 (Plus (Chr not_colon)))
    (Cat (Star blank) (Cat (Chr (is_char ":")) (Cat (Star blank)
      (Cat (Grp 2 (Star (Chr not_newline))) Eol)))))).

(** [[_\-\s]+] *)
Definition is_label_sep (c : ascii) : bool :=
  is_char "_" c || is_char "-" c || is_space c.

Definition label_sep_re : regex := Plus (Chr is_label_sep).

(** [([A-Za-z0-9._%+-]+@[A-Za-z0-9.-]+\.[A-Za-z]{2,})] *)
Definition is_email_local (c : ascii) : bool :=
  is_alnum c || is_char "." c || is_char "_" c || is_char "%" c
  || is_char "+" c || is_char "-" c.

Definition is_email_domain (c : ascii) : bool :=
  is_alnum c || is_char "." c || is_char "-" c.

Definition email_body : regex :=
  Cat (Plus (Chr is_email_local)) (Cat (Chr (is_char "@"))
    (Cat (Plus (Chr is_email_domain)) (Cat (Chr (is_char "."))
      (Cat (Chr is_alpha) (Cat (Chr is_alpha) (Star (Chr is_alpha))))))).

Definition email_re : regex := Grp 1 email_body.

(** [\s*[\(\[]?[A-Za-z0-9._%+-]+@[A-Za-z0-9.-]+\.[A-Za-z]{2,}[\)\]]?\s*] *)
Definition is_open_bracket (c : ascii) : bool := is_char "(" c || is_char "[" c.
Definition is_close_bracket (c : ascii) : bool := is_char ")" c || is_char "]" c.

Definition email_strip_re : regex :=
  Cat (Star blank) (Cat (Opt (Chr is_open_bracket))
    (Cat email_body (Cat (Opt (Chr is_close_bracket)) (Star blank)))).

(** [^[A-Z]+\d+$], [^([A-Z]+)], [\d], [^\d+$] *)
Definition upper_digits_re : regex :=
  Cat Bol (Cat (Plus (Chr is_upper)) (Cat (Plus digit) Eol)).

Definition upper_prefix_re : regex := Cat Bol (Grp 1 (Plus (Chr is_upper))).

Definition all_digits_re : regex := Cat Bol (Cat (Plus digit) Eol).

(** [https?://(?:www\.)?([^/\.]+)] *)
Definition is_label_char (c : ascii) : bool :=
  negb (is_char "/" c || is_char "." c).

Definition domain_re : regex :=
  Cat (Lit "http") (Cat (Opt (Chr (is_char "s"))) (Cat (Lit "://")
    (Cat (Opt (Lit "www.")) (Grp 1 (Plus (Chr is_label_char)))))).

(** [(?i)\s*(?:v|version)\s*\d+(?:\.\d+)*$] *)
Definition version_re : regex :=
  Cat (Star blank) (Cat (Alt (LitCI "v") (LitCI "version"))
    (Cat (Star blank) (Cat (Plus digit)
      (Cat (Star (Cat (Chr (is_char ".")) (Plus digit))) Eol)))).

(** [[^0-9a-zA-Z]+] *)
Definition non_alnum_re : regex := Plus (Chr (fun c => negb (is_alnum c))).

(** [\d+] *)
Definition pmid_re : regex := Plus digit.

(** ** Text scanner (lines 66-68 and 461-462)

    [raw_urls = re.findall(r"https?://[^\s\)\]]+", text)] and
    [urls = [re.sub(r"[\.,;:]+$", "", u) for u in raw_urls]]. *)
Definition scan_urls (text : string) : list string :=
  List.map (re_sub trailing_punct_re "") (re_findall url_re text).

(** ** extract_pubmed_metadata (lines 13-90) *)

Definition error_dict (msg : string) : pyval := PDict [("error", PStr msg)].

(** [raw.get(str(pmid)) or list(raw.values())[0]] for a dictionary,
    [raw] itself otherwise. *)
Definition select_item (raw : pyval) (pmid : string) : res pyval :=
  match raw with
  | PDict d =>
      v <- get raw pmid ;;
      por v (match d with
             | (_, x) :: _ => Ok x
             | [] => Raise (mkExn IndexError "list index out of range")
             end)
  | _ => Ok raw
  end.

Definition first_author_of (W : world) (authors : pyval) : res pyval :=
  if truthy authors then
    a0 <- item0 authors ;;
    if is_dict a0 then
      n <- get a0 "name" ;;
      por n (f <- get a0 "fullname" ;; por f (Ok (PStr "")))
    else Ok (PStr (str_of W a0))
  else Ok (PStr "").

Definition year_of (W : world) (item : pyval) : res pyval :=
  y <- get item "year" ;;
  if truthy y then
    Ok (match int_of W y with Some z => PInt z | None => PNone end)
  else
    pd <- get item "pubdate" ;;
    pubdate <- por pd (Ok (PStr "")) ;;
    text <- subject pubdate ;;
    Ok (match re_search year_re text with
        | Some m => PInt (int_digits (m_text m))
        | None => PNone
        end).

Definition nonempty (s : string) : bool := negb (is_empty s).

Definition keywords_of (W : world) (item : pyval) : res pyval :=
  if is_dict item then
    k1 <- get item "keywords" ;;
    kw <- por k1 (k2 <- get item "mesh_terms" ;;
                  por k2 (k3 <- get item "keyword" ;;
                          por k3 (get item "subject"))) ;;
    if truthy kw then
      match kw with
      | PList l =>
          Ok (PList (List.map (fun x => PStr (strip (str_of W x)))
                              (List.filter truthy l)))
      | _ =>
          Ok (PList (List.map (fun k => PStr (strip k))
                              (List.filter (fun k => nonempty (strip k))
                                           (split_on "," (str_of W kw)))))
      end
    else Ok (PList [])
  else Ok (PList []).

(** Lines 39-90: the fields read from the selected record. *)
Definition normalize_item (W : world) (pmid : string) (item : pyval) : res pyval :=
  t <- get item "title" ;;
  title <- por t (Ok (PStr "")) ;;
  d1 <- get item "doi" ;;
  doi <- por d1 (d2 <- get item "elocationid" ;; por d2 (Ok (PStr ""))) ;;
  a <- get item "abstract" ;;
  abstract <- por a (Ok (PStr "")) ;;
  au1 <- get item "authors" ;;
  authors <- por au1 (au2 <- get item "author_list" ;;
                      por au2 (Ok (PList []))) ;;
  first_author <- first_author_of W authors ;;
  year <- year_of W item ;;
  text <- subject abstract ;;
  let urls := scan_urls text in
  let homepage := match urls with u :: _ => u | [] => "" end in
  keywords <- keywords_of W item ;;
  Ok (PDict [("title", title);
             ("doi", doi);
             ("abstract", abstract);
             ("first_author", first_author);
             ("pmid", PStr pmid);
             ("year", year);
             ("homepage", PStr homepage);
             ("keywords", keywords)]).

Definition extract_pubmed_metadata (W : world) (pmid : string) : res pyval :=
  match indra_import_error W with
  | Some e => Ok (error_dict ("INDRA import error: " ++ exn_msg e))
  | None =>
      match get_metadata_for_ids W [pmid] with
      | Raise e => Ok (error_dict ("PubMed fetch error: " ++ exn_msg e))
      | Ok raw =>
          if negb (truthy raw) then
            Ok (error_dict "No metadata returned from PubMed")
          else
            item <- select_item raw pmid ;;
            normalize_item W pmid item
      end
  end.

(** ** extract_database_info (lines 93-341) *)

(** The dictionary [extracted]: ten fixed keys. *)
Record extracted : Type := mkExtracted {
  e_name : string;
  e_prefix : string;
  e_description : string;
  e_homepage : string;
  e_example : string;
  e_pattern : string;
  e_uri_format : string;
  e_contact_name : string;
  e_contact_email : string;
  e_keywords : list string
}.

Definition extracted_init : extracted :=
  mkExtracted "" "" "" "" "" "" "" "" "" [].

Definition set_name (v : string) (e : extracted) : extracted :=
  mkExtracted v (e_prefix e) (e_description e) (e_homepage e) (e_example e)
    (e_pattern e) (e_uri_format e) (e_contact_name e) (e_contact_email e) (e_keywords e).
Definition set_prefix (v : string) (e : extracted) : extracted :=
  mkExtracted (e_name e) v (e_description e) (e_homepage e) (e_example e)
    (e_pattern e) (e_uri_format e) (e_contact_name e) (e_contact_email e) (e_keywords e).
Definition set_description (v : string) (e : extracted) : extracted :=
  mkExtracted (e_name e) (e_prefix e) v (e_homepage e) (e_example e)
    (e_pattern e) (e_uri_format e) (e_contact_name e) (e_contact_email e) (e_keywords e).
Definition set_homepage (v : string) (e : extracted) : extracted :=
  mkExtracted (e_name e) (e_prefix e) (e_description e) v (e_example e)
    (e_pattern e) (e_uri_format e) (e_contact_name e) (e_contact_email e) (e_keywords e).
Definition set_example (v : string) (e : extracted) : extracted :=
  mkExtracted (e_name e) (e_prefix e) (e_description e) (e_homepage e) v
    (e_pattern e) (e_uri_format e) (e_contact_name e) (e_contact_email e) (e_keywords e).
Definition set_pattern (v : string) (e : extracted) : extracted :=
  mkExtracted (e_name e) (e_prefix e) (e_description e) (e_homepage e) (e_example e)
    v (e_uri_format e) (e_contact_name e) (e_contact_email e) (e_keywords e).
Definition set_uri_format (v : string) (e : extracted) : extracted :=
  mkExtracted (e_name e) (e_prefix e) (e_description e) (e_homepage e) (e_example e)
    (e_pattern e) v (e_contact_name e) (e_contact_email e) (e_keywords e).
Definition set_contact_name (v : string) (e : extracted) : extracted :=
  mkExtracted (e_name e) (e_prefix e) (e_description e) (e_homepage e) (e_example e)
    (e_pattern e) (e_uri_format e) v (e_contact_email e) (e_keywords e).
Definition set_contact_email (v : string) (e : extracted) : extracted :=
  mkExtracted (e_name e) (e_prefix e) (e_description e) (e_homepage e) (e_example e)
    (e_pattern e) (e_uri_format e) (e_contact_name e) v (e_keywords e).
Definition set_keywords (v : list string) (e : extracted) : extracted :=
  mkExtracted (e_name e) (e_prefix e) (e_description e) (e_homepage e) (e_example e)
    (e_pattern e) (e_uri_format e) (e_contact_name e) (e_contact_email e) v.

(** [text = (final or "").replace('\\n', '\n')]: a backslash followed by
    the letter n becomes a line feed. *)
Definition reply_text (final : option string) : string :=
  replace (String BACKSLASH "n") (String LF "")
          (match final with Some f => f | None => "" end).

(** [[ln.strip() for ln in text.splitlines() if ln.strip()]] *)
Definition reply_lines (text : string) : list string :=
  List.map strip (List.filter (fun ln => nonempty (strip ln)) (splitlines text)).

(** [[kw.strip() for kw in val.split(',') if kw.strip()][:3]] *)
Definition parse_keywords (val : string) : list string :=
  firstn 3 (List.map strip
              (List.filter (fun kw => nonempty (strip kw)) (split_on "," val))).

(** [re.sub(r"[_\-\s]+", "_", raw_label).lower()] *)
Definition normalize_label (raw_label : string) : string :=
  lower (re_sub label_sep_re "_" raw_label).

(** The body of the loop over the lines (lines 255-285). *)
Definition parse_line (e : extracted) (ln : string) : extracted :=
  match re_match line_re ln with
  | None => e
  | Some m =>
      let raw_label := strip (m_group 1 m) in
      let val := strip (m_group 2 m) in
      let label_norm := normalize_label raw_label in
      if String.eqb label_norm "name" then set_name val e
      else if String.eqb label_norm "prefix" then set_prefix (lower val) e
      else if String.eqb label_norm "description" then set_description val e
      else if String.eqb label_norm "homepage" then set_homepage val e
      else if String.eqb label_norm "example" then set_example val e
      else if String.eqb label_norm "pattern" then
        set_pattern (replace (String BACKSLASH (String BACKSLASH ""))
                             (String BACKSLASH "") val) e
      else if contains "uri" label_norm && contains "format" label_norm then
        set_uri_format val e
      else if String.eqb label_norm "contact_name" then set_contact_name val e
      else if String.eqb label_norm "contact_email" then set_contact_email val e
      else if String.eqb label_norm "keywords" then set_keywords (parse_keywords val) e
      else e
  end.

Definition parse_lines (lines : list string) : extracted :=
  List.fold_left parse_line lines extracted_init.

(** Lines 288-292: an e-mail address inside the contact name. *)
Definition infer_email (e : extracted) : extracted :=
  if is_empty (e_contact_email e) && nonempty (e_contact_name e) then
    match re_search email_re (e_contact_name e) with
    | Some m =>
        set_contact_name (strip (re_sub email_strip_re "" (e_contact_name e)))
          (set_contact_email (m_group 1 m) e)
    | None => e
    end
  else e.

(** Lines 295-303: a pattern synthesized from the example.  The second
    [re.match] is applied [.group(1)] without a test. *)
Definition infer_pattern (e : extracted) : res extracted :=
  if is_empty (e_pattern e) && nonempty (e_example e) then
    let example := e_example e in
    match re_match upper_digits_re example with
    | Some _ =>
        match re_match upper_prefix_re example with
        | Some m =>
            let letters := m_group 1 m in
            let digits := List.length (re_findall digit example) in
            Ok (set_pattern ("^" ++ letters ++ "\d{" ++ of_nat digits ++ "}$") e)
        | None => Raise (no_attribute PNone "group")
        end
    | None =>
        match re_match all_digits_re example with
        | Some _ =>
            let digits := String.length example in
            Ok (set_pattern ("^\d{" ++ of_nat digits ++ "}$") e)
        | None => Ok e
        end
    end
  else Ok e.

(** Lines 306-307. *)
Definition default_homepage (homepage_url : string) (e : extracted) : extracted :=
  if is_empty (e_homepage e) then set_homepage homepage_url e else e.

(** Lines 310-313: [''.join([w[0] for w in words if w]).lower()]. *)
Definition first_chars (words : list string) : string :=
  join (List.map (take 1) (List.filter nonempty words)).

Definition derive_prefix (e : extracted) : extracted :=
  if is_empty (e_prefix e) && nonempty (e_name e) then
    set_prefix (lower (first_chars (split (e_name e)))) e
  else e.

(** The returned dictionary (lines 327-341). *)
Definition database_info (e : extracted) : pyval :=
  PDict [("name", PStr (e_name e));
         ("prefix", PStr (e_prefix e));
         ("description", PStr (e_description e));
         ("homepage", PStr (e_homepage e));
         ("example", PStr (e_example e));
         ("pattern", PStr (e_pattern e));
         ("uri_format", PStr (e_uri_format e));
         ("keywords", PList (List.map PStr (e_keywords e)));
         ("contact", PDict [("email", PStr (e_contact_email e));
                            ("name", PStr (e_contact_name e));
                            ("orcid", PStr "")])].

(** Everything after the agent has answered: lines 244-313.  The
    warnings of lines 316-323 only write to the log. *)
Definition post_process (homepage_url : string) (e : extracted) : res extracted :=
  e2 <- infer_pattern (infer_email e) ;;
  Ok (derive_prefix (default_homepage homepage_url e2)).

Definition parse_reply (final : option string) (homepage_url : string)
  : res extracted :=
  post_process homepage_url (parse_lines (reply_lines (reply_text final))).

(** [agent_final] stands for lines 95-241: the import, the agent's run
    and [result.final_result()]. *)
Definition extract_database_info (W : world) (homepage_url : string) : res pyval :=
  final <- agent_final W homepage_url ;;
  e <- parse_reply final homepage_url ;;
  Ok (database_info e).

(** ** format_bioregistry_json (lines 344-429) *)

(** [db.get(k) if db else ""] *)
Definition db_field (db : pyval) (k : string) : res pyval :=
  if truthy db then get db k else Ok (PStr "").

(** [(db.get("homepage") if db else "") or pubmed.get("homepage", "")] *)
Definition resolve_homepage (pubmed db : pyval) : res pyval :=
  h <- db_field db "homepage" ;;
  por h (get_default pubmed "homepage" (PStr "")).

(** Lines 351-354. *)
Definition derive_name (homepage : string) : string :=
  match re_search domain_re homepage with
  | Some m => m_group 1 m
  | None => "database"
  end.

(** Lines 357-361. *)
Definition clean_name (name : string) : string :=
  strip (re_sub version_re "" name).

Definition or_str (a b : string) : string := if is_empty a then b else a.

Definition derive_key (name : string) : string :=
  or_str (lower (re_sub non_alnum_re "" (clean_name name))) "database_key".

(** Lines 367-373. *)
Definition contact_of (db : pyval) : res pyval :=
  let empty := PDict [("email", PStr ""); ("name", PStr ""); ("orcid", PStr "")] in
  if truthy db then
    contact_raw <- get db "contact" ;;
    if truthy contact_raw then
      if is_dict contact_raw then
        email <- get_default contact_raw "email" (PStr "") ;;
        name <- get_default contact_raw "name" (PStr "") ;;
        orcid <- get_default contact_raw "orcid" (PStr "") ;;
        Ok (PDict [("email", email); ("name", name); ("orcid", orcid)])
      else Ok empty
    else Ok empty
  else Ok empty.

(** Lines 376-381. *)
Definition contributor_of (contributor : pyval) : res pyval :=
  if truthy contributor && is_dict contributor then
    n <- get_default contributor "name" (PStr "") ;;
    name <- por n (Ok (PStr "")) ;;
    e <- get_default contributor "email" (PStr "") ;;
    email <- por e (Ok (PStr "")) ;;
    o <- get_default contributor "orcid" (PStr "") ;;
    orcid <- por o (Ok (PStr "")) ;;
    g <- get_default contributor "github" (PStr "") ;;
    github <- por g (Ok (PStr "")) ;;
    Ok (PDict [("email", email); ("github", github); ("name", name); ("orcid", orcid)])
  else
    Ok (PDict [("email", PStr ""); ("github", PStr ""); ("name", PStr "");
               ("orcid", PStr "")]).

(** Lines 391-400. *)
Definition keywords_for (pubmed db : pyval) : res pyval :=
  from_pubmed <- (if truthy pubmed then get pubmed "keywords" else Ok PNone) ;;
  if truthy pubmed && truthy from_pubmed then Ok from_pubmed
  else
    from_db <- (if truthy db then get db "keywords" else Ok PNone) ;;
    if truthy db && truthy from_db then Ok from_db
    else Ok (PList []).

(** Lines 403-411. *)
Definition publications_of (pubmed : pyval) : res pyval :=
  if truthy pubmed then
    d <- get pubmed "doi" ;;
    doi <- por d (Ok (PStr "")) ;;
    p <- get pubmed "pmid" ;;
    pm <- por p (Ok (PStr "")) ;;
    t <- get pubmed "title" ;;
    title <- por t (Ok (PStr "")) ;;
    y <- get pubmed "year" ;;
    year <- por y (Ok PNone) ;;
    Ok (PList [PDict [("doi", doi); ("pubmed", pm); ("title", title); ("year", year)]])
  else Ok (PList []).

Definition format_bioregistry_json (pubmed db contributor : pyval) : res pyval :=
  n <- db_field db "name" ;;
  name0 <- strip_of n ;;
  p <- db_field db "prefix" ;;
  prefix0 <- strip_of p ;;
  name <- (if is_empty name0 then
             h <- resolve_homepage pubmed db ;;
             homepage <- subject h ;;
             Ok (derive_name homepage)
           else Ok name0) ;;
  let prefix := if is_empty prefix0 then derive_key name else prefix0 in
  let db_key := prefix in
  contact <- contact_of db ;;
  contributor_info <- contributor_of contributor ;;
  description <- db_field db "description" ;;
  example <- db_field db "example" ;;
  homepage <- resolve_homepage pubmed db ;;
  pattern <- db_field db "pattern" ;;
  uri_format <- db_field db "uri_format" ;;
  keywords <- keywords_for pubmed db ;;
  publications <- publications_of pubmed ;;
  Ok (PDict [(db_key,
              PDict [("contact", contact);
                     ("contributor", contributor_info);
                     ("description", description);
                     ("example", example);
                     ("github_request_issue", PStr "");
                     ("homepage", homepage);
                     ("keywords", keywords);
                     ("name", PStr name);
                     ("pattern", pattern);
                     ("publications", publications);
                     ("uri_format", uri_format)])]).

(** ** extract (lines 437-500) *)

(** What the view function returns: a status code and the JSON body. *)
Record response : Type := mkResponse { status_code : nat; body : pyval }.

Definition invalid_pmid_message : string :=
  "Invalid PMID. Provide numeric PMID like 12345678.".

Definition no_url_message : string :=
  "No homepage URL found in the PubMed abstract; cannot run browser-use scraping.".

Definition error_body (msg : string) : pyval :=
  PDict [("status", PStr "error"); ("message", PStr msg)].

Definition error_body_with_data (msg : string) (data : pyval) : pyval :=
  PDict [("status", PStr "error"); ("message", PStr msg); ("data", data)].

Definition success_body (data : pyval) : pyval :=
  PDict [("status", PStr "success"); ("data", data)].

(** Lines 439-444.  [json] is what [request.get_json()] returned.  The
    result is the rejection, or the identifier and the contributor the
    pipeline runs on. *)
Definition validate (json : pyval) : res (response + string * pyval) :=
  data <- por json (Ok (PDict [])) ;;
  p <- get data "pmid" ;;
  p' <- por p (Ok (PStr "")) ;;
  pmid <- strip_of p' ;;
  c <- get data "contributor" ;;
  contributor <- por c (Ok (PDict [])) ;;
  if is_empty pmid || negb (match re_fullmatch pmid_re pmid with
                        | Some _ => true
                        | None => false
                        end)
  then Ok (inl (mkResponse 400 (error_body invalid_pmid_message)))
  else Ok (inr (pmid, contributor)).

(** The body of the [try] (lines 447-496); an exception that leaves it
    is the one the handler of line 498 receives. *)
Definition pipeline (W : world) (pmid : string) (contributor : pyval) : res response :=
  pubmed <- extract_pubmed_metadata W pmid ;;
  err <- get pubmed "error" ;;
  if truthy err then
    Ok (mkResponse 500 (PDict [("status", PStr "error"); ("message", err)]))
  else
    title <- get_default pubmed "title" (PStr "N/A") ;;
    _ <- slice50 title ;;
    a <- get pubmed "abstract" ;;
    abstract <- por a (Ok (PStr "")) ;;
    abstract_text <- subject abstract ;;
    match scan_urls abstract_text with
    | [] =>
        bioreg_partial <- format_bioregistry_json pubmed PNone contributor ;;
        Ok (mkResponse 400 (error_body_with_data no_url_message bioreg_partial))
    | homepage_url :: _ =>
        match extract_database_info W homepage_url with
        | Raise e =>
            bioreg_partial <- format_bioregistry_json pubmed PNone contributor ;;
            Ok (mkResponse 500
                  (error_body_with_data ("Database scraping failed: " ++ exn_msg e)
                                        bioreg_partial))
        | Ok db_data =>
            bioreg <- format_bioregistry_json pubmed db_data contributor ;;
            Ok (mkResponse 200 (success_body bioreg))
        end
    end.

(** The view function.  [Raise] is an exception that leaves it. *)
Definition extract (W : world) (json : pyval) : res response :=
  v <- validate json ;;
  match v with
  | inl rejection => Ok rejection
  | inr (pmid, contributor) =>
      match pipeline W pmid contributor with
      | Ok r => Ok r
      | Raise e => Ok (mkResponse 500 (error_body (exn_msg e)))
      end
  end.

End App.

(* ================================================================== *)
(** * Reference definitions

    Direct scans that say what the patterns of app.py compute, and the
    claims of the specification in its own words.  The theorems below
    compare them with the functions of [App]. *)
(* ================================================================== *)

Module Ref.
Import PyChar PyStr Re Py App.

(** The longest prefix of [s] whose characters are all in the class. *)
Fixpoint span (p : ascii -> bool) (s : string) : string :=
  match s with
  | String c s' => if p c then String c (span p s') else EmptyString
  | EmptyString => EmptyString
  end.

(** What is left after a greedy [[class]*]: the input after the longest
    run first, then after each shorter one. *)
Fixpoint star_rests (p : ascii -> bool) (s : string) (caps : captures)
  : list (string * captures) :=
  match s with
  | String c s' =>
      if p c then (star_rests p s' caps ++ [(s, caps)])%list else [(s, caps)]
  | EmptyString => [(EmptyString, caps)]
  end.

(** The same for [[class]+]. *)
Definition plus_rests (p : ascii -> bool) (s : string) (caps : captures)
  : list (string * captures) :=
  match s with
  | String c s' => if p c then star_rests p s' caps else []
  | EmptyString => []
  end.

(** ** Text scanner *)

(** [http://] or [https://] at the head of [s]. *)
Definition scheme_of (s : string) : option string :=
  if startswith "http://" s then Some "http://"
  else if startswith "https://" s then Some "https://"
  else None.

(** The run of URL characters at the head of [s], when [s] begins with a
    scheme: the reading of the specification's matching rule. *)
Definition url_run_stated (s : string) : option string :=
  match scheme_of s with
  | Some _ => Some (span url_char s)
  | None => None
  end.

(** The same, when at least one URL character follows the scheme. *)
Definition url_run (s : string) : option string :=
  match scheme_of s with
  | Some scheme =>
      let run := span url_char s in
      if (String.length scheme <? String.length run)%nat then Some run else None
  | None => None
  end.

(** The runs found from left to right; a run found is passed over
    ([skip] counts what is left of it). *)
Fixpoint runs (at_head : string -> option string) (skip : nat) (text : string)
  : list string :=
  match skip with
  | S k =>
      match text with
      | EmptyString => []
      | String _ text' => runs at_head k text'
      end
  | 0 =>
      match at_head text with
      | Some run =>
          run ::
            match text with
            | EmptyString => []
            | String _ text' => runs at_head (String.length run - 1) text'
            end
      | None =>
          match text with
          | EmptyString => []
          | String _ text' => runs at_head 0 text'
          end
      end
  end.

(** [u] without its trailing run of [.], [,], [;], [:]. *)
Fixpoint rstrip_punct (u : string) : string :=
  match u with
  | EmptyString => EmptyString
  | String c u' => if all is_trailing_punct u then EmptyString else String c (rstrip_punct u')
  end.

(** The scanner as the specification words it, and as the code has it. *)
Definition scan_stated (text : string) : list string :=
  List.map rstrip_punct (runs url_run_stated 0 text).

Definition scan_spec (text : string) : list string :=
  List.map rstrip_punct (runs url_run 0 text).

(** ** Database-info extractor *)

(** The first character of every blank-separated word of [s], in order:
    a character is kept when it is not blank and either opens the string
    or follows a blank. *)
Fixpoint initials_from (at_start : bool) (s : string) : string :=
  match s with
  | EmptyString => EmptyString
  | String c s' =>
      if is_space c then initials_from true s'
      else if at_start then String c (initials_from false s')
           else initials_from false s'
  end.

Definition initials (s : string) : string := initials_from true s.

(** The last character of [s] is in the class. *)
Fixpoint last_is (p : ascii -> bool) (s : string) : bool :=
  match s with
  | EmptyString => false
  | String c EmptyString => p c
  | String _ s' => last_is p s'
  end.

(** Letters followed by digits, for a given class of letters. *)
Definition letters_then_digits (letter : ascii -> bool) (example l d : string) : Prop :=
  example = l ++ d /\ l <> "" /\ all letter l = true /\ d <> "" /\ all is_digit d = true.

(** The pattern-inference rule as the specification words it: any
    letters followed by digits give the anchored pattern. *)
Definition pattern_inference_as_stated : Prop :=
  forall (e : extracted) (l d : string),
    e_pattern e = "" ->
    letters_then_digits is_alpha (e_example e) l d ->
    infer_pattern e
    = Ok (set_pattern ("^" ++ l ++ "\d{" ++ of_nat (String.length d) ++ "}$") e).

(** The matching rule as the specification words it. *)
Definition scan_as_stated : Prop :=
  forall text : string, scan_urls text = scan_stated text.

(** ** Validation *)

(** One or more digits. *)
Definition is_digits (s : string) : bool := nonempty s && all is_digit s.

(** The endpoint lets the request through to the pipeline. *)
Definition accepted (r : res (response + string * pyval)) : Prop :=
  exists pmid contributor, r = Ok (inr (pmid, contributor)).

Definition rejected (r : res (response + string * pyval)) : Prop :=
  r = Ok (inl (mkResponse 400 (error_body invalid_pmid_message))).

(** The items of a request body: a JSON object, or nothing when the
    body is null, empty or otherwise falsy. *)
Definition body_items (json : pyval) : option (list (string * pyval)) :=
  match json with
  | PDict d => Some d
  | _ => if truthy json then None else Some []
  end.

(** [d.get(k) or dflt]. *)
Definition field_or (d : list (string * pyval)) (k : string) (dflt : pyval) : pyval :=
  match lookup k d with
  | Some v => if truthy v then v else dflt
  | None => dflt
  end.

(** The validation rule as the specification words it: a body is let
    through exactly when its [pmid] is a string of one or more digits,
    and every other body is answered 400 with the fixed message. *)
Definition validation_as_stated : Prop :=
  forall (d : list (string * pyval)) (v : pyval),
    lookup "pmid" d = Some v ->
    (accepted (validate (PDict d)) <-> exists s, v = PStr s /\ is_digits s = true)
    /\ ((~ exists s, v = PStr s /\ is_digits s = true) -> rejected (validate (PDict d))).

(** ** Record assembler *)

(** The [db] argument: [None], or the dictionary the extractor returns. *)
Definition db_value (db : option extracted) : pyval :=
  match db with
  | Some e => database_info e
  | None => PNone
  end.

(** A field of DatabaseInfo, empty when the record is absent. *)
Definition db_str (f : extracted -> string) (db : option extracted) : string :=
  match db with
  | Some e => f e
  | None => ""
  end.

(** The homepage of the publication record is a string, when present. *)
Definition homepage_is_string (pd : list (string * pyval)) : bool :=
  match lookup "homepage" pd with
  | None => true
  | Some (PStr _) => true
  | Some _ => false
  end.

Definition pubmed_homepage (pd : list (string * pyval)) : string :=
  match lookup "homepage" pd with
  | Some (PStr h) => h
  | _ => ""
  end.

(** DatabaseInfo's homepage, else the one found in the abstract. *)
Definition resolved_homepage (pd : list (string * pyval)) (db : option extracted)
  : string :=
  or_str (db_str e_homepage db) (pubmed_homepage pd).

(** The domain label at the head of [s]: after [http://] or [https://],
    and after [www.] when a label follows it, the run of characters up
    to the next dot or slash. *)
Definition label_at (s : string) : option string :=
  match scheme_of s with
  | Some scheme =>
      let r := drop (String.length scheme) s in
      let r' := if startswith "www." r && nonempty (span is_label_char (drop 4 r))
                then drop 4 r else r in
      let l := span is_label_char r' in
      if nonempty l then Some l else None
  | None => None
  end.

(** The first domain label in [s]. *)
Fixpoint domain_label (s : string) : option string :=
  match label_at s with
  | Some l => Some l
  | None =>
      match s with
      | EmptyString => None
      | String _ s' => domain_label s'
      end
  end.

(** The name of the record: DatabaseInfo's, else the domain label of the
    homepage, else the placeholder. *)
Definition resolved_name (pd : list (string * pyval)) (db : option extracted)
  : string :=
  or_str (strip (db_str e_name db))
         (match domain_label (resolved_homepage pd db) with
          | Some l => l
          | None => "database"
          end).

(** The key of the record: DatabaseInfo's prefix, else the name without
    its version suffix, reduced to its letters and digits, in lower
    case, else the placeholder. *)
Definition resolved_prefix (pd : list (string * pyval)) (db : option extracted)
  : string :=
  or_str (strip (db_str e_prefix db))
         (or_str (lower (filter is_alnum (re_sub version_re "" (resolved_name pd db))))
                 "database_key").

Definition contact_record (db : option extracted) : pyval :=
  PDict [("email", PStr (db_str e_contact_email db));
         ("name", PStr (db_str e_contact_name db));
         ("orcid", PStr "")].

Definition contributor_record (contributor : pyval) : pyval :=
  let d := match contributor with PDict d => d | _ => [] end in
  PDict [("email", field_or d "email" (PStr ""));
         ("github", field_or d "github" (PStr ""));
         ("name", field_or d "name" (PStr ""));
         ("orcid", field_or d "orcid" (PStr ""))].

(** The publication's keywords when it has any, else DatabaseInfo's. *)
Definition resolved_keywords (pd : list (string * pyval)) (db : option extracted)
  : pyval :=
  let from_pubmed := field_or pd "keywords" PNone in
  if truthy from_pubmed then from_pubmed
  else match db with
       | Some e => PList (List.map PStr (e_keywords e))
       | None => PList []
       end.

(** The one publication entry. *)
Definition publication_entry (pd : list (string * pyval)) : pyval :=
  PDict [("doi", field_or pd "doi" (PStr ""));
         ("pubmed", field_or pd "pmid" (PStr ""));
         ("title", field_or pd "title" (PStr ""));
         ("year", field_or pd "year" PNone)].

Definition publications_record (pd : list (string * pyval)) : pyval :=
  match pd with
  | [] => PList []
  | _ :: _ => PList [publication_entry pd]
  end.

(** The record under its key. *)
Definition assembled_record (pd : list (string * pyval)) (db : option extracted)
  (contributor : pyval) : pyval :=
  PDict [("contact", contact_record db);
         ("contributor", contributor_record contributor);
         ("description", PStr (db_str e_description db));
         ("example", PStr (db_str e_example db));
         ("github_request_issue", PStr "");
         ("homepage", PStr (resolved_homepage pd db));
         ("keywords", resolved_keywords pd db);
         ("name", PStr (resolved_name pd db));
         ("pattern", PStr (db_str e_pattern db));
         ("publications", publications_record pd);
         ("uri_format", PStr (db_str e_uri_format db))].

Definition assembled (pd : list (string * pyval)) (db : option extracted)
  (contributor : pyval) : pyval :=
  PDict [(resolved_prefix pd db, assembled_record pd db contributor)].

(** The first character of [s] is in the class. *)
Definition head_is (p : ascii -> bool) (s : string) : bool :=
  match s with
  | String c _ => p c
  | EmptyString => false
  end.

(** The capturing group of the domain pattern. *)
Definition label_group : regex := Grp 1 (Plus (Chr is_label_char)).

(** ** Metadata client *)

(** The client as the specification words it: whatever the service
    does, the call returns a dictionary. *)
Definition client_never_raises : Prop :=
  forall (W : world) (pmid : string),
    exists d, extract_pubmed_metadata W pmid = Ok (PDict d).

(** [d.get(k)]. *)
Definition value_of (d : list (string * pyval)) (k : string) : pyval :=
  match lookup k d with
  | Some v => v
  | None => PNone
  end.

Definition is_str (v : pyval) : bool :=
  match v with PStr _ => true | _ => false end.

(** The record the client reads: the entry of the identifier when it is
    truthy, else the first entry; a reply that is no dictionary is taken
    for the record itself. *)
Definition selected_item (raw : pyval) (pmid : string) : pyval :=
  match raw with
  | PDict d =>
      if truthy (value_of d pmid) then value_of d pmid
      else match d with
           | (_, x) :: _ => x
           | [] => PNone
           end
  | _ => raw
  end.

(** The authors the client reads from a record. *)
Definition authors_of (d : list (string * pyval)) : pyval :=
  field_or d "authors" (field_or d "author_list" (PList [])).

(** The shapes the normalization of lines 39-79 goes through: the
    record is a dictionary; its authors are falsy, a list or a string;
    it has a truthy year, or its publication date is a string or falsy;
    its abstract is a string or falsy. *)
Definition item_shape_ok (item : pyval) : bool :=
  match item with
  | PDict d =>
      (negb (truthy (authors_of d)) || is_list (authors_of d) || is_str (authors_of d))
      && (truthy (value_of d "year") || is_str (field_or d "pubdate" (PStr "")))
      && is_str (field_or d "abstract" (PStr ""))
  | _ => false
  end.

(** The dictionary of lines 81-90. *)
Definition metadata_record (title doi : pyval) (abstract : string)
  (first_author : pyval) (pmid : string) (year keywords : pyval) : pyval :=
  PDict [("title", title);
         ("doi", doi);
         ("abstract", PStr abstract);
         ("first_author", first_author);
         ("pmid", PStr pmid);
         ("year", year);
         ("homepage", PStr (match scan_urls abstract with u :: _ => u | [] => "" end));
         ("keywords", keywords)].

(** A world whose lookup service returns [raw] for every identifier, and
    whose agent answers with [final]. *)
Definition world_of (raw : pyval) (final : res (option string)) : world :=
  mkWorld (fun _ => None) (fun _ => "") None (fun _ => Ok raw) (fun _ => final).

(** The items of a dictionary. *)
Definition items (v : pyval) : list (string * pyval) :=
  match v with
  | PDict d => d
  | _ => []
  end.

(** The abstract of a publication record. *)
Definition abstract_of (r : pyval) : string :=
  match lookup "abstract" (items r) with
  | Some (PStr t) => t
  | _ => ""
  end.

(** The title of a publication record is a string, when present. *)
Definition title_is_string (r : pyval) : bool :=
  match lookup "title" (items r) with
  | None => true
  | Some (PStr _) => true
  | Some _ => false
  end.

(** ** The version suffix of a name *)

(** Groups of a dot and one or more digits. *)
Inductive dot_groups : string -> Prop :=
| dot_groups_nil : dot_groups ""
| dot_groups_cons (d g : string) :
    d <> "" -> all is_digit d = true -> dot_groups g ->
    dot_groups (String "." (d ++ g)).

(** [v] or [version], in any letter case. *)
Definition version_word (v : string) : Prop :=
  lower v = "v" \/ lower v = "version".

(** A version suffix: optional blanks, the version word, optional
    blanks, digits, and groups of a dot and digits. *)
Definition version_suffix (s : string) : Prop :=
  exists b1 v b2 d g,
    s = b1 ++ v ++ b2 ++ d ++ g
    /\ all is_space b1 = true
    /\ version_word v
    /\ all is_space b2 = true
    /\ d <> "" /\ all is_digit d = true
    /\ dot_groups g.

(** [s] cut where the rest first passes the test [b]. *)
Fixpoint cut_at (b : string -> bool) (s : string) : string :=
  match s with
  | EmptyString => EmptyString
  | String c s' => if b s then EmptyString else String c (cut_at b s')
  end.

(** [.] and digits: the repeated group of the version pattern. *)
Definition dot_digits : regex := Cat (Chr (is_char ".")) (Plus digit).

(** ** The year in a publication date *)

(** [19] or [20] and two more digits. *)
Definition is_year (y : string) : bool :=
  (startswith "19" y || startswith "20" y)
  && (String.length y =? 4)%nat && all is_digit y.

(** The first four characters of [s] that read as a year, scanning from
    the left. *)
Fixpoint first_year (s : string) : option string :=
  if is_year (take 4 s) then Some (take 4 s)
  else match s with
       | EmptyString => None
       | String _ s' => first_year s'
       end.

(** ** The lines of the agent's reply *)

(** The pattern of line 255 after its [^]. *)
Definition line_body : regex :=
  Cat (Star blank) (Cat (Grp 1 (Plus (Chr not_colon)))
    (Cat (Star blank) (Cat (Chr (is_char ":")) (Cat (Star blank)
      (Cat (Grp 2 (Star (Chr not_newline))) Eol))))).

(** [s] with every maximal run of characters of the class replaced by
    [repl]; [in_run] says that the character before was in the class. *)
Fixpoint collapse_from (p : ascii -> bool) (repl : string) (in_run : bool)
  (s : string) : string :=
  match s with
  | EmptyString => EmptyString
  | String c s' =>
      if p c then
        if in_run then collapse_from p repl true s'
        else repl ++ collapse_from p repl true s'
      else String c (collapse_from p repl false s')
  end.

Definition collapse (p : ascii -> bool) (repl : string) (s : string) : string :=
  collapse_from p repl false s.

(** The two characters that stand for a line feed in a reply. *)
Definition escaped_newline : string := String BACKSLASH "n".

(** ** Texts without blanks at the ends *)

(** [s] has no blank at either end: [s.strip() == s]. *)
Definition clean (s : string) : bool :=
  negb (head_is is_space s) && negb (last_is is_space s).

Definition not_space (c : ascii) : bool := negb (is_space c).
Definition not_comma (c : ascii) : bool := negb (is_char "," c).
Definition not_linebreak (c : ascii) : bool := negb (is_linebreak c).

(** The arguments of the [replace] of line 276. *)
Definition two_backslashes : string := String BACKSLASH (String BACKSLASH "").
Definition one_backslash : string := String BACKSLASH "".

(** Every text of the record is free of blanks at both ends. *)
Definition fields_clean (e : extracted) : Prop :=
  clean (e_name e) = true
  /\ clean (e_prefix e) = true
  /\ clean (e_description e) = true
  /\ clean (e_homepage e) = true
  /\ clean (e_example e) = true
  /\ clean (e_pattern e) = true
  /\ clean (e_uri_format e) = true
  /\ clean (e_contact_name e) = true
  /\ clean (e_contact_email e) = true
  /\ Forall (fun k => clean k = true) (e_keywords e).

(** ** Derived keys *)

(** A digit or a small letter a-z. *)
Definition is_key_char (c : ascii) : bool := is_digit c || is_lower c.

(** ** Worlds *)

(** [W] with another browsing agent. *)
Definition with_agent (W : world) (f : string -> res (option string)) : world :=
  mkWorld (int_of_str W) (container_str W) (indra_import_error W)
          (get_metadata_for_ids W) f.

(** ** Answers of the endpoint *)

(** An answer is a success with its data and code 200, or an error with
    a message and code 400 or 500. *)
Definition well_formed (r : response) : Prop :=
  (status_code r = 200 /\ exists data, body r = success_body data)
  \/ ((status_code r = 400 \/ status_code r = 500)
      /\ exists msg rest,
           body r = PDict (("status", PStr "error") :: ("message", msg) :: rest)).

End Ref.

(* ================================================================== *)
(** * Characters and strings: basic facts *)
(* ================================================================== *)

Module StrFacts.
Import PyChar PyStr Ref.

Lemma length_append (a b : string) :
  String.length (a ++ b) = String.length a + String.length b.
Proof. induction a as [|c a IH]; simpl; [reflexivity | now rewrite IH]. Qed.

Lemma append_nil_r (a : string) : a ++ "" = a.
Proof. induction a as [|c a IH]; simpl; [reflexivity | now rewrite IH]. Qed.

Lemma append_assoc (a b c : string) : (a ++ b) ++ c = a ++ (b ++ c).
Proof. induction a as [|x a IH]; simpl; [reflexivity | now rewrite IH]. Qed.

Lemma take_length_append (a b : string) : take (String.length a) (a ++ b) = a.
Proof. induction a as [|c a IH]; simpl; [now destruct b | now rewrite IH]. Qed.

Lemma drop_length_append (a b : string) : drop (String.length a) (a ++ b) = b.
Proof. induction a as [|c a IH]; simpl; [reflexivity | exact IH]. Qed.

Lemma take_drop (n : nat) (s : string) : take n s ++ drop n s = s.
Proof.
  revert s; induction n as [|n IH]; intros [|c s]; simpl; try reflexivity.
  now rewrite IH.
Qed.

Lemma length_drop (n : nat) (s : string) :
  String.length (drop n s) = String.length s - n.
Proof.
  revert s; induction n as [|n IH]; intros [|c s]; simpl; try reflexivity.
  apply IH.
Qed.

Lemma take_all (s : string) : take (String.length s) s = s.
Proof. induction s as [|c s IH]; simpl; [reflexivity | now rewrite IH]. Qed.

Lemma startswith_split (p s : string) :
  startswith p s = true -> s = p ++ drop (String.length p) s.
Proof.
  revert s; induction p as [|a p IH]; intros s H; simpl in *.
  - reflexivity.
  - destruct s as [|c s]; [discriminate|].
    apply andb_true_iff in H as [Hc Hs].
    apply Ascii.eqb_eq in Hc; subst c.
    now rewrite <- (IH s Hs).
Qed.

Lemma startswith_append (p r : string) : startswith p (p ++ r) = true.
Proof.
  induction p as [|a p IH]; simpl; [reflexivity|].
  now rewrite Ascii.eqb_refl, IH.
Qed.

Lemma startswith_app (a b s : string) :
  startswith (a ++ b) s = startswith a s && startswith b (drop (String.length a) s).
Proof.
  revert s; induction a as [|x a IH]; intros s; simpl.
  - reflexivity.
  - destruct s as [|c s]; [reflexivity|].
    rewrite IH. now rewrite andb_assoc.
Qed.

Lemma all_append (p : ascii -> bool) (a b : string) :
  all p (a ++ b) = all p a && all p b.
Proof.
  induction a as [|c a IH]; simpl; [reflexivity|].
  now rewrite IH, andb_assoc.
Qed.

Lemma span_all (p : ascii -> bool) (s : string) : all p (span p s) = true.
Proof.
  induction s as [|c s IH]; simpl; [reflexivity|].
  destruct (p c) eqn:E; simpl; [now rewrite E, IH | reflexivity].
Qed.

Lemma span_append (p : ascii -> bool) (a r : string) :
  all p a = true -> span p (a ++ r) = a ++ span p r.
Proof.
  induction a as [|c a IH]; simpl; intros H; [reflexivity|].
  apply andb_true_iff in H as [Hc Ha].
  now rewrite Hc, IH.
Qed.

Lemma span_split (p : ascii -> bool) (s : string) :
  s = span p s ++ drop (String.length (span p s)) s.
Proof.
  induction s as [|c s IH]; simpl; [reflexivity|].
  destruct (p c); simpl; [now rewrite <- IH | reflexivity].
Qed.

Lemma span_id (p : ascii -> bool) (s : string) : all p s = true -> span p s = s.
Proof.
  induction s as [|c s IH]; simpl; intros H; [reflexivity|].
  apply andb_true_iff in H as [Hc Hs]. now rewrite Hc, IH.
Qed.

Lemma is_empty_true (s : string) : is_empty s = true <-> s = "".
Proof. destruct s; simpl; split; congruence. Qed.

Lemma is_empty_false (s : string) : is_empty s = false <-> s <> "".
Proof. destruct s; simpl; split; congruence. Qed.

Lemma span_length_le (p : ascii -> bool) (s : string) :
  String.length (span p s) <= String.length s.
Proof.
  induction s as [|c s IH]; simpl; [lia|]. destruct (p c); simpl; lia.
Qed.

Lemma take_span (p : ascii -> bool) (s : string) :
  take (String.length s - String.length (drop (String.length (span p s)) s)) s
  = span p s.
Proof.
  rewrite length_drop. pose proof (span_length_le p s) as Hle.
  replace (String.length s - (String.length s - String.length (span p s)))
    with (String.length (span p s)) by lia.
  rewrite (span_split p s) at 2. apply take_length_append.
Qed.

End StrFacts.

(* ================================================================== *)
(** * The matcher on the shapes the patterns use *)
(* ================================================================== *)

Module ReFacts.
Import PyChar PyStr Re Ref StrFacts.

Lemma iterate_chr (p : ascii -> bool) (total n : nat) :
  forall s caps, String.length s <= n ->
    iterate (run total (Chr p)) n s caps = star_rests p s caps.
Proof.
  induction n as [|n IH]; intros s caps Hn.
  - destruct s; simpl in *; [reflexivity | lia].
  - destruct s as [|c s]; simpl; [reflexivity|].
    destruct (p c); simpl; [|reflexivity].
    replace (String.length s <? S (String.length s))%nat with true
      by (symmetry; apply Nat.ltb_lt; lia).
    simpl in IH. rewrite app_nil_r, IH by (simpl in Hn; lia). reflexivity.
Qed.

Lemma run_star_chr (total : nat) (p : ascii -> bool) (s : string) (caps : captures) :
  run total (Star (Chr p)) s caps = star_rests p s caps.
Proof. simpl. apply (iterate_chr p total). lia. Qed.

Lemma run_plus_chr (total : nat) (p : ascii -> bool) (s : string) (caps : captures) :
  run total (Plus (Chr p)) s caps = plus_rests p s caps.
Proof.
  unfold Plus. change (run total (Cat (Chr p) (Star (Chr p))) s caps)
    with (flat_map (fun x => run total (Star (Chr p)) (fst x) (snd x))
                   (run total (Chr p) s caps)).
  destruct s as [|c s]; simpl; [reflexivity|].
  destruct (p c); simpl; [|reflexivity].
  rewrite app_nil_r. apply (iterate_chr p total). lia.
Qed.

Lemma run_cat (total : nat) (r1 r2 : regex) (s : string) (caps : captures) :
  run total (Cat r1 r2) s caps
  = flat_map (fun x => run total r2 (fst x) (snd x)) (run total r1 s caps).
Proof. reflexivity. Qed.

Lemma run_lit (total : nat) (p : string) :
  forall s caps,
    run total (Lit p) s caps
    = if startswith p s then [(drop (String.length p) s, caps)] else [].
Proof.
  induction p as [|a p IH]; intros s caps.
  - reflexivity.
  - change (Lit (String a p)) with (Cat (Chr (is_char a)) (Lit p)).
    rewrite run_cat. destruct s as [|c s]; simpl; [reflexivity|].
    unfold is_char. rewrite (Ascii.eqb_sym a c).
    destruct (Ascii.eqb c a); simpl; [|reflexivity].
    rewrite app_nil_r. apply IH.
Qed.

Lemma run_opt_chr (total : nat) (p : ascii -> bool) (s : string) (caps : captures) :
  run total (Opt (Chr p)) s caps
  = ((match s with
      | String c s' => if p c then [(s', caps)] else []
      | EmptyString => []
      end) ++ [(s, caps)])%list.
Proof. reflexivity. Qed.

(** The head of a greedy star is the longest run. *)
Lemma star_rests_head (p : ascii -> bool) (s : string) (caps : captures) :
  exists tl,
    star_rests p s caps = (drop (String.length (span p s)) s, caps) :: tl.
Proof.
  induction s as [|c s [tl IH]]; simpl.
  - now exists [].
  - destruct (p c); simpl.
    + rewrite IH. simpl. now eexists.
    + now exists [].
Qed.

(** Every way out of a greedy star leaves a suffix of the input, after a
    prefix inside the class. *)
Lemma star_rests_in (p : ascii -> bool) (s : string) (caps : captures) x :
  In x (star_rests p s caps) ->
  exists pre, s = pre ++ fst x /\ all p pre = true /\ snd x = caps.
Proof.
  revert x; induction s as [|c s IH]; simpl; intros x H.
  - destruct H as [<-|[]]. now exists "".
  - destruct (p c) eqn:E.
    + apply in_app_or in H as [H|[<-|[]]].
      * destruct (IH x H) as (pre & -> & Hall & Hc).
        exists (String c pre). simpl. now rewrite E, Hall.
      * now exists "".
    + destruct H as [<-|[]]. now exists "".
Qed.

Lemma plus_rests_in (p : ascii -> bool) (s : string) (caps : captures) x :
  In x (plus_rests p s caps) ->
  exists pre, s = pre ++ fst x /\ all p pre = true /\ pre <> "" /\ snd x = caps.
Proof.
  destruct s as [|c s]; simpl; [intros []|].
  destruct (p c) eqn:E; [|intros []].
  intros H. destruct (star_rests_in p s caps x H) as (pre & -> & Hall & Hc).
  exists (String c pre). simpl. rewrite E, Hall. repeat split; congruence.
Qed.

Lemma plus_rests_head (p : ascii -> bool) (s : string) (caps : captures) :
  span p s <> "" ->
  exists tl,
    plus_rests p s caps = (drop (String.length (span p s)) s, caps) :: tl.
Proof.
  destruct s as [|c s]; simpl; [congruence|].
  destruct (p c); [|congruence]. intros _. simpl.
  apply star_rests_head.
Qed.

Lemma plus_rests_nil (p : ascii -> bool) (s : string) (caps : captures) :
  span p s = "" -> plus_rests p s caps = [].
Proof.
  destruct s as [|c s]; simpl; [reflexivity|].
  destruct (p c); [discriminate | reflexivity].
Qed.

Lemma flat_map_nil {A B : Type} (f : A -> list B) (l : list A) :
  (forall x, In x l -> f x = []) -> flat_map f l = [].
Proof.
  induction l as [|a l IH]; simpl; intros H; [reflexivity|].
  rewrite (H a) by now left. apply IH. intros x Hx. apply H. now right.
Qed.

(** The matched text is what precedes the remaining input. *)
Lemma to_match_split (a b : string) (caps : captures) :
  to_match (a ++ b) (b, caps) = mkMatch a b caps.
Proof.
  unfold to_match. simpl. rewrite length_append.
  replace (String.length a + String.length b - String.length b)
    with (String.length a) by lia.
  now rewrite take_length_append.
Qed.

(** Passing over a whole match. *)
Lemma findall_skip (total : nat) (r : regex) (a b : string) :
  findall_from total r (String.length a) (a ++ b) = findall_from total r 0 b.
Proof. induction a as [|c a IH]; simpl; [reflexivity | exact IH]. Qed.

Lemma sub_skip (total : nat) (r : regex) (repl a b : string) :
  sub_from total r repl (String.length a) (a ++ b) = sub_from total r repl 0 b.
Proof. induction a as [|c a IH]; simpl; [reflexivity | exact IH]. Qed.

End ReFacts.

(* ================================================================== *)
(** * Text scanner: the patterns against the direct scan *)
(* ================================================================== *)

Module ScanFacts.
Import PyChar PyStr Re Py App Ref StrFacts ReFacts.

Lemma drop_drop (a b : nat) (s : string) : drop a (drop b s) = drop (b + a) s.
Proof.
  revert s; induction b as [|b IH]; intros s; simpl; [reflexivity|].
  destruct s as [|c s]; [now destruct a | apply IH].
Qed.

Lemma run_lit_cat (total : nat) (p : string) (r : regex) (s : string) (caps : captures) :
  run total (Cat (Lit p) r) s caps
  = if startswith p s then run total r (drop (String.length p) s) caps else [].
Proof.
  rewrite run_cat, run_lit. destruct (startswith p s); simpl; [|reflexivity].
  now rewrite app_nil_r.
Qed.

Lemma run_opt_chr_cat (total : nat) (p : ascii -> bool) (r : regex)
  (s : string) (caps : captures) :
  run total (Cat (Opt (Chr p)) r) s caps
  = ((if head_is p s then run total r (drop 1 s) caps else [])
     ++ run total r s caps)%list.
Proof.
  rewrite run_cat, run_opt_chr, flat_map_app. simpl flat_map at 2.
  rewrite app_nil_r. f_equal.
  destruct s as [|c s]; [reflexivity|].
  unfold head_is. destruct (p c); [|reflexivity].
  simpl flat_map. now rewrite app_nil_r.
Qed.

Lemma startswith_cons (a : ascii) (p s : string) :
  startswith (String a p) s = head_is (is_char a) s && startswith p (drop 1 s).
Proof.
  destruct s as [|c s]; [reflexivity|].
  simpl. unfold is_char. now rewrite Ascii.eqb_sym.
Qed.

Lemma head_is_not_startswith (a : ascii) (p s : string) :
  head_is (is_char a) s = true ->
  Ascii.eqb a (match p with String b _ => b | EmptyString => a end) = false ->
  startswith p s = false.
Proof.
  destruct s as [|c s]; [discriminate|].
  destruct p as [|b p]; simpl; unfold is_char.
  - now rewrite Ascii.eqb_refl.
  - intros Hc Hb. apply Ascii.eqb_eq in Hc; subst c.
    rewrite Ascii.eqb_sym, Hb. reflexivity.
Qed.

(** [https?://] and then [r], at the head of [s]. *)
Lemma run_scheme (total : nat) (r : regex) (s : string) (caps : captures) :
  run total (Cat (Lit "http") (Cat (Opt (Chr (is_char "s"))) (Cat (Lit "://") r)))
      s caps
  = match scheme_of s with
    | Some scheme => run total r (drop (String.length scheme) s) caps
    | None => []
    end.
Proof.
  unfold scheme_of.
  rewrite run_lit_cat, run_opt_chr_cat, !run_lit_cat.
  rewrite (startswith_app "http" "://" s : startswith "http://" s = _).
  rewrite (startswith_app "http" "s://" s : startswith "https://" s = _).
  rewrite (startswith_cons "s" "://").
  change (String.length "http") with 4. change (String.length "://") with 3.
  rewrite !drop_drop.
  destruct (startswith "http" s); [|reflexivity].
  rewrite !andb_true_l.
  destruct (head_is (is_char "s") (drop 4 s)) eqn:Hs.
  - rewrite (head_is_not_startswith "s" "://" _ Hs eq_refl).
    rewrite app_nil_r, andb_true_l.
    destruct (startswith "://" (drop (4 + 1) s)); reflexivity.
  - rewrite andb_false_l.
    destruct (startswith "://" (drop 4 s)); reflexivity.
Qed.

(** [https?://[^\s\)\]]+] at the head of [s]. *)
Lemma run_url_re (total : nat) (s : string) (caps : captures) :
  run total url_re s caps
  = match scheme_of s with
    | Some scheme => plus_rests url_char (drop (String.length scheme) s) caps
    | None => []
    end.
Proof.
  unfold url_re. rewrite run_scheme.
  destruct (scheme_of s); [apply run_plus_chr | reflexivity].
Qed.

Lemma scheme_of_split (s scheme : string) :
  scheme_of s = Some scheme ->
  s = scheme ++ drop (String.length scheme) s /\ all url_char scheme = true.
Proof.
  unfold scheme_of.
  destruct (startswith "http://" s) eqn:H1.
  - intros [= <-]. split; [now apply startswith_split | reflexivity].
  - destruct (startswith "https://" s) eqn:H2; [|discriminate].
    intros [= <-]. split; [now apply startswith_split | reflexivity].
Qed.

(** The first match of the URL pattern at the head of [s] is the run the
    direct scan takes there. *)
Lemma match_at_url_re (total : nat) (s : string) :
  match_at total url_re s
  = match url_run s with
    | Some run => Some (mkMatch run (drop (String.length run) s) [])
    | None => None
    end.
Proof.
  unfold match_at, url_run. rewrite run_url_re.
  destruct (scheme_of s) as [scheme|] eqn:Hs; [|reflexivity].
  destruct (scheme_of_split _ _ Hs) as [Hsplit Hall].
  remember (drop (String.length scheme) s) as r eqn:Er.
  assert (Hspan : span url_char s = scheme ++ span url_char r).
  { rewrite Hsplit at 1. now apply span_append. }
  rewrite Hspan, length_append.
  destruct (span url_char r) as [|c w] eqn:Hr.
  - rewrite plus_rests_nil by assumption.
    replace (_ <? _)%nat with false; [reflexivity|].
    symmetry. apply Nat.ltb_ge. simpl. lia.
  - destruct (plus_rests_head url_char r []) as [tl ->]; [congruence|].
    replace (_ <? _)%nat with true
      by (symmetry; apply Nat.ltb_lt; simpl; lia).
    rewrite Hr. f_equal.
    assert (Hs' : s = (scheme ++ String c w) ++ drop (String.length (String c w)) r).
    { rewrite append_assoc, <- Hr, <- span_split. exact Hsplit. }
    transitivity
      (to_match ((scheme ++ String c w) ++ drop (String.length (String c w)) r)
                (drop (String.length (String c w)) r, [])).
    { now rewrite <- Hs'. }
    rewrite to_match_split. f_equal.
    rewrite Er. now rewrite drop_drop, length_append.
Qed.

(** [re.findall] with the URL pattern is the direct scan. *)
Lemma findall_url_re (total : nat) :
  forall text skip, findall_from total url_re skip text = runs url_run skip text.
Proof.
  induction text as [|c text IH]; intros skip.
  - destruct skip; cbn [findall_from runs]; [|reflexivity].
    rewrite match_at_url_re. now destruct (url_run "").
  - destruct skip as [|k]; cbn [findall_from runs]; [|apply IH].
    rewrite match_at_url_re.
    destruct (url_run (String c text)) as [run|]; cbn [m_text]; now rewrite IH.
Qed.

Lemma url_char_not_newline (c : ascii) : url_char c = true -> not_newline c = true.
Proof.
  unfold url_char, not_newline, is_char.
  destruct (Ascii.eqb_spec c LF) as [->|]; [discriminate | reflexivity].
Qed.

Lemma all_impl (p q : ascii -> bool) (s : string) :
  (forall c, p c = true -> q c = true) -> all p s = true -> all q s = true.
Proof.
  intros Hpq. induction s as [|c s IH]; simpl; [reflexivity|].
  intros H. apply andb_true_iff in H as [Hc Hs].
  now rewrite (Hpq c Hc), IH.
Qed.

(** [$] after a remaining input without a line feed: only at the end. *)
Lemma run_eol_no_newline (total : nat) (s : string) (caps : captures) :
  all not_newline s = true ->
  run total Eol s caps = if is_empty s then [(s, caps)] else [].
Proof.
  destruct s as [|c [|c' s]]; simpl; try reflexivity.
  unfold not_newline, is_char. destruct (Ascii.eqb c LF); [discriminate | reflexivity].
Qed.

(** [[\.,;:]+$] at the head of [u]: all of [u], when it is punctuation. *)
Lemma match_at_trailing_punct (total : nat) (u : string) :
  all not_newline u = true ->
  match_at total trailing_punct_re u
  = if nonempty u && all is_trailing_punct u then Some (mkMatch u "" []) else None.
Proof.
  intros Hnl. unfold match_at, trailing_punct_re. rewrite run_cat, run_plus_chr.
  destruct (nonempty u && all is_trailing_punct u) eqn:E.
  - apply andb_true_iff in E as [Hne Hall].
    destruct (plus_rests_head is_trailing_punct u []) as [tl ->].
    { rewrite span_id by assumption. destruct u; [discriminate | congruence]. }
    rewrite span_id by assumption.
    replace (drop (String.length u) u) with "".
    2:{ rewrite <- (append_nil_r u) at 2. now rewrite drop_length_append. }
    simpl. unfold to_match. simpl. now rewrite Nat.sub_0_r, take_all.
  - rewrite flat_map_nil; [reflexivity|].
    intros x Hx. apply plus_rests_in in Hx as (pre & Hu & Hpre & Hne & _).
    rewrite run_eol_no_newline.
    2:{ rewrite Hu, all_append in Hnl. now apply andb_true_iff in Hnl. }
    destruct (fst x) as [|a rest] eqn:Ex; [|reflexivity].
    exfalso. rewrite append_nil_r in Hu. subst pre.
    rewrite Hpre, andb_true_r in E. destruct u; [congruence | discriminate].
Qed.

(** [re.sub(r"[\.,;:]+$", "", u)] removes the trailing punctuation. *)
Lemma sub_trailing_punct (total : nat) :
  forall u, all not_newline u = true ->
    sub_from total trailing_punct_re "" 0 u = rstrip_punct u.
Proof.
  induction u as [|c u IH]; intros Hnl; cbn [sub_from rstrip_punct].
  - now rewrite match_at_trailing_punct.
  - rewrite match_at_trailing_punct by assumption.
    cbn [nonempty is_empty negb andb].
    destruct (all is_trailing_punct (String c u)) eqn:E; cbn [m_text String.length].
    + rewrite <- (append_nil_r u) at 2. rewrite sub_skip.
      cbn [sub_from]. now rewrite match_at_trailing_punct.
    + simpl in Hnl. apply andb_true_iff in Hnl as [_ Hnl]. now rewrite IH.
Qed.

Lemma url_run_all (s run : string) : url_run s = Some run -> all url_char run = true.
Proof.
  unfold url_run. destruct (scheme_of s); [|discriminate].
  destruct (_ <? _)%nat; [|discriminate]. intros [= <-]. apply span_all.
Qed.

Lemma runs_url_run_all :
  forall text skip u, In u (runs url_run skip text) -> all url_char u = true.
Proof.
  induction text as [|c text IH]; intros skip u; destruct skip as [|k];
    cbn [runs].
  - destruct (url_run "") eqn:E; cbn [In]; [|intros []].
    intros [<-|[]]. eapply url_run_all; eassumption.
  - intros [].
  - destruct (url_run (String c text)) eqn:E; cbn [In].
    + intros [<-|H]; [eapply url_run_all; eassumption | eapply IH; eassumption].
    + apply IH.
  - apply IH.
Qed.

(** The scanner of app.py is the direct scan. *)
Lemma scan_urls_scan_spec (text : string) : scan_urls text = scan_spec text.
Proof.
  unfold scan_urls, scan_spec, re_findall. rewrite findall_url_re.
  apply map_ext_in. intros u Hu. unfold re_sub.
  apply sub_trailing_punct.
  apply (all_impl url_char); [exact url_char_not_newline|].
  eapply runs_url_run_all; eassumption.
Qed.

Lemma runs_in (f : string -> option string) :
  forall text skip u, In u (runs f skip text) -> exists s, f s = Some u.
Proof.
  induction text as [|c text IH]; intros skip u; destruct skip as [|k];
    cbn [runs].
  - destruct (f "") eqn:E; cbn [In]; [|intros []].
    intros [<-|[]]. now exists "".
  - intros [].
  - destruct (f (String c text)) eqn:E; cbn [In].
    + intros [<-|H]; [now exists (String c text) | eapply IH; eassumption].
    + apply IH.
  - apply IH.
Qed.

Lemma rstrip_punct_keep (a : string) (c : ascii) (b : string) :
  is_trailing_punct c = false ->
  rstrip_punct (a ++ String c b) = a ++ String c (rstrip_punct b).
Proof.
  intros Hc. induction a as [|x a IH]; cbn [append rstrip_punct all].
  - now rewrite Hc.
  - rewrite all_append. cbn [all]. rewrite Hc, andb_false_r, andb_false_r.
    now rewrite IH.
Qed.

Lemma all_rstrip_punct (q : ascii -> bool) (u : string) :
  all q u = true -> all q (rstrip_punct u) = true.
Proof.
  induction u as [|c u IH]; [trivial|]. cbn [rstrip_punct].
  destruct (all is_trailing_punct (String c u)); [reflexivity|].
  simpl. intros H. apply andb_true_iff in H as [Hc Hu]. now rewrite Hc, IH.
Qed.

(** A run found by the scan keeps its scheme when its punctuation is
    stripped. *)
Lemma url_run_scheme (s run : string) :
  url_run s = Some run ->
  (startswith "http://" (rstrip_punct run) = true
   \/ startswith "https://" (rstrip_punct run) = true)
  /\ all url_char (rstrip_punct run) = true.
Proof.
  intros H. split.
  - revert H. unfold url_run.
    destruct (scheme_of s) as [scheme|] eqn:Hs; [|discriminate].
    destruct (scheme_of_split _ _ Hs) as [Hsplit Hall].
    destruct (_ <? _)%nat; [|discriminate]. intros [= <-].
    rewrite Hsplit, span_append by assumption.
    revert Hs. unfold scheme_of.
    destruct (startswith "http://" s).
    + intros [= <-]. left.
      change ("http://" ++ span url_char (drop (String.length "http://") s))
        with ("http:/" ++ String "/" (span url_char (drop (String.length "http://") s))).
      rewrite rstrip_punct_keep by reflexivity.
      apply (startswith_append "http://").
    + destruct (startswith "https://" s); [|discriminate].
      intros [= <-]. right.
      change ("https://" ++ span url_char (drop (String.length "https://") s))
        with ("https:/" ++ String "/" (span url_char (drop (String.length "https://") s))).
      rewrite rstrip_punct_keep by reflexivity.
      apply (startswith_append "https://").
  - apply all_rstrip_punct. eapply url_run_all; eassumption.
Qed.

End ScanFacts.

(* ================================================================== *)
(** * Validation of the identifier *)
(* ================================================================== *)

Module ValidateFacts.
Import PyChar PyStr Re Py App Ref StrFacts ReFacts.

Lemma filter_nil {A : Type} (f : A -> bool) (l : list A) :
  (forall x, In x l -> f x = false) -> List.filter f l = [].
Proof.
  induction l as [|a l IH]; simpl; intros H; [reflexivity|].
  rewrite (H a) by now left. apply IH. intros x Hx. apply H. now right.
Qed.

(** [re.fullmatch] of [[class]+]: the subject is non-empty and inside
    the class. *)
Lemma fullmatch_plus_chr (p : ascii -> bool) (s : string) :
  re_fullmatch (Plus (Chr p)) s
  = if nonempty s && all p s then Some (mkMatch s "" []) else None.
Proof.
  unfold re_fullmatch. rewrite run_plus_chr.
  destruct (nonempty s && all p s) eqn:E.
  - apply andb_true_iff in E as [Hne Hall].
    destruct (plus_rests_head p s []) as [tl ->].
    { rewrite span_id by assumption. destruct s; [discriminate | congruence]. }
    rewrite span_id by assumption.
    replace (drop (String.length s) s) with "".
    2:{ rewrite <- (append_nil_r s) at 2. now rewrite drop_length_append. }
    simpl. unfold to_match. simpl. now rewrite Nat.sub_0_r, take_all.
  - rewrite filter_nil; [reflexivity|].
    intros x Hx. apply plus_rests_in in Hx as (pre & Hs & Hpre & Hne & _).
    destruct (fst x) as [|a rest] eqn:Ex; [|reflexivity].
    exfalso. rewrite append_nil_r in Hs. subst pre.
    rewrite Hpre, andb_true_r in E. destruct s; [congruence | discriminate].
Qed.

Lemma fullmatch_pmid_re (s : string) :
  (match re_fullmatch pmid_re s with Some _ => true | None => false end)
  = is_digits s.
Proof.
  unfold pmid_re, digit, is_digits. rewrite fullmatch_plus_chr.
  now destruct (nonempty s && all is_digit s).
Qed.

(** The data the endpoint works on: [request.get_json() or {}]. *)
Lemma por_body (json : pyval) (d : list (string * pyval)) :
  body_items json = Some d ->
  por json (Ok (PDict [])) = Ok (PDict d).
Proof.
  unfold body_items, por.
  destruct json as [| b | z | t | l | d']; simpl.
  - now intros [= <-].
  - destruct b; [discriminate | now intros [= <-]].
  - destruct (Z.eqb z 0); simpl; [now intros [= <-] | discriminate].
  - destruct t; simpl; [now intros [= <-] | discriminate].
  - destruct l; [now intros [= <-] | discriminate].
  - intros [= <-]. now destruct d'.
Qed.

Lemma get_por (d : list (string * pyval)) (k : string) (dflt : pyval) :
  (v <- get (PDict d) k ;; por v (Ok dflt)) = Ok (field_or d k dflt).
Proof.
  unfold get, get_default, field_or, por, bind.
  destruct (lookup k d) as [v|]; [|reflexivity].
  now destruct (truthy v).
Qed.

(** The outcome of validation on a body whose [pmid] is a string, or is
    missing or falsy (then [s] is empty). *)
Lemma validate_string_pmid (json : pyval) (d : list (string * pyval)) (s : string) :
  body_items json = Some d ->
  field_or d "pmid" (PStr "") = PStr s ->
  validate json
  = Ok (if is_digits (strip s)
        then inr (strip s, field_or d "contributor" (PDict []))
        else inl (mkResponse 400 (error_body invalid_pmid_message))).
Proof.
  intros Hd Hp. unfold validate.
  rewrite (por_body _ _ Hd). cbn [bind].
  pose proof (get_por d "pmid" (PStr "")) as E1. rewrite Hp in E1.
  pose proof (get_por d "contributor" (PDict [])) as E2.
  destruct (get (PDict d) "pmid") as [p|e] eqn:Gp; [|discriminate].
  cbn [bind] in *. rewrite E1. cbn [bind strip_of].
  destruct (get (PDict d) "contributor") as [c|e] eqn:Gc; [|discriminate].
  cbn [bind] in *. rewrite E2. cbn [bind].
  rewrite fullmatch_pmid_re. unfold is_digits at 1 2, nonempty.
  destruct (is_empty (strip s)); [reflexivity|].
  cbn [negb andb orb]. now destruct (all is_digit (strip s)).
Qed.

End ValidateFacts.

(* ================================================================== *)
(** * Database-info extractor *)
(* ================================================================== *)

Module ExtractorFacts.
Import PyChar PyStr Re Py App Ref StrFacts ReFacts.

(** *** [str.split()] and the initials *)

Lemma first_chars_cons (w : string) (ws : list string) :
  w <> "" -> first_chars (w :: ws) = take 1 w ++ first_chars ws.
Proof.
  intros Hw. unfold first_chars. simpl.
  destruct w; [congruence | reflexivity].
Qed.

Lemma split_initials (s : string) :
  first_chars (split s) = initials_from true s
  /\ forall c, is_space c = false ->
       exists w ws, split (String c s) = String c w :: ws
                    /\ first_chars ws = initials_from false s.
Proof.
  induction s as [|c' s [IHR IHQ]].
  - split; [reflexivity|]. intros c Hc. exists "", []. simpl. now rewrite Hc.
  - split.
    + cbn [initials_from]. destruct (is_space c') eqn:Hc'.
      * cbn [split]. now rewrite Hc'.
      * destruct (IHQ c' Hc') as (w & ws & -> & Hws).
        rewrite first_chars_cons by congruence. simpl. now rewrite Hws.
    + intros c Hc. cbn [split initials_from]. rewrite Hc.
      destruct (is_space c') eqn:Hc'.
      * exists "", (split s). now split.
      * destruct (IHQ c' Hc') as (w & ws & Hsp & Hws).
        cbn [split] in Hsp. rewrite Hc' in Hsp. rewrite Hsp.
        exists (String c' w), ws. now split.
Qed.

(** [''.join([w[0] for w in name.split() if w])] is the initials. *)
Lemma first_chars_split (s : string) : first_chars (split s) = initials s.
Proof. apply split_initials. Qed.

(** *** Stripped values *)

Lemma rstrip_last (s : string) : last_is is_space (rstrip s) = false.
Proof.
  induction s as [|c s IH]; [reflexivity|].
  cbn [rstrip]. destruct (rstrip s) as [|c' r] eqn:E.
  - cbn [is_empty andb]. destruct (is_space c) eqn:Hc; [reflexivity|].
    simpl. exact Hc.
  - cbn [is_empty andb]. exact IH.
Qed.

Lemma strip_last (s : string) : last_is is_space (strip s) = false.
Proof. apply rstrip_last. Qed.

Lemma last_is_append (p : ascii -> bool) (a : string) (c : ascii) :
  last_is p (a ++ String c "") = p c.
Proof.
  induction a as [|x a IH]; [reflexivity|].
  simpl. destruct (a ++ String c "") eqn:E; [now destruct a | exact IH].
Qed.

Lemma last_is_impl (p q : ascii -> bool) (s : string) :
  (forall c, p c = true -> q c = true) ->
  last_is q s = false -> last_is p s = false.
Proof.
  intros Hpq. induction s as [|c s IH]; [reflexivity|].
  simpl. destruct s as [|c' s]; [|exact IH].
  intros Hq. destruct (p c) eqn:E; [|reflexivity].
  now rewrite (Hpq c E) in Hq.
Qed.

Lemma newline_is_space (c : ascii) : is_char LF c = true -> is_space c = true.
Proof. unfold is_char. intros H. apply Ascii.eqb_eq in H. now subst c. Qed.

(** *** The pattern synthesized from the example *)

Lemma upper_not_digit (c : ascii) : is_upper c = true -> is_digit c = false.
Proof.
  unfold is_upper, is_digit, in_range. intros H.
  apply andb_true_iff in H as [H1 H2].
  apply Nat.leb_le in H1. apply andb_false_iff. right.
  apply Nat.leb_gt. lia.
Qed.

Lemma digit_not_upper (c : ascii) : is_digit c = true -> is_upper c = false.
Proof.
  intros H. destruct (is_upper c) eqn:E; [|reflexivity].
  now rewrite (upper_not_digit c E) in H.
Qed.

Lemma span_disjoint (p q : ascii -> bool) (s : string) :
  (forall c, q c = true -> p c = false) -> all q s = true -> span p s = "".
Proof.
  intros Hd. destruct s as [|c s]; [reflexivity|]. simpl.
  intros H. apply andb_true_iff in H as [Hc _]. now rewrite (Hd c Hc).
Qed.

Lemma count_append (p : ascii -> bool) (a b : string) :
  count p (a ++ b) = count p a + count p b.
Proof. induction a as [|c a IH]; simpl; [reflexivity | rewrite IH; lia]. Qed.

Lemma count_all (p : ascii -> bool) (s : string) :
  all p s = true -> count p s = String.length s.
Proof.
  induction s as [|c s IH]; simpl; [reflexivity|].
  intros H. apply andb_true_iff in H as [Hc Hs]. now rewrite Hc, IH.
Qed.

Lemma count_none (p q : ascii -> bool) (s : string) :
  (forall c, q c = true -> p c = false) -> all q s = true -> count p s = 0.
Proof.
  intros Hd. induction s as [|c s IH]; simpl; [reflexivity|].
  intros H. apply andb_true_iff in H as [Hc Hs]. now rewrite (Hd c Hc), IH.
Qed.

Lemma run_bol_cat (r : regex) (s : string) (caps : captures) :
  run (String.length s) (Cat Bol r) s caps = run (String.length s) r s caps.
Proof. rewrite run_cat. simpl run at 2. rewrite Nat.eqb_refl. simpl. now rewrite app_nil_r. Qed.

Lemma run_eol_in (total : nat) (s : string) (caps : captures) y :
  In y (run total Eol s caps) -> s = "" \/ s = String LF "".
Proof.
  destruct s as [|c [|c' s]]; simpl; [now left | | intros []].
  destruct (Ascii.eqb_spec c LF) as [->|]; [now right | intros []].
Qed.

(** [\d+$] at the head of a string of digits. *)
Lemma run_digits_eol (total : nat) (d : string) (caps : captures) :
  d <> "" -> all is_digit d = true ->
  exists tl, run total (Cat (Plus digit) Eol) d caps = ("", caps) :: tl.
Proof.
  intros Hne Hall. unfold digit. rewrite run_cat, run_plus_chr.
  destruct (plus_rests_head is_digit d caps) as [tl ->].
  { now rewrite span_id. }
  rewrite span_id by assumption.
  replace (drop (String.length d) d) with "".
  2:{ rewrite <- (append_nil_r d) at 2. now rewrite drop_length_append. }
  simpl. now eexists.
Qed.

Lemma run_digits_eol_in (total : nat) (s : string) (caps : captures) y :
  In y (run total (Cat (Plus digit) Eol) s caps) ->
  exists d, d <> "" /\ all is_digit d = true /\ (s = d \/ s = d ++ String LF "").
Proof.
  unfold digit. rewrite run_cat, run_plus_chr. intros H.
  apply in_flat_map in H as (x & Hx & Hy).
  apply plus_rests_in in Hx as (d & Hs & Hall & Hne & _).
  exists d. repeat split; try assumption.
  apply run_eol_in in Hy as [E|E]; rewrite E in Hs.
  - left. now rewrite append_nil_r in Hs.
  - now right.
Qed.

(** [^[A-Z]+\d+$] matches letters followed by digits. *)
Lemma match_upper_digits (example l d : string) :
  letters_then_digits is_upper example l d ->
  exists m, re_match upper_digits_re example = Some m.
Proof.
  intros (-> & Hl & Hlu & Hd & Hdd).
  unfold re_match, match_at, upper_digits_re.
  rewrite run_bol_cat, run_cat, run_plus_chr.
  assert (Hspan : span is_upper (l ++ d) = l).
  { rewrite span_append by assumption.
    rewrite (span_disjoint is_upper is_digit) by (auto using digit_not_upper).
    apply append_nil_r. }
  destruct (plus_rests_head is_upper (l ++ d) []) as [tl ->].
  { rewrite Hspan. assumption. }
  rewrite Hspan, drop_length_append. cbn [flat_map fst snd].
  destruct (run_digits_eol (String.length (l ++ d)) d [] Hd Hdd) as [tl' ->].
  simpl. now eexists.
Qed.

(** Nothing else does, when the example does not end with a line feed. *)
Lemma match_upper_digits_inv (example : string) (m : rmatch) :
  re_match upper_digits_re example = Some m ->
  last_is (is_char LF) example = false ->
  exists l d, letters_then_digits is_upper example l d.
Proof.
  unfold re_match, match_at, upper_digits_re.
  rewrite run_bol_cat, run_cat, run_plus_chr.
  destruct (flat_map _ _) as [|y tl] eqn:E; [discriminate|].
  intros _ Hlast.
  assert (Hy : In y (y :: tl)) by now left.
  rewrite <- E in Hy. apply in_flat_map in Hy as (x & Hx & Hy).
  apply plus_rests_in in Hx as (l & Hs & Hlu & Hl & _).
  apply run_digits_eol_in in Hy as (d & Hd & Hdd & [Ed|Ed]); rewrite Ed in Hs.
  - exists l, d. now repeat split.
  - exfalso. rewrite <- append_assoc in Hs. rewrite Hs in Hlast.
    rewrite last_is_append in Hlast. discriminate.
Qed.

(** [^\d+$]. *)
Lemma match_all_digits (example : string) :
  example <> "" -> all is_digit example = true ->
  exists m, re_match all_digits_re example = Some m.
Proof.
  intros Hne Hall. unfold re_match, match_at, all_digits_re.
  rewrite run_bol_cat.
  destruct (run_digits_eol (String.length example) example [] Hne Hall) as [tl ->].
  now eexists.
Qed.

Lemma match_all_digits_inv (example : string) (m : rmatch) :
  re_match all_digits_re example = Some m ->
  last_is (is_char LF) example = false ->
  example <> "" /\ all is_digit example = true.
Proof.
  unfold re_match, match_at, all_digits_re. rewrite run_bol_cat.
  destruct (run _ _ _ _) as [|y tl] eqn:E; [discriminate|].
  intros _ Hlast.
  assert (Hy : In y (y :: tl)) by now left.
  rewrite <- E in Hy.
  apply run_digits_eol_in in Hy as (d & Hd & Hdd & [Ed|Ed]); subst example.
  - now split.
  - rewrite last_is_append in Hlast. discriminate.
Qed.

(** [^([A-Z]+)]: the group is the run of capitals at the head. *)
Lemma match_upper_prefix (example : string) :
  span is_upper example <> "" ->
  exists m, re_match upper_prefix_re example = Some m
            /\ m_group 1 m = span is_upper example.
Proof.
  intros Hne. unfold re_match, match_at, upper_prefix_re.
  rewrite run_bol_cat. cbn [run]. fold (Plus (Chr is_upper)).
  rewrite run_plus_chr.
  destruct (plus_rests_head is_upper example [] Hne) as [tl ->].
  cbn [List.map fst snd]. eexists. split; [reflexivity|].
  unfold m_group, to_match. cbn [m_caps snd fst group Nat.eqb].
  apply take_span.
Qed.

(** [len(re.findall(r'\d', example))] counts the digits. *)
Lemma findall_chr_length (total : nat) (p : ascii -> bool) (s : string) :
  List.length (findall_from total (Chr p) 0 s) = count p s.
Proof.
  induction s as [|c s IH]; [reflexivity|].
  cbn [findall_from count]. unfold match_at. cbn [run].
  destruct (p c).
  - unfold to_match. cbn [fst m_text String.length].
    replace (S (String.length s) - String.length s) with 1 by lia.
    cbn [take String.length Nat.sub List.length]. now rewrite IH.
  - now rewrite IH.
Qed.

(** *** The steps after the loop *)

Lemma set_pattern_same (e : extracted) : set_pattern (e_pattern e) e = e.
Proof. now destruct e. Qed.

(** The step never raises, and only the pattern changes. *)
Lemma infer_pattern_total (e : extracted) :
  exists pat, infer_pattern e = Ok (set_pattern pat e).
Proof.
  unfold infer_pattern.
  destruct (is_empty (e_pattern e) && nonempty (e_example e)).
  2:{ exists (e_pattern e). now rewrite set_pattern_same. }
  destruct (re_match upper_digits_re (e_example e)) as [m|] eqn:E.
  - assert (Hne : span is_upper (e_example e) <> "").
    { intros Hsp. revert E. unfold re_match, match_at, upper_digits_re.
      rewrite run_bol_cat, run_cat, run_plus_chr, plus_rests_nil by assumption.
      discriminate. }
    destruct (match_upper_prefix _ Hne) as (m' & -> & _). now eexists.
  - destruct (re_match all_digits_re (e_example e)).
    + now eexists.
    + exists (e_pattern e). now rewrite set_pattern_same.
Qed.

Lemma infer_pattern_upper (e : extracted) (l d : string) :
  e_pattern e = "" ->
  letters_then_digits is_upper (e_example e) l d ->
  infer_pattern e
  = Ok (set_pattern ("^" ++ l ++ "\d{" ++ of_nat (String.length d) ++ "}$") e).
Proof.
  intros Hp Hshape. unfold infer_pattern. rewrite Hp.
  destruct (match_upper_digits _ _ _ Hshape) as [m Hm].
  destruct Hshape as (Hex & Hl & Hlu & Hd & Hdd).
  assert (Hspan : span is_upper (e_example e) = l).
  { rewrite Hex, span_append by assumption.
    rewrite (span_disjoint is_upper is_digit) by (auto using digit_not_upper).
    apply append_nil_r. }
  destruct (match_upper_prefix (e_example e)) as (m' & Hm' & Hg).
  { now rewrite Hspan. }
  rewrite Hm, Hm', Hg, Hspan.
  unfold re_findall, digit. rewrite findall_chr_length.
  rewrite Hex at 2. rewrite count_append.
  rewrite (count_none is_digit is_upper) by (auto using upper_not_digit).
  rewrite count_all by assumption.
  replace (nonempty (e_example e)) with true; [reflexivity|].
  rewrite Hex. destruct l; [congruence | reflexivity].
Qed.

Lemma infer_pattern_digits (e : extracted) :
  e_pattern e = "" ->
  e_example e <> "" -> all is_digit (e_example e) = true ->
  infer_pattern e
  = Ok (set_pattern ("^\d{" ++ of_nat (String.length (e_example e)) ++ "}$") e).
Proof.
  intros Hp Hne Hall. unfold infer_pattern. rewrite Hp.
  replace (nonempty (e_example e)) with true
    by (destruct (e_example e); [congruence | reflexivity]).
  cbn [is_empty andb].
  replace (re_match upper_digits_re (e_example e)) with (@None rmatch).
  2:{ unfold re_match, match_at, upper_digits_re.
      rewrite run_bol_cat, run_cat, run_plus_chr, plus_rests_nil; [reflexivity|].
      apply (span_disjoint is_upper is_digit); auto using digit_not_upper. }
  destruct (match_all_digits _ Hne Hall) as [m ->]. reflexivity.
Qed.

Lemma infer_pattern_other (e : extracted) :
  e_pattern e = "" ->
  last_is is_space (e_example e) = false ->
  (~ exists l d, letters_then_digits is_upper (e_example e) l d) ->
  all is_digit (e_example e) = false ->
  infer_pattern e = Ok e.
Proof.
  intros Hp Hlast Hshape Hall. unfold infer_pattern.
  assert (Hnl : last_is (is_char LF) (e_example e) = false).
  { revert Hlast. apply last_is_impl. exact newline_is_space. }
  destruct (is_empty (e_pattern e) && nonempty (e_example e)); [|reflexivity].
  destruct (re_match upper_digits_re (e_example e)) as [m|] eqn:E.
  { exfalso. apply Hshape. eapply match_upper_digits_inv; eassumption. }
  destruct (re_match all_digits_re (e_example e)) as [m|] eqn:E'; [|reflexivity].
  exfalso. destruct (match_all_digits_inv _ _ E' Hnl) as [_ H]. congruence.
Qed.

(** *** What the loop guarantees *)

Lemma fold_parse_line_invariant (P : extracted -> Prop) :
  P extracted_init ->
  (forall e ln, P e -> P (parse_line e ln)) ->
  forall lines, P (parse_lines lines).
Proof.
  intros Hinit Hstep lines. unfold parse_lines.
  generalize dependent extracted_init.
  induction lines as [|ln lines IH]; intros e He; simpl; [exact He|].
  apply IH. now apply Hstep.
Qed.

Ltac parse_line_cases :=
  unfold parse_line;
  repeat match goal with
         | |- context [match ?x with Some _ => _ | None => _ end] => destruct x
         | |- context [if ?b then _ else _] => destruct b
         end.

Ltac project_setters :=
  unfold set_name, set_prefix, set_description, set_homepage, set_example,
    set_pattern, set_uri_format, set_contact_name, set_contact_email,
    set_keywords;
  cbn [e_name e_prefix e_description e_homepage e_example e_pattern
       e_uri_format e_contact_name e_contact_email e_keywords].

(** Every stored example is stripped. *)
Lemma parsed_example_stripped (lines : list string) :
  last_is is_space (e_example (parse_lines lines)) = false.
Proof.
  apply (fold_parse_line_invariant
           (fun e => last_is is_space (e_example e) = false)).
  - reflexivity.
  - intros e ln He. parse_line_cases; project_setters; try exact He.
    apply strip_last.
Qed.

Lemma firstn_length_le {A : Type} (n : nat) (l : list A) :
  List.length (firstn n l) <= n.
Proof.
  revert l; induction n as [|n IH]; intros [|a l]; simpl; try lia.
  specialize (IH l). lia.
Qed.

(** At most three keywords are stored. *)
Lemma parsed_keywords_capped (lines : list string) :
  List.length (e_keywords (parse_lines lines)) <= 3.
Proof.
  apply (fold_parse_line_invariant (fun e => List.length (e_keywords e) <= 3)).
  - simpl. lia.
  - intros e ln He. parse_line_cases; project_setters; try exact He.
    apply firstn_length_le.
Qed.

Lemma infer_email_fields (e : extracted) :
  e_name (infer_email e) = e_name e
  /\ e_prefix (infer_email e) = e_prefix e
  /\ e_example (infer_email e) = e_example e
  /\ e_pattern (infer_email e) = e_pattern e
  /\ e_keywords (infer_email e) = e_keywords e.
Proof.
  unfold infer_email.
  destruct (is_empty (e_contact_email e) && nonempty (e_contact_name e));
    [destruct (re_search email_re (e_contact_name e))|]; now repeat split.
Qed.

(** The record the extractor returns, from the state after the loop. *)
Lemma post_process_result (homepage_url : string) (e0 : extracted) :
  exists pat,
    infer_pattern (infer_email e0) = Ok (set_pattern pat (infer_email e0))
    /\ post_process homepage_url e0
       = Ok (derive_prefix (default_homepage homepage_url
                              (set_pattern pat (infer_email e0)))).
Proof.
  destruct (infer_pattern_total (infer_email e0)) as [pat Hpat].
  exists pat. split; [exact Hpat|].
  unfold post_process. now rewrite Hpat.
Qed.

Lemma derive_prefix_fields (e : extracted) :
  e_pattern (derive_prefix e) = e_pattern e
  /\ e_keywords (derive_prefix e) = e_keywords e.
Proof.
  unfold derive_prefix.
  destruct (is_empty (e_prefix e) && nonempty (e_name e)); now split.
Qed.

Lemma default_homepage_fields (u : string) (e : extracted) :
  e_name (default_homepage u e) = e_name e
  /\ e_prefix (default_homepage u e) = e_prefix e
  /\ e_pattern (default_homepage u e) = e_pattern e
  /\ e_keywords (default_homepage u e) = e_keywords e.
Proof.
  unfold default_homepage. destruct (is_empty (e_homepage e)); now repeat split.
Qed.

End ExtractorFacts.

(* ================================================================== *)
(** * Record assembler *)
(* ================================================================== *)

Module AssemblerFacts.
Import PyChar PyStr Re Py App Ref StrFacts ReFacts ScanFacts ValidateFacts.

(** *** The name derived from the homepage *)

Lemma run_label_group (total : nat) (x : string) (caps : captures) :
  run total label_group x caps
  = if nonempty (span is_label_char x)
    then (drop (String.length (span is_label_char x)) x,
          (1, span is_label_char x) :: caps)
         :: List.tl (run total label_group x caps)
    else [].
Proof.
  unfold label_group. cbn [run]. fold (Plus (Chr is_label_char)).
  rewrite run_plus_chr.
  destruct (span is_label_char x) as [|c w] eqn:E.
  - now rewrite plus_rests_nil.
  - destruct (plus_rests_head is_label_char x caps) as [tl Htl]; [congruence|].
    rewrite Htl. cbn [List.map fst snd List.tl nonempty is_empty negb].
    rewrite take_span, E. reflexivity.
Qed.

Lemma run_opt_lit_cat (total : nat) (p : string) (r : regex) (s : string)
  (caps : captures) :
  run total (Cat (Opt (Lit p)) r) s caps
  = ((if startswith p s then run total r (drop (String.length p) s) caps else [])
     ++ run total r s caps)%list.
Proof.
  rewrite run_cat. unfold Opt. cbn [run]. rewrite run_lit, flat_map_app.
  simpl flat_map at 2. rewrite app_nil_r. f_equal.
  destruct (startswith p s); [|reflexivity].
  simpl flat_map. now rewrite app_nil_r.
Qed.

(** The group of the first match of the domain pattern at the head of
    [s] is the label the direct scan reads there. *)
Lemma match_at_domain_re (total : nat) (s : string) :
  option_map (m_group 1) (match_at total domain_re s) = label_at s.
Proof.
  unfold match_at, domain_re, label_at. cbv zeta. rewrite run_scheme.
  destruct (scheme_of s) as [scheme|]; [|reflexivity].
  generalize (drop (String.length scheme) s). intros r.
  rewrite run_opt_lit_cat. fold label_group.
  change (String.length "www.") with 4.
  destruct (startswith "www." r); cbn [andb].
  - rewrite (run_label_group total (drop 4 r)).
    destruct (nonempty (span is_label_char (drop 4 r))) eqn:E; lazy iota;
      [now rewrite E|].
    cbn [app]. rewrite run_label_group.
    destruct (nonempty (span is_label_char r)); reflexivity.
  - cbn [app]. rewrite run_label_group.
    destruct (nonempty (span is_label_char r)); reflexivity.
Qed.

Lemma search_domain_re (total : nat) (s : string) :
  option_map (m_group 1) (search_from total domain_re s) = domain_label s.
Proof.
  induction s as [|c s IH]; cbn [search_from domain_label];
    rewrite <- (match_at_domain_re total);
    destruct (match_at total domain_re _); try reflexivity.
  exact IH.
Qed.

(** Lines 353-354 read the first domain label of the homepage. *)
Lemma derive_name_label (homepage : string) :
  derive_name homepage
  = match domain_label homepage with
    | Some l => l
    | None => "database"
    end.
Proof.
  unfold derive_name, re_search.
  rewrite <- (search_domain_re (String.length homepage) homepage).
  now destruct (search_from _ _ _).
Qed.

(** *** The key derived from the name *)

Lemma match_at_plus_chr (total : nat) (p : ascii -> bool) (s : string) :
  match_at total (Plus (Chr p)) s
  = if nonempty (span p s)
    then Some (mkMatch (span p s) (drop (String.length (span p s)) s) [])
    else None.
Proof.
  unfold match_at. rewrite run_plus_chr.
  destruct (span p s) as [|c w] eqn:E.
  - now rewrite plus_rests_nil.
  - destruct (plus_rests_head p s []) as [tl ->]; [congruence|].
    cbn [nonempty is_empty negb]. unfold to_match. cbn [fst snd].
    now rewrite take_span, E.
Qed.

(** [re.sub] of [[class]+] by nothing keeps the other characters. *)
Lemma sub_plus_chr (total : nat) (p : ascii -> bool) :
  forall s k, k <= String.length (span p s) ->
    sub_from total (Plus (Chr p)) "" k s = filter (fun c => negb (p c)) s.
Proof.
  induction s as [|c s IH]; intros k Hk.
  - simpl in Hk. assert (k = 0) by lia. subst k.
    cbn [sub_from filter]. now rewrite match_at_plus_chr.
  - destruct k as [|k].
    + cbn [sub_from filter]. rewrite match_at_plus_chr. cbn [span].
      destruct (p c) eqn:E; cbn [nonempty is_empty negb m_text String.length].
      * cbn [append]. apply IH. lia.
      * f_equal. apply IH. lia.
    + cbn [sub_from filter]. simpl in Hk.
      destruct (p c) eqn:E; simpl in Hk; [|lia].
      cbn [negb]. apply IH. lia.
Qed.

Lemma filter_ext (p q : ascii -> bool) (s : string) :
  (forall c, p c = q c) -> filter p s = filter q s.
Proof.
  intros H. induction s as [|c s IH]; simpl; [reflexivity|].
  now rewrite H, IH.
Qed.

Lemma sub_non_alnum (s : string) : re_sub non_alnum_re "" s = filter is_alnum s.
Proof.
  unfold re_sub, non_alnum_re. rewrite sub_plus_chr by lia.
  apply filter_ext. intros c. apply negb_involutive.
Qed.

Lemma space_not_alnum (c : ascii) : is_space c = true -> is_alnum c = false.
Proof.
  unfold is_space, is_alnum, is_alpha, is_digit, is_upper, is_lower, in_range.
  intros H.
  repeat match goal with
         | |- context [(?a <=? ?b)%nat] => destruct (Nat.leb_spec a b)
         | H : context [(?a <=? ?b)%nat] |- _ => destruct (Nat.leb_spec a b)
         | H : context [(?a =? ?b)%nat] |- _ => destruct (Nat.eqb_spec a b)
         end; simpl in *; try reflexivity; try discriminate; lia.
Qed.

Lemma filter_lstrip (s : string) : filter is_alnum (lstrip s) = filter is_alnum s.
Proof.
  induction s as [|c s IH]; [reflexivity|]. cbn [lstrip].
  destruct (is_space c) eqn:E; [|reflexivity].
  cbn [filter]. now rewrite (space_not_alnum c E).
Qed.

Lemma filter_rstrip (s : string) : filter is_alnum (rstrip s) = filter is_alnum s.
Proof.
  induction s as [|c s IH]; [reflexivity|]. cbn [rstrip].
  destruct (is_empty (rstrip s) && is_space c) eqn:E.
  - apply andb_true_iff in E as [He Hc].
    apply is_empty_true in He. rewrite He in IH.
    cbn [filter]. now rewrite (space_not_alnum c Hc), <- IH.
  - cbn [filter]. now rewrite IH.
Qed.

Lemma filter_strip (s : string) : filter is_alnum (strip s) = filter is_alnum s.
Proof. unfold strip. now rewrite filter_rstrip, filter_lstrip. Qed.

(** Lines 359-361: the blanks that [.strip()] removes are removed by the
    second substitution anyway. *)
Lemma derive_key_filter (name : string) :
  derive_key name
  = or_str (lower (filter is_alnum (re_sub version_re "" name))) "database_key".
Proof.
  unfold derive_key, clean_name. now rewrite sub_non_alnum, filter_strip.
Qed.

End AssemblerFacts.

(* ================================================================== *)
(** * Record assembler: the assembled dictionary *)
(* ================================================================== *)

Module FormatFacts.
Import PyChar PyStr Re Py App Ref StrFacts ReFacts ValidateFacts AssemblerFacts.

Lemma db_field_name (db : option extracted) :
  db_field (db_value db) "name" = Ok (PStr (db_str e_name db)).
Proof. now destruct db. Qed.

Lemma db_field_prefix (db : option extracted) :
  db_field (db_value db) "prefix" = Ok (PStr (db_str e_prefix db)).
Proof. now destruct db. Qed.

Lemma db_field_description (db : option extracted) :
  db_field (db_value db) "description" = Ok (PStr (db_str e_description db)).
Proof. now destruct db. Qed.

Lemma db_field_example (db : option extracted) :
  db_field (db_value db) "example" = Ok (PStr (db_str e_example db)).
Proof. now destruct db. Qed.

Lemma db_field_homepage (db : option extracted) :
  db_field (db_value db) "homepage" = Ok (PStr (db_str e_homepage db)).
Proof. now destruct db. Qed.

Lemma db_field_pattern (db : option extracted) :
  db_field (db_value db) "pattern" = Ok (PStr (db_str e_pattern db)).
Proof. now destruct db. Qed.

Lemma db_field_uri_format (db : option extracted) :
  db_field (db_value db) "uri_format" = Ok (PStr (db_str e_uri_format db)).
Proof. now destruct db. Qed.

Lemma resolve_homepage_value (pd : list (string * pyval)) (db : option extracted) :
  homepage_is_string pd = true ->
  resolve_homepage (PDict pd) (db_value db) = Ok (PStr (resolved_homepage pd db)).
Proof.
  intros Hh. unfold resolve_homepage. rewrite db_field_homepage. cbn [bind].
  unfold por, resolved_homepage, or_str. cbn [truthy].
  destruct (is_empty (db_str e_homepage db)); cbn [negb]; [|reflexivity].
  unfold get_default, pubmed_homepage. unfold homepage_is_string in Hh.
  destruct (lookup "homepage" pd) as [[| | | h | |]|]; try discriminate; reflexivity.
Qed.

Lemma contact_of_value (db : option extracted) :
  contact_of (db_value db) = Ok (contact_record db).
Proof. now destruct db. Qed.

Lemma get_default_por (d : list (string * pyval)) (k : string) :
  (v <- get_default (PDict d) k (PStr "") ;; por v (Ok (PStr "")))
  = Ok (field_or d k (PStr "")).
Proof.
  unfold get_default, field_or, por, bind.
  destruct (lookup k d) as [v|]; [|reflexivity].
  now destruct (truthy v).
Qed.

Lemma contributor_of_value (contributor : pyval) :
  contributor_of contributor = Ok (contributor_record contributor).
Proof.
  unfold contributor_of, contributor_record.
  destruct contributor as [| b | z | t | l | d]; cbn [truthy is_dict andb].
  - reflexivity.
  - now rewrite andb_false_r.
  - now rewrite andb_false_r.
  - now rewrite andb_false_r.
  - now rewrite andb_false_r.
  - destruct d as [|x d]; [reflexivity|]. cbn [andb].
    set (d' := x :: d).
    pose proof (get_default_por d' "name") as En.
    pose proof (get_default_por d' "email") as Ee.
    pose proof (get_default_por d' "orcid") as Eo.
    pose proof (get_default_por d' "github") as Eg.
    destruct (get_default (PDict d') "name" (PStr "")) as [n|]; [|discriminate].
    cbn [bind] in *. rewrite En. cbn [bind].
    destruct (get_default (PDict d') "email" (PStr "")) as [e|]; [|discriminate].
    cbn [bind] in *. rewrite Ee. cbn [bind].
    destruct (get_default (PDict d') "orcid" (PStr "")) as [o|]; [|discriminate].
    cbn [bind] in *. rewrite Eo. cbn [bind].
    destruct (get_default (PDict d') "github" (PStr "")) as [g|]; [|discriminate].
    cbn [bind] in *. rewrite Eg. reflexivity.
Qed.

Lemma keywords_for_value (pd : list (string * pyval)) (db : option extracted) :
  keywords_for (PDict pd) (db_value db) = Ok (resolved_keywords pd db).
Proof.
  unfold keywords_for, resolved_keywords, field_or.
  assert (Hdb : (from_db <- (if truthy (db_value db)
                             then get (db_value db) "keywords" else Ok PNone) ;;
                 if truthy (db_value db) && truthy from_db then Ok from_db
                 else Ok (PList []))
                = Ok match db with
                     | Some e => PList (List.map PStr (e_keywords e))
                     | None => PList []
                     end).
  { destruct db as [e|]; [|reflexivity].
    cbn. now destruct (e_keywords e). }
  destruct pd as [|x pd]; [exact Hdb|].
  cbn [truthy]. unfold get at 1, get_default. cbn [bind andb].
  destruct (lookup "keywords" (x :: pd)) as [v|]; [|exact Hdb].
  destruct (truthy v) eqn:E; cbn [truthy]; rewrite ?E; [reflexivity | exact Hdb].
Qed.

Lemma publications_of_value (pd : list (string * pyval)) :
  publications_of (PDict pd) = Ok (publications_record pd).
Proof.
  unfold publications_of, publications_record, publication_entry.
  destruct pd as [|x pd]; [reflexivity|]. cbn [truthy].
  set (d := x :: pd).
  pose proof (get_por d "doi" (PStr "")) as Ed.
  pose proof (get_por d "pmid" (PStr "")) as Ep.
  pose proof (get_por d "title" (PStr "")) as Et.
  pose proof (get_por d "year" PNone) as Ey.
  destruct (get (PDict d) "doi") as [v1|]; [|discriminate].
  cbn [bind] in *. rewrite Ed. cbn [bind].
  destruct (get (PDict d) "pmid") as [v2|]; [|discriminate].
  cbn [bind] in *. rewrite Ep. cbn [bind].
  destruct (get (PDict d) "title") as [v3|]; [|discriminate].
  cbn [bind] in *. rewrite Et. cbn [bind].
  destruct (get (PDict d) "year") as [v4|]; [|discriminate].
  cbn [bind] in *. rewrite Ey. reflexivity.
Qed.

(** The assembler on a publication dictionary and an absent or
    extractor-made DatabaseInfo. *)
Lemma format_assembled (pd : list (string * pyval)) (db : option extracted)
  (contributor : pyval) :
  homepage_is_string pd = true ->
  format_bioregistry_json (PDict pd) (db_value db) contributor
  = Ok (assembled pd db contributor).
Proof.
  intros Hh. unfold format_bioregistry_json.
  rewrite db_field_name, db_field_prefix, db_field_description, db_field_example,
    db_field_pattern, db_field_uri_format.
  rewrite contact_of_value, contributor_of_value, keywords_for_value,
    publications_of_value, !(resolve_homepage_value pd db Hh).
  cbn [bind strip_of subject].
  assert (Hname : (if is_empty (strip (db_str e_name db))
                   then Ok (derive_name (resolved_homepage pd db))
                   else Ok (strip (db_str e_name db)))
                  = Ok (resolved_name pd db)).
  { unfold resolved_name, or_str. rewrite derive_name_label.
    now destruct (is_empty (strip (db_str e_name db))). }
  rewrite Hname. cbn [bind].
  unfold assembled, assembled_record, resolved_prefix. rewrite derive_key_filter.
  unfold or_str at 3. reflexivity.
Qed.

End FormatFacts.

(* ================================================================== *)
(** * Metadata client *)
(* ================================================================== *)

Module ClientFacts.
Import PyChar PyStr Re Py App Ref StrFacts ValidateFacts.

Lemma get_value (d : list (string * pyval)) (k : string) :
  get (PDict d) k = Ok (value_of d k).
Proof. reflexivity. Qed.

Lemma por_value (d : list (string * pyval)) (k : string) (dflt : pyval) :
  por (value_of d k) (Ok dflt) = Ok (field_or d k dflt).
Proof.
  unfold por, value_of, field_or.
  destruct (lookup k d) as [v|]; [now destruct (truthy v) | reflexivity].
Qed.

Lemma select_item_value (raw : pyval) (pmid : string) :
  truthy raw = true -> select_item raw pmid = Ok (selected_item raw pmid).
Proof.
  intros Ht. unfold select_item, selected_item.
  destruct raw as [| b | z | t | l | d]; try reflexivity.
  rewrite get_value. cbn [bind]. unfold por.
  destruct (truthy (value_of d pmid)); [reflexivity|].
  destruct d as [|[k x] d]; [discriminate | reflexivity].
Qed.

(** The first author is read without an exception exactly when the
    authors are falsy, a list or a string. *)
Lemma first_author_of_outcome (W : world) (authors : pyval) :
  if negb (truthy authors) || is_list authors || is_str authors
  then exists v, first_author_of W authors = Ok v
  else exists e, first_author_of W authors = Raise e.
Proof.
  unfold first_author_of.
  destruct authors as [| b | z | t | l | d]; cbn [truthy negb orb is_list is_str].
  - now eexists.
  - destruct b; now eexists.
  - destruct (Z.eqb z 0); now eexists.
  - rewrite orb_true_r. destruct t as [|c t]; cbn; now eexists.
  - rewrite orb_true_r. destruct l as [|a0 l]; [now eexists|].
    cbn [item0 bind].
    destruct a0 as [| b | z | t | l' | d']; cbn [is_dict]; try (now eexists).
    rewrite !get_value. cbn [bind]. unfold por.
    destruct (truthy (value_of d' "name")); [now eexists|].
    destruct (truthy (value_of d' "fullname")); now eexists.
  - destruct d; now eexists.
Qed.

(** The year is read without an exception exactly when the record has a
    truthy year, or a publication date that is a string or falsy. *)
Lemma year_of_outcome (W : world) (d : list (string * pyval)) :
  if truthy (value_of d "year") || is_str (field_or d "pubdate" (PStr ""))
  then exists v, year_of W (PDict d) = Ok v
  else exists e, year_of W (PDict d) = Raise e.
Proof.
  unfold year_of. rewrite get_value. cbn [bind].
  destruct (truthy (value_of d "year")); cbn [orb]; [now eexists|].
  rewrite get_value. cbn [bind].
  change (por (value_of d "pubdate") (Ok (PStr "")))
    with (v <- get (PDict d) "pubdate" ;; por v (Ok (PStr ""))).
  rewrite get_por. cbn [bind].
  destruct (field_or d "pubdate" (PStr "")); cbn; now eexists.
Qed.

Lemma keywords_value_total (W : world) (kw : pyval) :
  exists v,
    (if truthy kw then
       match kw with
       | PList l =>
           Ok (PList (List.map (fun x => PStr (strip (str_of W x)))
                               (List.filter truthy l)))
       | _ =>
           Ok (PList (List.map (fun k => PStr (strip k))
                               (List.filter (fun k => nonempty (strip k))
                                            (split_on "," (str_of W kw)))))
       end
     else Ok (PList [])) = Ok v.
Proof. destruct (truthy kw); [destruct kw|]; now eexists. Qed.

Lemma keywords_of_total (W : world) (d : list (string * pyval)) :
  exists v, keywords_of W (PDict d) = Ok v.
Proof.
  unfold keywords_of. cbn [is_dict]. rewrite !get_value. cbn [bind]. unfold por.
  destruct (truthy (value_of d "keywords")); cbn [bind];
    [apply keywords_value_total|].
  destruct (truthy (value_of d "mesh_terms")); cbn [bind];
    [apply keywords_value_total|].
  destruct (truthy (value_of d "keyword")); cbn [bind];
    apply keywords_value_total.
Qed.

(** The fields are read without an exception exactly from a record of
    the expected shape. *)
Lemma normalize_item_outcome (W : world) (pmid : string) (item : pyval) :
  if item_shape_ok item
  then exists title doi text first_author year keywords,
      normalize_item W pmid item
      = Ok (metadata_record title doi text first_author pmid year keywords)
  else exists e, normalize_item W pmid item = Raise e.
Proof.
  unfold normalize_item, item_shape_ok.
  destruct item as [| b | z | t | l | d]; try (now eexists).
  rewrite (get_por d "elocationid"), (get_por d "author_list").
  rewrite !get_value. cbn [bind]. rewrite !por_value. cbn [bind].
  fold (authors_of d).
  pose proof (first_author_of_outcome W (authors_of d)) as Ha.
  pose proof (year_of_outcome W d) as Hy.
  destruct (keywords_of_total W d) as [kw Hk].
  destruct (negb (truthy (authors_of d)) || is_list (authors_of d)
            || is_str (authors_of d)); cbn [andb].
  2:{ destruct Ha as [e ->]. now eexists. }
  destruct Ha as [fa ->]. cbn [bind].
  destruct (truthy (value_of d "year") || is_str (field_or d "pubdate" (PStr "")));
    cbn [andb].
  2:{ destruct Hy as [e ->]. now eexists. }
  destruct Hy as [y ->]. cbn [bind].
  destruct (field_or d "abstract" (PStr "")) as [| b | z | text | l | d'];
    cbn [is_str subject bind]; try (now eexists).
  rewrite Hk. cbn [bind]. unfold metadata_record. now eexists _, _, _, _, _, _.
Qed.

End ClientFacts.

(* ================================================================== *)
(** * Endpoint *)
(* ================================================================== *)

Module EndpointFacts.
Import PyChar PyStr Re Py App Ref StrFacts ValidateFacts ClientFacts FormatFacts.

(** What the client returns, when it returns: an error dictionary with a
    non-empty message, or the eight-key record. *)
Lemma client_result (W : world) (pmid : string) (r : pyval) :
  extract_pubmed_metadata W pmid = Ok r ->
  (exists msg, r = error_dict msg /\ msg <> "")
  \/ (exists title doi text first_author year keywords,
         r = metadata_record title doi text first_author pmid year keywords).
Proof.
  unfold extract_pubmed_metadata.
  destruct (indra_import_error W) as [e|].
  { intros [= <-]. left. eexists. split; [reflexivity | discriminate]. }
  destruct (get_metadata_for_ids W [pmid]) as [raw|e].
  2:{ intros [= <-]. left. eexists. split; [reflexivity | discriminate]. }
  destruct (truthy raw) eqn:Ht; cbn [negb].
  2:{ intros [= <-]. left. eexists. split; [reflexivity | discriminate]. }
  rewrite (select_item_value raw pmid Ht). cbn [bind].
  pose proof (normalize_item_outcome W pmid (selected_item raw pmid)) as Hn.
  destruct (item_shape_ok (selected_item raw pmid)).
  - destruct Hn as (title & doi & text & fa & year & kws & ->).
    intros [= <-]. right. now eexists _, _, _, _, _, _.
  - destruct Hn as [e ->]. discriminate.
Qed.

(** What the extractor returns, when it returns. *)
Lemma extractor_result (W : world) (homepage_url : string) (db : pyval) :
  extract_database_info W homepage_url = Ok db ->
  exists e, db = database_info e.
Proof.
  unfold extract_database_info.
  destruct (agent_final W homepage_url) as [final|x]; [|discriminate].
  cbn [bind]. destruct (parse_reply final homepage_url) as [e|x]; [|discriminate].
  intros [= <-]. now exists e.
Qed.

Lemma pipeline_error (W : world) (pmid : string) (contributor : pyval) (msg : string) :
  extract_pubmed_metadata W pmid = Ok (error_dict msg) ->
  msg <> "" ->
  pipeline W pmid contributor = Ok (mkResponse 500 (error_body msg)).
Proof.
  intros Hc Hm. unfold pipeline. rewrite Hc. cbn.
  destruct msg; [congruence | reflexivity].
Qed.

(** The pipeline on a record whose title is a string. *)
Lemma pipeline_record (W : world) (pmid : string) (contributor : pyval)
  (title : string) (doi : pyval) (text : string) (first_author year keywords : pyval) :
  let r := metadata_record (PStr title) doi text first_author pmid year keywords in
  extract_pubmed_metadata W pmid = Ok r ->
  pipeline W pmid contributor
  = match scan_urls text with
    | [] =>
        Ok (mkResponse 400
              (error_body_with_data no_url_message
                 (assembled (items r) None contributor)))
    | homepage_url :: _ =>
        match extract_database_info W homepage_url with
        | Raise e =>
            Ok (mkResponse 500
                  (error_body_with_data ("Database scraping failed: " ++ exn_msg e)
                     (assembled (items r) None contributor)))
        | Ok db_data =>
            bioreg <- format_bioregistry_json r db_data contributor ;;
            Ok (mkResponse 200 (success_body bioreg))
        end
    end.
Proof.
  intros r Hc. unfold pipeline. rewrite Hc. cbn [bind].
  change (get r "error") with (Ok PNone : res pyval). cbn [bind truthy].
  change (get_default r "title" (PStr "N/A")) with (Ok (PStr title) : res pyval).
  cbn [bind slice50].
  change (get r "abstract") with (Ok (PStr text) : res pyval). cbn [bind].
  assert (Ha : por (PStr text) (Ok (PStr "")) = Ok (PStr text)).
  { unfold por. cbn [truthy]. now destruct text. }
  rewrite Ha. cbn [bind subject].
  assert (Hp : format_bioregistry_json r PNone contributor
               = Ok (assembled (items r) None contributor)).
  { exact (format_assembled (items r) None contributor eq_refl). }
  rewrite Hp. cbn [bind].
  destruct (scan_urls text) as [|u urls]; [reflexivity|].
  destruct (extract_database_info W u); reflexivity.
Qed.

End EndpointFacts.

(* ================================================================== *)
(** * The version suffix *)
(* ================================================================== *)

Module VersionFacts.
Import PyChar PyStr Re Py App Ref StrFacts ReFacts ScanFacts ExtractorFacts.

Lemma star_rests_self (p : ascii -> bool) (s : string) (caps : captures) :
  In (s, caps) (star_rests p s caps).
Proof.
  destruct s as [|c s]; simpl; [now left|].
  destruct (p c); [apply in_or_app; right|]; now left.
Qed.

Lemma star_rests_intro (p : ascii -> bool) (pre rest : string) (caps : captures) :
  all p pre = true -> In (rest, caps) (star_rests p (pre ++ rest) caps).
Proof.
  induction pre as [|c pre IH]; simpl; intros H; [apply star_rests_self|].
  apply andb_true_iff in H as [Hc Hp]. rewrite Hc.
  apply in_or_app. left. now apply IH.
Qed.

Lemma plus_rests_intro (p : ascii -> bool) (pre rest : string) (caps : captures) :
  pre <> "" -> all p pre = true -> In (rest, caps) (plus_rests p (pre ++ rest) caps).
Proof.
  destruct pre as [|c pre]; [congruence|]. simpl. intros _ H.
  apply andb_true_iff in H as [Hc Hp]. rewrite Hc. now apply star_rests_intro.
Qed.

(** A case-insensitive literal. *)
Lemma run_litci_in (total : nat) (p : string) :
  forall s caps y,
    In y (run total (LitCI p) s caps) ->
    exists v, s = v ++ fst y /\ lower v = lower p /\ snd y = caps.
Proof.
  induction p as [|a p IH]; intros s caps y H.
  - destruct H as [<-|[]]. now exists "".
  - change (LitCI (String a p)) with (Cat (Chr (is_ci a)) (LitCI p)) in H.
    rewrite run_cat in H. apply in_flat_map in H as (x & Hx & Hy).
    destruct s as [|c s]; [destruct Hx|]. cbn [run] in Hx.
    destruct (is_ci a c) eqn:E; [|destruct Hx].
    destruct Hx as [<-|[]]. cbn [fst snd] in Hy.
    destruct (IH _ _ _ Hy) as (v & -> & Hv & Hc).
    exists (String c v). repeat split; try assumption.
    cbn. unfold is_ci in E. apply Ascii.eqb_eq in E. unfold lower in Hv.
    now rewrite E, Hv.
Qed.

Lemma run_litci_intro (total : nat) (p : string) :
  forall v rest caps,
    lower v = lower p -> In (rest, caps) (run total (LitCI p) (v ++ rest) caps).
Proof.
  induction p as [|a p IH]; intros v rest caps H.
  - destruct v; [now left | discriminate].
  - destruct v as [|c v]; [discriminate|]. cbn in H. injection H as Hc Hv.
    change (LitCI (String a p)) with (Cat (Chr (is_ci a)) (LitCI p)).
    rewrite run_cat. apply in_flat_map.
    exists (v ++ rest, caps). split.
    + cbn. unfold is_ci. rewrite Hc, Ascii.eqb_refl. now left.
    + apply IH. exact Hv.
Qed.

Lemma iterate_self (body : string -> captures -> list (string * captures))
  (n : nat) (s : string) (caps : captures) :
  In (s, caps) (iterate body n s caps).
Proof. destruct n; simpl; [now left|]. apply in_or_app. right. now left. Qed.

Lemma run_dot_digits_in (total : nat) (s : string) (caps : captures) x :
  In x (run total dot_digits s caps) ->
  exists d, s = String "." (d ++ fst x) /\ d <> "" /\ all is_digit d = true
            /\ snd x = caps.
Proof.
  unfold dot_digits, digit. rewrite run_cat. intros H.
  apply in_flat_map in H as (z & Hz & Hx).
  destruct s as [|c s]; [destruct Hz|]. cbn [run] in Hz.
  destruct (is_char "." c) eqn:E; [|destruct Hz].
  destruct Hz as [<-|[]]. cbn [fst snd] in Hx.
  rewrite run_plus_chr in Hx.
  apply plus_rests_in in Hx as (d & -> & Hd & Hne & Hc).
  exists d. unfold is_char in E. apply Ascii.eqb_eq in E. subst c.
  now repeat split.
Qed.

Lemma run_dot_digits_intro (total : nat) (d rest : string) (caps : captures) :
  d <> "" -> all is_digit d = true ->
  In (rest, caps) (run total dot_digits (String "." (d ++ rest)) caps).
Proof.
  intros Hne Hd. unfold dot_digits, digit. rewrite run_cat. apply in_flat_map.
  exists (d ++ rest, caps). split; [now left|].
  cbn [fst snd]. rewrite run_plus_chr. now apply plus_rests_intro.
Qed.

(** The repeated group: what it consumes is a sequence of dot groups. *)
Lemma iterate_dot_digits_in (total : nat) :
  forall n s caps y,
    In y (iterate (run total dot_digits) n s caps) ->
    exists g, s = g ++ fst y /\ dot_groups g /\ snd y = caps.
Proof.
  induction n as [|n IH]; intros s caps y H.
  - destruct H as [<-|[]]. exists "". repeat split. constructor.
  - cbn [iterate] in H. apply in_app_or in H as [H|[<-|[]]].
    2:{ exists "". repeat split. constructor. }
    apply in_flat_map in H as (x & Hx & Hy).
    destruct (String.length (fst x) <? String.length s)%nat; [|destruct Hy].
    apply run_dot_digits_in in Hx as (d & Hs & Hne & Hd & Hc).
    destruct (IH _ _ _ Hy) as (g & Hg & Hdg & Hc').
    exists (String "." (d ++ g)). repeat split.
    + rewrite Hs, Hg. cbn. now rewrite append_assoc.
    + now constructor.
    + congruence.
Qed.

Lemma iterate_dot_digits_intro (total : nat) (g : string) :
  dot_groups g ->
  forall n rest caps,
    String.length (g ++ rest) <= n ->
    In (rest, caps) (iterate (run total dot_digits) n (g ++ rest) caps).
Proof.
  induction 1 as [|d g Hne Hd Hg IH]; intros n rest caps Hn.
  - apply iterate_self.
  - destruct n as [|n]; [simpl in Hn; lia|].
    cbn [iterate]. apply in_or_app. left. apply in_flat_map.
    exists (g ++ rest, caps). split.
    + cbn [append]. rewrite append_assoc. now apply run_dot_digits_intro.
    + cbn [fst snd].
      replace (String.length (g ++ rest) <? String.length (String "." (d ++ g) ++ rest))%nat
        with true.
      * apply IH. cbn in Hn. rewrite !length_append in *. lia.
      * symmetry. apply Nat.ltb_lt. cbn. rewrite !length_append. lia.
Qed.

Lemma run_eol_self (total : nat) (s : string) (caps : captures) y :
  In y (run total Eol s caps) -> y = (s, caps).
Proof.
  destruct s as [|c [|c' s]]; simpl.
  - now intros [<-|[]].
  - destruct (Ascii.eqb c LF); [now intros [<-|[]] | intros []].
  - intros [].
Qed.

(** Every match of the version pattern consumes a version suffix, up to
    the end or to a last line feed. *)
Lemma run_version_in (total : nat) (s : string) (caps : captures) y :
  In y (run total version_re s caps) ->
  exists t, s = t ++ fst y /\ version_suffix t
            /\ (fst y = "" \/ fst y = String LF "") /\ snd y = caps.
Proof.
  unfold version_re, blank, digit. intros H.
  rewrite run_cat in H. apply in_flat_map in H as (x1 & H1 & H).
  rewrite run_star_chr in H1.
  apply star_rests_in in H1 as (b1 & Hs1 & Hb1 & Hc1).
  rewrite run_cat in H. apply in_flat_map in H as (x2 & H2 & H).
  assert (Hv : exists v, fst x1 = v ++ fst x2 /\ version_word v /\ snd x2 = snd x1).
  { cbn [run] in H2. apply in_app_or in H2 as [H2|H2];
      apply run_litci_in in H2 as (v & Hv & Hl & Hc); exists v; repeat split; trivial.
    - now left.
    - now right. }
  destruct Hv as (v & Hs2 & Hv & Hc2).
  rewrite run_cat in H. apply in_flat_map in H as (x3 & H3 & H).
  rewrite run_star_chr in H3.
  apply star_rests_in in H3 as (b2 & Hs3 & Hb2 & Hc3).
  rewrite run_cat in H. apply in_flat_map in H as (x4 & H4 & H).
  rewrite run_plus_chr in H4.
  apply plus_rests_in in H4 as (d & Hs4 & Hd & Hne & Hc4).
  rewrite run_cat in H. apply in_flat_map in H as (x5 & H5 & H).
  change (run total (Star (Cat (Chr (is_char ".")) (Plus (Chr is_digit))))
              (fst x4) (snd x4))
    with (iterate (run total dot_digits) (String.length (fst x4)) (fst x4) (snd x4))
    in H5.
  apply iterate_dot_digits_in in H5 as (g & Hs5 & Hg & Hc5).
  pose proof (run_eol_in _ _ _ _ H) as Hend.
  apply run_eol_self in H. subst y. cbn [fst snd].
  exists (b1 ++ v ++ b2 ++ d ++ g). split; [|split; [|split; [exact Hend|]]].
  - rewrite Hs1, Hs2, Hs3, Hs4, Hs5. now rewrite !append_assoc.
  - now exists b1, v, b2, d, g.
  - congruence.
Qed.

(** A version suffix is matched to its end. *)
Lemma run_version_intro (total : nat) (s : string) (caps : captures) :
  version_suffix s -> In ("", caps) (run total version_re s caps).
Proof.
  intros (b1 & v & b2 & d & g & -> & Hb1 & Hv & Hb2 & Hne & Hd & Hg).
  unfold version_re, blank, digit.
  rewrite run_cat. apply in_flat_map.
  exists (v ++ b2 ++ d ++ g, caps). split.
  { rewrite run_star_chr. now apply star_rests_intro. }
  cbn [fst snd]. rewrite run_cat. apply in_flat_map.
  exists (b2 ++ d ++ g, caps). split.
  { cbn [run]. apply in_or_app.
    destruct Hv as [Hv|Hv]; [left | right]; now apply run_litci_intro. }
  cbn [fst snd]. rewrite run_cat. apply in_flat_map.
  exists (d ++ g, caps). split.
  { rewrite run_star_chr. now apply star_rests_intro. }
  cbn [fst snd]. rewrite run_cat. apply in_flat_map.
  exists (g, caps). split.
  { rewrite run_plus_chr. now apply plus_rests_intro. }
  cbn [fst snd]. rewrite run_cat. apply in_flat_map.
  exists ("", caps). split; [|now left].
  change (run total (Star (Cat (Chr (is_char ".")) (Plus (Chr is_digit)))) g caps)
    with (iterate (run total dot_digits) (String.length g) g caps).
  pose proof (iterate_dot_digits_intro total g Hg (String.length g) "" caps) as Hi.
  rewrite append_nil_r in Hi. apply Hi. lia.
Qed.

Lemma last_is_cons (p : ascii -> bool) (c : ascii) (s : string) :
  s <> "" -> last_is p (String c s) = last_is p s.
Proof. destruct s; [congruence | reflexivity]. Qed.

Lemma last_is_tail (p : ascii -> bool) (c : ascii) (s : string) :
  last_is p (String c s) = false -> last_is p s = false.
Proof. destruct s; [reflexivity | now rewrite last_is_cons]. Qed.

Lemma version_suffix_nonempty : ~ version_suffix "".
Proof.
  intros (b1 & v & b2 & d & g & H & _ & _ & _ & Hne & _).
  destruct b1; [|discriminate]. destruct v; [|discriminate].
  destruct b2; [|discriminate]. destruct d; [congruence | discriminate].
Qed.

(** The first match of the version pattern at the head of a string
    without a last line feed: the whole string, when it is a version
    suffix. *)
Lemma match_at_version (total : nat) (s : string) :
  last_is (is_char LF) s = false ->
  (version_suffix s /\ match_at total version_re s = Some (mkMatch s "" []))
  \/ (~ version_suffix s /\ match_at total version_re s = None).
Proof.
  intros Hlast. unfold match_at.
  destruct (run total version_re s []) as [|y tl] eqn:E.
  - right. split; [|reflexivity]. intros Hv.
    apply (run_version_intro total s []) in Hv. rewrite E in Hv. destruct Hv.
  - left. assert (Hy : In y (run total version_re s [])) by (rewrite E; now left).
    apply run_version_in in Hy as (t & Hs & Hv & [Hend|Hend] & Hc).
    + rewrite Hend, append_nil_r in Hs. subst t. split; [exact Hv|].
      destruct y as [rest c]. cbn [fst snd] in Hend, Hc. subst rest c.
      unfold to_match. cbn [fst snd]. now rewrite Nat.sub_0_r, take_all.
    + exfalso. rewrite Hs, Hend in Hlast.
      rewrite last_is_append in Hlast. discriminate.
Qed.

(** [re.sub] with the version pattern cuts the name where a version
    suffix first begins. *)
Lemma sub_version_cut (total : nat) :
  forall s, last_is (is_char LF) s = false ->
    sub_from total version_re "" 0 s
    = cut_at (fun t => match match_at total version_re t with
                       | Some _ => true
                       | None => false
                       end) s.
Proof.
  induction s as [|c s IH]; intros Hlast; cbn [sub_from cut_at].
  - destruct (match_at_version total "" eq_refl) as [[Hv _]|[_ ->]]; [|reflexivity].
    now apply version_suffix_nonempty in Hv.
  - destruct (match_at_version total (String c s) Hlast) as [[_ ->]|[_ ->]].
    + cbn [m_text String.length append].
      rewrite <- (append_nil_r s) at 2. rewrite sub_skip. cbn [sub_from].
      destruct (match_at_version total "" eq_refl) as [[Hv _]|[_ ->]]; [|reflexivity].
      now apply version_suffix_nonempty in Hv.
    + f_equal. apply IH. eapply last_is_tail; eassumption.
Qed.

Lemma last_is_suffix (p : ascii -> bool) (a b : string) :
  last_is p (a ++ b) = false -> last_is p b = false.
Proof.
  induction a as [|c a IH]; [trivial|]. cbn [append]. intros H.
  apply IH. eapply last_is_tail; eassumption.
Qed.

(** The cut, said without the scan: the name up to its longest version
    suffix; all of it when no suffix is one. *)
Lemma cut_at_longest (b : string -> bool) (P : string -> Prop) :
  forall p sfx,
    (forall q t, p ++ sfx = q ++ t -> t <> "" -> (b t = true <-> P t)) ->
    P sfx -> sfx <> "" ->
    (forall q t, p ++ sfx = q ++ t -> P t -> String.length p <= String.length q) ->
    cut_at b (p ++ sfx) = p.
Proof.
  induction p as [|c p IH]; intros sfx Hb HP Hne Hmin.
  - cbn [append]. destruct sfx as [|c sfx]; [congruence|]. cbn [cut_at].
    replace (b (String c sfx)) with true; [reflexivity|].
    symmetry. apply (Hb "" (String c sfx)); [reflexivity | discriminate | exact HP].
  - cbn [append cut_at].
    destruct (b (String c (p ++ sfx))) eqn:E.
    + exfalso.
      apply (Hb "" (String c (p ++ sfx))) in E; [|reflexivity | discriminate].
      specialize (Hmin "" (String c (p ++ sfx)) eq_refl E). simpl in Hmin. lia.
    + f_equal. apply IH; trivial.
      * intros q t Hq. apply (Hb (String c q) t). cbn. now rewrite Hq.
      * intros q t Hq Ht.
        specialize (Hmin (String c q) t). cbn in Hmin. rewrite Hq in Hmin.
        specialize (Hmin eq_refl Ht). lia.
Qed.

Lemma cut_at_none (b : string -> bool) (P : string -> Prop) :
  forall s,
    (forall q t, s = q ++ t -> t <> "" -> (b t = true <-> P t)) ->
    (forall q t, s = q ++ t -> ~ P t) ->
    cut_at b s = s.
Proof.
  induction s as [|c s IH]; intros Hb Hno; [reflexivity|]. cbn [cut_at].
  destruct (b (String c s)) eqn:E.
  - exfalso. apply (Hb "" (String c s)) in E; [|reflexivity | discriminate].
    exact (Hno "" (String c s) eq_refl E).
  - f_equal. apply IH.
    + intros q t Hq. apply (Hb (String c q) t). cbn. now rewrite Hq.
    + intros q t Hq. apply (Hno (String c q) t). cbn. now rewrite Hq.
Qed.

(** Line 359 removes the longest version suffix of the name. *)
Lemma sub_version_suffix (name : string) :
  last_is (is_char LF) name = false ->
  (forall p sfx,
      name = p ++ sfx -> version_suffix sfx ->
      (forall q t, name = q ++ t -> version_suffix t ->
                   String.length p <= String.length q) ->
      re_sub version_re "" name = p)
  /\ ((forall q t, name = q ++ t -> ~ version_suffix t) ->
      re_sub version_re "" name = name).
Proof.
  intros Hlast. unfold re_sub. rewrite sub_version_cut by assumption.
  set (total := String.length name).
  assert (Hb : forall q t, name = q ++ t -> t <> "" ->
                 ((match match_at total version_re t with
                   | Some _ => true | None => false end) = true
                  <-> version_suffix t)).
  { intros q t Hq Ht.
    assert (Hl : last_is (is_char LF) t = false).
    { rewrite Hq in Hlast. eapply last_is_suffix; eassumption. }
    destruct (match_at_version total t Hl) as [[Hv ->]|[Hv ->]];
      split; trivial; [discriminate | contradiction]. }
  split.
  - intros p sfx Hn Hv Hmin. subst name.
    apply (cut_at_longest _ version_suffix); trivial.
    intros ->. now apply version_suffix_nonempty in Hv.
  - intros Hno. now apply (cut_at_none _ version_suffix).
Qed.

(** *** Names without a last line feed *)

Lemma all_drop (q : ascii -> bool) (n : nat) (s : string) :
  all q s = true -> all q (drop n s) = true.
Proof.
  revert s; induction n as [|n IH]; intros [|c s] H; trivial.
  simpl in H. apply andb_true_iff in H as [_ H]. now apply IH.
Qed.

Lemma all_span (q p : ascii -> bool) (s : string) :
  all q s = true -> all q (span p s) = true.
Proof.
  induction s as [|c s IH]; simpl; intros H; [reflexivity|].
  apply andb_true_iff in H as [Hc Hs].
  destruct (p c); simpl; [now rewrite Hc, IH | reflexivity].
Qed.

Lemma label_at_all (q : ascii -> bool) (s l : string) :
  all q s = true -> label_at s = Some l -> all q l = true.
Proof.
  intros Hq. unfold label_at.
  destruct (scheme_of s) as [scheme|]; [|discriminate]. cbv zeta.
  set (r := drop (String.length scheme) s).
  set (r' := if startswith "www." r && nonempty (span is_label_char (drop 4 r))
             then drop 4 r else r).
  assert (Hr' : all q r' = true).
  { subst r'. destruct (_ && _); [apply all_drop|]; subst r; now apply all_drop. }
  destruct (nonempty (span is_label_char r')); [|discriminate].
  intros H. injection H as <-. now apply all_span.
Qed.

Lemma domain_label_all (q : ascii -> bool) (l : string) :
  forall s, all q s = true -> domain_label s = Some l -> all q l = true.
Proof.
  induction s as [|c s IH]; intros Hq; cbn [domain_label].
  - change (label_at "") with (@None string). discriminate.
  - destruct (label_at (String c s)) as [l'|] eqn:E.
    + intros H. injection H as <-. eapply label_at_all; eassumption.
    + apply IH. simpl in Hq. now apply andb_true_iff in Hq.
Qed.

Lemma all_not_last (p : ascii -> bool) (s : string) :
  all (fun c => negb (p c)) s = true -> last_is p s = false.
Proof.
  induction s as [|c s IH]; [reflexivity|]. simpl. intros H.
  apply andb_true_iff in H as [Hc Hs].
  destruct s; [now apply negb_true_iff in Hc | now apply IH].
Qed.

(** The resolved name has no last line feed, when the homepage it may
    come from has none. *)
Lemma resolved_name_last (pd : list (string * pyval)) (db : option extracted) :
  all not_newline (resolved_homepage pd db) = true ->
  last_is (is_char LF) (resolved_name pd db) = false.
Proof.
  intros Hh. unfold resolved_name, or_str.
  destruct (is_empty (strip (db_str e_name db))).
  - destruct (domain_label (resolved_homepage pd db)) as [l|] eqn:E; [|reflexivity].
    apply all_not_last. exact (domain_label_all not_newline _ _ Hh E).
  - apply (last_is_impl (is_char LF) is_space); [exact newline_is_space|].
    apply strip_last.
Qed.

End VersionFacts.

(* ================================================================== *)
(** * Blanks at the ends of a text *)
(* ================================================================== *)

Module StripFacts.
Import PyChar PyStr Re Py App Ref StrFacts ReFacts ScanFacts ValidateFacts
  ExtractorFacts AssemblerFacts FormatFacts ClientFacts EndpointFacts VersionFacts.

(** *** [str.strip] is idempotent *)

Lemma lstrip_head (s : string) : head_is is_space (lstrip s) = false.
Proof.
  induction s as [|c s IH]; [reflexivity|]. cbn [lstrip].
  destruct (is_space c) eqn:E; [exact IH | exact E].
Qed.

Lemma lstrip_id (s : string) : head_is is_space s = false -> lstrip s = s.
Proof. destruct s as [|c s]; [reflexivity|]. simpl. now intros ->. Qed.

Lemma rstrip_head (s : string) :
  head_is is_space s = false -> head_is is_space (rstrip s) = false.
Proof.
  destruct s as [|c s]; [reflexivity|]. cbn [rstrip head_is]. intros Hc.
  rewrite Hc, andb_false_r. exact Hc.
Qed.

Lemma rstrip_id (s : string) : last_is is_space s = false -> rstrip s = s.
Proof.
  induction s as [|c s IH]; [reflexivity|]. cbn [rstrip]. intros H.
  destruct s as [|c' s].
  - cbn [rstrip is_empty andb]. cbn [last_is] in H. now rewrite H.
  - rewrite IH by exact H. reflexivity.
Qed.

Lemma strip_head (s : string) : head_is is_space (strip s) = false.
Proof. apply rstrip_head, lstrip_head. Qed.

Lemma strip_id (s : string) :
  head_is is_space s = false -> last_is is_space s = false -> strip s = s.
Proof. intros Hh Hl. unfold strip. rewrite lstrip_id by exact Hh. now apply rstrip_id. Qed.

Lemma strip_strip (s : string) : strip (strip s) = strip s.
Proof. apply strip_id; [apply strip_head | apply ExtractorFacts.strip_last]. Qed.

(** *** Blanks around a text *)

Lemma lstrip_blanks (b x : string) : all is_space b = true -> lstrip (b ++ x) = lstrip x.
Proof.
  induction b as [|c b IH]; [reflexivity|]. cbn [all append lstrip]. intros H.
  apply andb_true_iff in H as [Hc Hb]. rewrite Hc. now apply IH.
Qed.

Lemma rstrip_all_blank (b : string) : all is_space b = true -> rstrip b = "".
Proof.
  induction b as [|c b IH]; [reflexivity|]. cbn [all rstrip]. intros H.
  apply andb_true_iff in H as [Hc Hb]. now rewrite IH, Hc.
Qed.

Lemma rstrip_blanks (x b : string) : all is_space b = true -> rstrip (x ++ b) = rstrip x.
Proof.
  intros Hb. induction x as [|c x IH]; cbn [append rstrip].
  - now apply rstrip_all_blank.
  - now rewrite IH.
Qed.

Lemma strip_blanks_l (b g : string) : all is_space b = true -> strip (b ++ g) = strip g.
Proof. intros Hb. unfold strip. now rewrite lstrip_blanks. Qed.

Lemma strip_blanks_r (g b : string) : all is_space b = true -> strip (g ++ b) = strip g.
Proof.
  intros Hb. unfold strip. induction g as [|c g IH].
  - cbn [append]. rewrite <- (append_nil_r b), lstrip_blanks by assumption. reflexivity.
  - cbn [append lstrip]. destruct (is_space c); [exact IH|].
    change (String c (g ++ b)) with (String c g ++ b). now apply rstrip_blanks.
Qed.

End StripFacts.

(* ================================================================== *)
(** * Text scanner: separators and trimmed results *)
(* ================================================================== *)

Module SeparatorFacts.
Import PyChar PyStr Re Py App Ref StrFacts ReFacts ScanFacts ValidateFacts
  ExtractorFacts AssemblerFacts FormatFacts ClientFacts EndpointFacts VersionFacts StripFacts.

Lemma rstrip_punct_empty (u : string) :
  rstrip_punct u = "" -> all is_trailing_punct u = true.
Proof.
  destruct u as [|c u]; [reflexivity|]. cbn [rstrip_punct].
  destruct (all is_trailing_punct (String c u)); [reflexivity | discriminate].
Qed.

(** What is left of a URL does not end with punctuation. *)
Lemma rstrip_punct_last (u : string) :
  last_is is_trailing_punct (rstrip_punct u) = false.
Proof.
  induction u as [|c u IH]; [reflexivity|]. cbn [rstrip_punct].
  destruct (all is_trailing_punct (String c u)) eqn:E; [reflexivity|].
  destruct (rstrip_punct u) as [|c' r] eqn:Er.
  - cbn [last_is]. apply rstrip_punct_empty in Er.
    cbn [all] in E. rewrite Er, andb_true_r in E. exact E.
  - exact IH.
Qed.

Lemma span_stop (p : ascii -> bool) (a : string) (c : ascii) (b : string) :
  p c = false -> span p (a ++ String c b) = span p a.
Proof.
  intros Hc. induction a as [|x a IH]; cbn [append span].
  - now rewrite Hc.
  - destruct (p x); [now rewrite IH | reflexivity].
Qed.

Lemma startswith_stop (p : ascii -> bool) (scheme a : string) (c : ascii) (b : string) :
  all p scheme = true -> p c = false ->
  startswith scheme (a ++ String c b) = startswith scheme a.
Proof.
  intros Hs Hc. revert a. induction scheme as [|x scheme IH]; intros a.
  - reflexivity.
  - cbn [all] in Hs. apply andb_true_iff in Hs as [Hx Hs].
    destruct a as [|y a]; cbn [append startswith].
    + destruct (Ascii.eqb_spec x c) as [->|]; [congruence | reflexivity].
    + now rewrite IH.
Qed.

(** A character outside the URL class ends the run before it. *)
Lemma url_run_stop (a : string) (c : ascii) (b : string) :
  url_char c = false -> url_run (a ++ String c b) = url_run a.
Proof.
  intros Hc. unfold url_run, scheme_of.
  rewrite !(startswith_stop url_char) by (assumption || reflexivity).
  now rewrite span_stop.
Qed.

Lemma url_run_length (s run : string) :
  url_run s = Some run -> String.length run <= String.length s.
Proof.
  unfold url_run. destruct (scheme_of s); [|discriminate].
  destruct (_ <? _)%nat; [|discriminate]. intros [= <-]. apply span_length_le.
Qed.

Lemma runs_stop (c : ascii) (b : string) :
  url_char c = false ->
  forall a skip, skip <= String.length a ->
    runs url_run skip (a ++ String c b)
    = (runs url_run skip a ++ runs url_run 0 b)%list.
Proof.
  intros Hc. induction a as [|x a IH]; intros skip Hskip.
  - simpl in Hskip. assert (skip = 0) by lia. subst skip.
    cbn [append]. cbn [runs].
    pose proof (url_run_stop "" c b Hc) as E. cbn [append] in E. rewrite E.
    change (url_run "") with (@None string). reflexivity.
  - destruct skip as [|k]; cbn [append runs].
    + pose proof (url_run_stop (String x a) c b Hc) as E. cbn [append] in E.
      rewrite E.
      destruct (url_run (String x a)) as [run|] eqn:Er.
      * apply url_run_length in Er. cbn [String.length] in Er.
        rewrite IH by lia. reflexivity.
      * apply IH. lia.
    + apply IH. simpl in Hskip. lia.
Qed.

End SeparatorFacts.

(* ================================================================== *)
(** * Metadata client: the year, the keywords, the homepage *)
(* ================================================================== *)

Module YearFacts.
Import PyChar PyStr Re Py App Ref StrFacts ReFacts ScanFacts ValidateFacts
  ExtractorFacts AssemblerFacts FormatFacts ClientFacts EndpointFacts VersionFacts StripFacts.

Lemma run_two_digits (total : nat) (x : string) (caps : captures) :
  run total (Cat digit digit) x caps
  = match x with
    | String a (String b r) =>
        if is_digit a && is_digit b then [(r, caps)] else []
    | _ => []
    end.
Proof.
  rewrite run_cat. unfold digit. destruct x as [|a [|b r]]; cbn [run flat_map].
  - reflexivity.
  - now destruct (is_digit a).
  - destruct (is_digit a); cbn [flat_map fst snd run andb app]; [|reflexivity].
    now destruct (is_digit b).
Qed.

Lemma run_century (total : nat) (s : string) :
  run total (Grp 1 (Alt (Lit "19") (Lit "20"))) s []
  = if startswith "19" s then [(drop 2 s, [(1, "19")])]
    else if startswith "20" s then [(drop 2 s, [(1, "20")])]
    else [].
Proof.
  cbn [run]. rewrite !run_lit. change (String.length "19") with 2.
  change (String.length "20") with 2.
  destruct (startswith "19" s) eqn:E1.
  - apply startswith_split in E1. change (String.length "19") with 2 in E1.
    remember (drop 2 s) as x eqn:Ex. subst s.
    change (startswith "20" ("19" ++ x)) with false.
    cbn [app List.map fst snd append String.length drop].
    replace (S (S (String.length x)) - String.length x) with 2 by lia.
    reflexivity.
  - destruct (startswith "20" s) eqn:E2; [|reflexivity].
    apply startswith_split in E2. change (String.length "20") with 2 in E2.
    remember (drop 2 s) as x eqn:Ex. subst s.
    cbn [app List.map fst snd append String.length drop].
    replace (S (S (String.length x)) - String.length x) with 2 by lia.
    reflexivity.
Qed.

Lemma startswith_take (p : string) :
  forall n s, String.length p <= n -> startswith p (take n s) = startswith p s.
Proof.
  induction p as [|a p IH]; intros n s Hn; [reflexivity|].
  destruct n as [|n]; [simpl in Hn; lia|].
  destruct s as [|c s]; [reflexivity|]. cbn [take startswith].
  rewrite IH by (simpl in Hn; lia). reflexivity.
Qed.

(** The year pattern at the head of [s]: its first four characters,
    when they read as a year. *)
Lemma match_at_year_re (total : nat) (s : string) :
  option_map m_text (match_at total year_re s)
  = if is_year (take 4 s) then Some (take 4 s) else None.
Proof.
  unfold match_at, year_re, is_year. rewrite run_cat, run_century.
  rewrite !startswith_take by (simpl; lia).
  destruct (startswith "19" s) eqn:E1.
  - apply startswith_split in E1. change (String.length "19") with 2 in E1.
    remember (drop 2 s) as x eqn:Ex. clear Ex. subst s.
    cbn [flat_map fst snd]. rewrite run_two_digits, app_nil_r. cbn [orb].
    destruct x as [|a [|b r]]; try reflexivity.
    cbn [append take String.length Nat.eqb all andb].
    change (is_digit "1") with true. change (is_digit "9") with true.
    cbn [andb]. rewrite andb_true_r.
    destruct (is_digit a && is_digit b); [|reflexivity].
    cbn [option_map]. f_equal.
    change (String "1" (String "9" (String a (String b r))))
      with (String "1" (String "9" (String a (String b ""))) ++ r).
    now rewrite to_match_split.
  - destruct (startswith "20" s) eqn:E2; [|reflexivity].
    apply startswith_split in E2. change (String.length "20") with 2 in E2.
    remember (drop 2 s) as x eqn:Ex. clear Ex. subst s.
    cbn [flat_map fst snd]. rewrite run_two_digits, app_nil_r. cbn [orb].
    destruct x as [|a [|b r]]; try reflexivity.
    cbn [append take String.length Nat.eqb all andb].
    change (is_digit "2") with true. change (is_digit "0") with true.
    cbn [andb]. rewrite andb_true_r.
    destruct (is_digit a && is_digit b); [|reflexivity].
    cbn [option_map]. f_equal.
    change (String "2" (String "0" (String a (String b r))))
      with (String "2" (String "0" (String a (String b ""))) ++ r).
    now rewrite to_match_split.
Qed.

Lemma search_year_re (total : nat) (s : string) :
  option_map m_text (search_from total year_re s) = first_year s.
Proof.
  induction s as [|c s IH].
  - pose proof (match_at_year_re total "") as E.
    change (first_year "") with (if is_year (take 4 "") then Some (take 4 "") else None).
    rewrite <- E. cbn [search_from]. now destruct (match_at total year_re "").
  - pose proof (match_at_year_re total (String c s)) as E.
    change (first_year (String c s))
      with (if is_year (take 4 (String c s)) then Some (take 4 (String c s))
            else first_year s).
    cbn [search_from].
    destruct (match_at total year_re (String c s)) as [m|]; cbn [option_map] in *.
    + destruct (is_year (take 4 (String c s))); [exact E | discriminate].
    + destruct (is_year (take 4 (String c s))); [discriminate | exact IH].
Qed.

Lemma digit_val_range (c : ascii) :
  is_digit c = true -> (0 <= digit_val c <= 9)%Z.
Proof.
  unfold is_digit, in_range, digit_val. intros H.
  apply andb_true_iff in H as [H1 H2].
  apply Nat.leb_le in H1. apply Nat.leb_le in H2. lia.
Qed.

(** A year reads as a number between 1900 and 2099. *)
Lemma is_year_range (y : string) :
  is_year y = true -> (1900 <= int_digits y <= 2099)%Z.
Proof.
  unfold is_year. intros H.
  apply andb_true_iff in H as [H Hd]. apply andb_true_iff in H as [Hc Hl].
  apply Nat.eqb_eq in Hl.
  destruct y as [|c1 [|c2 [|c3 [|c4 [|c5 y]]]]]; try discriminate.
  cbn [all] in Hd.
  apply andb_true_iff in Hd as [_ Hd]. apply andb_true_iff in Hd as [_ Hd].
  apply andb_true_iff in Hd as [H3 Hd]. apply andb_true_iff in Hd as [H4 _].
  apply digit_val_range in H3. apply digit_val_range in H4.
  unfold int_digits. cbn [int_digits_acc].
  apply orb_true_iff in Hc as [Hc|Hc]; cbn [startswith] in Hc;
    apply andb_true_iff in Hc as [Ha Hc]; apply andb_true_iff in Hc as [Hb _];
    apply Ascii.eqb_eq in Ha; apply Ascii.eqb_eq in Hb; subst c1 c2;
    [change (digit_val "1") with 1%Z; change (digit_val "9") with 9%Z
    |change (digit_val "2") with 2%Z; change (digit_val "0") with 0%Z]; lia.
Qed.

Lemma first_year_in (y : string) :
  forall s, first_year s = Some y ->
    is_year y = true /\ exists a b, s = a ++ y ++ b.
Proof.
  induction s as [|c s IH]; cbn [first_year].
  - change (is_year (take 4 "")) with false. discriminate.
  - destruct (is_year (take 4 (String c s))) eqn:E.
    + intros [= <-]. split; [exact E|].
      exists "", (drop 4 (String c s)).
      change (String c s = take 4 (String c s) ++ drop 4 (String c s)).
      now rewrite take_drop.
    + intros H. destruct (IH H) as (Hy & a & b & ->).
      split; [exact Hy|]. now exists (String c a), b.
Qed.

(** Lines 59-63: the year read from the publication date. *)
Lemma year_of_pubdate (W : world) (d : list (string * pyval)) (p : string) :
  truthy (value_of d "year") = false ->
  field_or d "pubdate" (PStr "") = PStr p ->
  year_of W (PDict d)
  = Ok (match first_year p with
        | Some y => PInt (int_digits y)
        | None => PNone
        end).
Proof.
  intros Hy Hp. unfold year_of. rewrite get_value. cbn [bind]. rewrite Hy.
  rewrite get_value. cbn [bind].
  change (por (value_of d "pubdate") (Ok (PStr "")))
    with (v <- get (PDict d) "pubdate" ;; por v (Ok (PStr ""))).
  rewrite get_por, Hp. cbn [bind subject]. unfold re_search.
  rewrite <- (search_year_re (String.length p) p).
  now destruct (search_from _ _ _).
Qed.

End YearFacts.

Module MetadataFacts.
Import PyChar PyStr Re Py App Ref StrFacts ReFacts ScanFacts ValidateFacts
  ExtractorFacts AssemblerFacts FormatFacts ClientFacts EndpointFacts VersionFacts StripFacts YearFacts.

Lemma keywords_value_stripped (W : world) (kw : pyval) :
  exists l,
    (if truthy kw then
       match kw with
       | PList l =>
           Ok (PList (List.map (fun x => PStr (strip (str_of W x)))
                               (List.filter truthy l)))
       | _ =>
           Ok (PList (List.map (fun k => PStr (strip k))
                               (List.filter (fun k => nonempty (strip k))
                                            (split_on "," (str_of W kw)))))
       end
     else Ok (PList [])) = Ok (PList (List.map PStr l))
    /\ Forall (fun k => strip k = k) l.
Proof.
  assert (Hs : forall A (f : A -> string) (xs : list A),
             Forall (fun k => strip k = k) (List.map (fun x => strip (f x)) xs)).
  { intros A f xs. apply Forall_forall. intros k Hk.
    apply in_map_iff in Hk as (x & <- & _). apply strip_strip. }
  destruct (truthy kw); [|exists []; split; [reflexivity | constructor]].
  destruct kw as [| b | z | t | l | d];
    try (eexists; split; [rewrite <- (map_map strip PStr); reflexivity | apply (Hs _ (fun k => k))]).
  eexists. split; [rewrite <- (map_map (fun x => strip (str_of W x)) PStr); reflexivity|].
  apply Hs.
Qed.

Lemma scan_urls_nonempty (text u : string) : In u (scan_urls text) -> u <> "".
Proof.
  rewrite scan_urls_scan_spec. unfold scan_spec. intros H.
  apply in_map_iff in H as (run & <- & Hrun).
  apply runs_in in Hrun as (s & Hs).
  destruct (url_run_scheme s run Hs) as [[H|H] _];
    destruct (rstrip_punct run); discriminate.
Qed.

End MetadataFacts.

(* ================================================================== *)
(** * Database-info extractor: the lines of the reply *)
(* ================================================================== *)

Module LineFacts.
Import PyChar PyStr Re Py App Ref StrFacts ReFacts ScanFacts ValidateFacts
  ExtractorFacts AssemblerFacts FormatFacts ClientFacts EndpointFacts VersionFacts StripFacts.

Lemma blank_not_colon (c : ascii) : is_space c = true -> not_colon c = true.
Proof.
  unfold not_colon, is_char. destruct (Ascii.eqb_spec c ":") as [->|]; [discriminate | reflexivity].
Qed.

Lemma first_colon_unique (a a' x x' : string) :
  all not_colon a = true -> all not_colon a' = true ->
  a ++ String ":" x = a' ++ String ":" x' -> a = a' /\ x = x'.
Proof.
  revert a'. induction a as [|c a IH]; intros [|c' a'] Ha Ha' H; cbn [append] in H.
  - injection H as <-. now split.
  - injection H as <- _. cbn [all] in Ha'. discriminate.
  - injection H as -> _. cbn [all] in Ha. discriminate.
  - injection H as <- H. cbn [all] in Ha, Ha'.
    apply andb_true_iff in Ha as [_ Ha]. apply andb_true_iff in Ha' as [_ Ha'].
    destruct (IH a' Ha Ha' H) as [-> ->]. now split.
Qed.

Lemma run_grp (total n : nat) (r : regex) (s : string) (caps : captures) :
  run total (Grp n r) s caps
  = List.map
      (fun x => (fst x, (n, take (String.length s - String.length (fst x)) s) :: snd x))
      (run total r s caps).
Proof. reflexivity. Qed.

Lemma run_grp_in (total n : nat) (r : regex) (s : string) (caps : captures) y :
  In y (run total (Grp n r) s caps) ->
  exists x, In x (run total r s caps)
            /\ y = (fst x, (n, take (String.length s - String.length (fst x)) s) :: snd x).
Proof.
  cbn [run]. intros H. apply in_map_iff in H as (x & <- & Hx). now exists x.
Qed.

Lemma take_prefix (pre rest : string) :
  take (String.length (pre ++ rest) - String.length rest) (pre ++ rest) = pre.
Proof.
  rewrite length_append.
  replace (String.length pre + String.length rest - String.length rest)
    with (String.length pre) by lia.
  apply take_length_append.
Qed.

(** Every way the pattern matches splits the line at a colon that
    nothing but blanks and the label precede. *)
Lemma run_line_in (total : nat) (s : string) y :
  In y (run total line_body s []) ->
  exists b1 g1 b2 b3 g2,
    s = (b1 ++ g1 ++ b2) ++ String ":" (b3 ++ g2 ++ fst y)
    /\ all is_space b1 = true
    /\ g1 <> "" /\ all not_colon g1 = true
    /\ all is_space b2 = true
    /\ all is_space b3 = true
    /\ all not_newline g2 = true
    /\ (fst y = "" \/ fst y = String LF "")
    /\ group 1 (snd y) = Some g1
    /\ group 2 (snd y) = Some g2.
Proof.
  unfold line_body, blank. intros H.
  rewrite run_cat in H. apply in_flat_map in H as (x1 & H1 & H).
  rewrite run_star_chr in H1.
  apply star_rests_in in H1 as (b1 & Hs1 & Hb1 & Hc1).
  rewrite run_cat in H. apply in_flat_map in H as (x2 & H2 & H).
  apply run_grp_in in H2 as (x2' & H2 & Ex2).
  rewrite run_plus_chr in H2.
  apply plus_rests_in in H2 as (g1 & Hs2 & Hg1 & Hne1 & Hc2).
  rewrite Hs2, take_prefix in Ex2. subst x2. cbn [fst snd] in H.
  rewrite run_cat in H. apply in_flat_map in H as (x3 & H3 & H).
  rewrite run_star_chr in H3.
  apply star_rests_in in H3 as (b2 & Hs3 & Hb2 & Hc3).
  rewrite run_cat in H. apply in_flat_map in H as (x4 & H4 & H).
  assert (Hs4 : fst x3 = String ":" (fst x4) /\ snd x4 = snd x3).
  { cbn [run] in H4. destruct (fst x3) as [|c r]; [destruct H4|].
    unfold is_char in H4. destruct (Ascii.eqb_spec c ":") as [->|]; [|destruct H4].
    destruct H4 as [<-|[]]. now split. }
  destruct Hs4 as [Hs4 Hc4].
  rewrite run_cat in H. apply in_flat_map in H as (x5 & H5 & H).
  rewrite run_star_chr in H5.
  apply star_rests_in in H5 as (b3 & Hs5 & Hb3 & Hc5).
  rewrite run_cat in H. apply in_flat_map in H as (x6 & H6 & H).
  apply run_grp_in in H6 as (x6' & H6 & Ex6).
  rewrite run_star_chr in H6.
  apply star_rests_in in H6 as (g2 & Hs6 & Hg2 & Hc6).
  rewrite Hs6, take_prefix in Ex6. subst x6. cbn [fst snd] in H.
  pose proof (run_eol_in _ _ _ _ H) as Hend.
  apply run_eol_self in H. subst y. cbn [fst snd].
  exists b1, g1, b2, b3, g2.
  split.
  { rewrite Hs1, Hs2, Hs3, Hs4, Hs5, Hs6. now rewrite !append_assoc. }
  repeat (split; [assumption|]).
  rewrite Hc6, Hc5, Hc4, Hc3, Hc2, Hc1. split; reflexivity.
Qed.

(** A line with a colon after a non-empty label and no line feed after
    it is matched. *)
Lemma run_line_intro (total : nat) (label rest : string) :
  label <> "" -> all not_colon label = true -> all not_newline rest = true ->
  In ("", [(2, rest); (1, label)])
     (run total line_body (label ++ String ":" rest) []).
Proof.
  intros Hne Hl Hr. unfold line_body, blank.
  rewrite run_cat. apply in_flat_map.
  exists (label ++ String ":" rest, []). split.
  { rewrite run_star_chr. apply star_rests_self. }
  cbn [fst snd]. rewrite run_cat. apply in_flat_map.
  exists (String ":" rest, [(1, label)]). split.
  { rewrite run_grp. apply in_map_iff.
    exists (String ":" rest, []). cbn [fst snd]. split.
    - now rewrite take_prefix.
    - rewrite run_plus_chr. now apply plus_rests_intro. }
  cbn [fst snd]. rewrite run_cat. apply in_flat_map.
  exists (String ":" rest, [(1, label)]). split.
  { rewrite run_star_chr. apply star_rests_self. }
  cbn [fst snd]. rewrite run_cat. apply in_flat_map.
  exists (rest, [(1, label)]). split; [now left|].
  cbn [fst snd]. rewrite run_cat. apply in_flat_map.
  exists (rest, [(1, label)]). split.
  { rewrite run_star_chr. apply star_rests_self. }
  cbn [fst snd]. rewrite run_cat. apply in_flat_map.
  exists ("", [(2, rest); (1, label)]). split; [|now left].
  rewrite run_grp. apply in_map_iff.
  exists ("", [(1, label)]). cbn [fst snd]. split.
  - cbn [String.length]. now rewrite Nat.sub_0_r, take_all.
  - rewrite run_star_chr.
    pose proof (star_rests_intro not_newline rest "" [(1, label)] Hr) as Hi.
    now rewrite append_nil_r in Hi.
Qed.

Lemma re_match_line (ln : string) :
  re_match line_re ln
  = match run (String.length ln) line_body ln [] with
    | x :: _ => Some (to_match ln x)
    | [] => None
    end.
Proof.
  unfold re_match, match_at, line_re. fold line_body. now rewrite run_bol_cat.
Qed.

Lemma not_newline_tail (a : string) :
  all not_newline (a ++ String LF "") = false.
Proof.
  induction a as [|c a IH]; [reflexivity|]. cbn [append all].
  now rewrite IH, andb_false_r.
Qed.

(** Line 255 on a line with a colon: the groups are the label and the
    value, up to blanks. *)
Lemma match_line_colon (label rest : string) :
  label <> "" -> all not_colon label = true -> all not_newline rest = true ->
  exists m, re_match line_re (label ++ String ":" rest) = Some m
            /\ strip (m_group 1 m) = strip label
            /\ strip (m_group 2 m) = strip rest.
Proof.
  intros Hne Hl Hr. rewrite re_match_line.
  pose proof (run_line_intro (String.length (label ++ String ":" rest)) label rest
                Hne Hl Hr) as Hin.
  destruct (run _ line_body _ _) as [|y tl] eqn:E; [destruct Hin|].
  eexists. split; [reflexivity|].
  assert (Hy : In y (y :: tl)) by now left.
  rewrite <- E in Hy.
  apply run_line_in in Hy
    as (b1 & g1 & b2 & b3 & g2 & Hs & Hb1 & Hne1 & Hg1 & Hb2 & Hb3 & Hg2 & Hend & G1 & G2).
  apply first_colon_unique in Hs as [El Er]; [|assumption|].
  2:{ rewrite !all_append, Hg1. 
      rewrite (all_impl is_space not_colon b1 blank_not_colon Hb1).
      now rewrite (all_impl is_space not_colon b2 blank_not_colon Hb2). }
  unfold m_group, to_match. cbn [m_caps]. rewrite G1, G2.
  split.
  - rewrite El. rewrite strip_blanks_l by assumption. now rewrite strip_blanks_r.
  - destruct Hend as [Hend|Hend]; rewrite Hend in Er.
    + rewrite Er, append_nil_r. now rewrite strip_blanks_l.
    + exfalso. rewrite Er in Hr. rewrite <- !append_assoc in Hr.
      now rewrite not_newline_tail in Hr.
Qed.

(** A line without a colon, or that begins with one, is not matched. *)
Lemma match_line_no_colon (ln : string) :
  all not_colon ln = true -> re_match line_re ln = None.
Proof.
  intros Hl. rewrite re_match_line.
  destruct (run _ line_body _ _) as [|y tl] eqn:E; [reflexivity|].
  assert (Hy : In y (y :: tl)) by now left.
  rewrite <- E in Hy.
  apply run_line_in in Hy as (b1 & g1 & b2 & b3 & g2 & Hs & _).
  rewrite Hs, all_append in Hl. cbn [all] in Hl.
  change (not_colon ":") with false in Hl. now rewrite andb_false_r in Hl.
Qed.

Lemma match_line_leading_colon (rest : string) :
  re_match line_re (String ":" rest) = None.
Proof.
  rewrite re_match_line.
  destruct (run _ line_body _ _) as [|y tl] eqn:E; [reflexivity|].
  assert (Hy : In y (y :: tl)) by now left.
  rewrite <- E in Hy.
  apply run_line_in in Hy
    as (b1 & g1 & b2 & b3 & g2 & Hs & Hb1 & Hne1 & Hg1 & _).
  exfalso. destruct b1 as [|c b1].
  - destruct g1 as [|c g1]; [congruence|]. cbn [append] in Hs.
    injection Hs as <- _. cbn [all] in Hg1. discriminate.
  - cbn [append] in Hs. injection Hs as <- _. cbn [all] in Hb1. discriminate.
Qed.

End LineFacts.

Module LabelFacts.
Import PyChar PyStr Re Py App Ref StrFacts ReFacts ScanFacts ValidateFacts
  ExtractorFacts AssemblerFacts FormatFacts ClientFacts EndpointFacts VersionFacts StripFacts LineFacts.

(** [re.sub] of [[class]+] by [repl] puts one [repl] for every run. *)
Lemma sub_plus_chr_collapse (total : nat) (p : ascii -> bool) (repl : string) :
  forall s,
    sub_from total (Plus (Chr p)) repl 0 s = collapse_from p repl false s
    /\ sub_from total (Plus (Chr p)) repl (String.length (span p s)) s
       = collapse_from p repl true s.
Proof.
  induction s as [|c s [IH0 IH1]].
  - cbn [span String.length sub_from collapse_from].
    rewrite match_at_plus_chr. now split.
  - assert (H0 : sub_from total (Plus (Chr p)) repl 0 (String c s)
                 = collapse_from p repl false (String c s)).
    { cbn [sub_from collapse_from]. rewrite match_at_plus_chr. cbn [span].
      destruct (p c); cbn [nonempty is_empty negb m_text String.length].
      - now rewrite IH1.
      - now rewrite IH0. }
    split; [exact H0|].
    cbn [span]. destruct (p c) eqn:E.
    + cbn [String.length sub_from collapse_from]. now rewrite E.
    + cbn [String.length]. rewrite H0. cbn [collapse_from]. now rewrite E.
Qed.

Lemma normalize_label_collapse (raw : string) :
  normalize_label raw = lower (collapse is_label_sep "_" raw).
Proof.
  unfold normalize_label, re_sub, label_sep_re, collapse.
  now rewrite (proj1 (sub_plus_chr_collapse _ is_label_sep "_" raw)).
Qed.

Lemma collapse_run (p : ascii -> bool) (repl : string) (r b : string) (st : bool) :
  r <> "" -> all p r = true ->
  collapse_from p repl st (r ++ b)
  = (if st then "" else repl) ++ collapse_from p repl true b.
Proof.
  intros Hne Hr. revert st. induction r as [|c r IH]; intros st; [congruence|].
  cbn [all] in Hr. apply andb_true_iff in Hr as [Hc Hr].
  cbn [append collapse_from]. rewrite Hc.
  destruct r as [|c' r].
  - cbn [append]. now destruct st.
  - rewrite (IH ltac:(discriminate) Hr true). cbn [append]. now destruct st.
Qed.

Lemma collapse_same_runs (p : ascii -> bool) (repl : string) (a r1 r2 b : string) :
  r1 <> "" -> all p r1 = true -> r2 <> "" -> all p r2 = true ->
  forall st,
    collapse_from p repl st (a ++ r1 ++ b) = collapse_from p repl st (a ++ r2 ++ b).
Proof.
  intros H1 Hr1 H2 Hr2. induction a as [|c a IH]; intros st.
  - cbn [append]. now rewrite !collapse_run.
  - cbn [append collapse_from]. destruct (p c); [destruct st|]; now rewrite IH.
Qed.

Lemma lower_sep (c : ascii) : is_label_sep (PyChar.lower c) = is_label_sep c.
Proof. destruct c as [[] [] [] [] [] [] [] []]; reflexivity. Qed.

Lemma lower_lower_char (c : ascii) : PyChar.lower (PyChar.lower c) = PyChar.lower c.
Proof. destruct c as [[] [] [] [] [] [] [] []]; reflexivity. Qed.

Lemma lower_lower (s : string) : lower (lower s) = lower s.
Proof.
  unfold lower. induction s as [|c s IH]; [reflexivity|].
  cbn [map]. now rewrite lower_lower_char, IH.
Qed.

Lemma lower_append (a b : string) : lower (a ++ b) = lower a ++ lower b.
Proof.
  unfold lower. induction a as [|c a IH]; [reflexivity|].
  cbn [append map]. now rewrite IH.
Qed.

Lemma collapse_lower (st : bool) (s : string) :
  lower (collapse_from is_label_sep "_" st (lower s))
  = lower (collapse_from is_label_sep "_" st s).
Proof.
  revert st. induction s as [|c s IH]; intros st; [reflexivity|].
  change (lower (String c s)) with (String (PyChar.lower c) (lower s)).
  cbn [collapse_from]. rewrite lower_sep.
  destruct (is_label_sep c); [destruct st|].
  - apply IH.
  - rewrite !lower_append. now rewrite IH.
  - change (lower (String ?x ?y)) with (String (PyChar.lower x) (lower y)).
    now rewrite lower_lower_char, IH.
Qed.

End LabelFacts.

Module EscapeFacts.
Import PyChar PyStr Re Py App Ref StrFacts.

(** An occurrence of the escape does not reach into a text that does not
    begin with [n]. *)
Lemma replace_escaped_app (x : string) :
  head_is (is_char "n") x = false ->
  forall a skip, skip <= 1 -> skip <= String.length a ->
    replace_from escaped_newline (String LF "") skip (a ++ x)
    = replace_from escaped_newline (String LF "") skip a
      ++ replace_from escaped_newline (String LF "") 0 x.
Proof.
  intros Hx. induction a as [|c a IH]; intros skip H1 Ha.
  - simpl in Ha. assert (skip = 0) by lia. subst skip.
    cbn [append]. destruct x; reflexivity.
  - destruct skip as [|k].
    + cbn [append replace_from].
      assert (Hs : startswith escaped_newline (String c (a ++ x))
                   = startswith escaped_newline (String c a)).
      { unfold escaped_newline. cbn [startswith]. f_equal.
        destruct a as [|y a]; cbn [append startswith]; [|reflexivity].
        destruct x as [|z x]; [reflexivity|]. cbn [head_is] in Hx.
        unfold is_char in Hx. rewrite Ascii.eqb_sym, Hx. reflexivity. }
      rewrite Hs.
      destruct (startswith escaped_newline (String c a)) eqn:E.
      * change (String.length escaped_newline - 1) with 1.
        rewrite IH; [reflexivity | lia |].
        unfold escaped_newline in E. cbn [startswith] in E.
        destruct a; [now rewrite andb_false_r in E | simpl; lia].
      * cbn [append]. f_equal. apply IH; lia.
    + cbn [append replace_from]. assert (k = 0) by lia. subst k.
      apply IH; [lia|]. simpl in Ha. lia.
Qed.

Lemma reply_text_escaped (a b : string) :
  reply_text (Some (a ++ escaped_newline ++ b))
  = reply_text (Some a) ++ String LF (reply_text (Some b)).
Proof.
  unfold reply_text, replace.
  change (String BACKSLASH "n") with escaped_newline.
  rewrite replace_escaped_app by (reflexivity || lia).
  reflexivity.
Qed.

Lemma reply_text_newline (a b : string) :
  reply_text (Some (a ++ String LF b))
  = reply_text (Some a) ++ String LF (reply_text (Some b)).
Proof.
  unfold reply_text, replace.
  change (String BACKSLASH "n") with escaped_newline.
  rewrite replace_escaped_app by (reflexivity || lia).
  reflexivity.
Qed.

End EscapeFacts.

(* ================================================================== *)
(** * Database-info extractor: what the record holds *)
(* ================================================================== *)

Module CleanFacts.
Import PyChar PyStr Re Py App Ref StrFacts ReFacts ScanFacts ValidateFacts
  ExtractorFacts AssemblerFacts FormatFacts ClientFacts EndpointFacts VersionFacts StripFacts LineFacts LabelFacts.

Lemma clean_strip (s : string) : clean (strip s) = true.
Proof. unfold clean. now rewrite strip_head, strip_last. Qed.

Lemma clean_eq (s : string) : clean s = true -> strip s = s.
Proof.
  unfold clean. intros H. apply andb_true_iff in H as [Hh Hl].
  apply negb_true_iff in Hh. apply negb_true_iff in Hl. now apply strip_id.
Qed.

Lemma lower_space (c : ascii) : is_space (PyChar.lower c) = is_space c.
Proof. destruct c as [[] [] [] [] [] [] [] []]; reflexivity. Qed.

Lemma head_is_lower (s : string) :
  head_is is_space (lower s) = head_is is_space s.
Proof. destruct s as [|c s]; [reflexivity | apply lower_space]. Qed.

Lemma last_is_lower (s : string) :
  last_is is_space (lower s) = last_is is_space s.
Proof.
  induction s as [|c s IH]; [reflexivity|].
  change (lower (String c s)) with (String (PyChar.lower c) (lower s)).
  destruct s as [|c' s]; [apply lower_space|].
  change (lower (String c' s)) with (String (PyChar.lower c') (lower s)) in *.
  exact IH.
Qed.

Lemma clean_lower (s : string) : clean (lower s) = clean s.
Proof. unfold clean. now rewrite head_is_lower, last_is_lower. Qed.

Lemma all_head (p : ascii -> bool) (s : string) :
  s <> "" -> all p s = true -> head_is p s = true.
Proof.
  destruct s as [|c s]; [congruence|]. cbn [all head_is]. intros _ H.
  now apply andb_true_iff in H as [H _].
Qed.

Lemma all_last (p : ascii -> bool) (s : string) :
  s <> "" -> all p s = true -> last_is p s = true.
Proof.
  induction s as [|c s IH]; [congruence|]. cbn [all]. intros _ H.
  apply andb_true_iff in H as [Hc Hs].
  destruct s as [|c' s]; [exact Hc|]. apply IH; [discriminate | exact Hs].
Qed.

Lemma not_space_clean (s : string) : all not_space s = true -> clean s = true.
Proof.
  intros H. unfold clean. rewrite (all_not_last is_space s H), andb_true_r.
  destruct s as [|c s]; [reflexivity|]. cbn [all] in H.
  apply andb_true_iff in H as [Hc _]. exact Hc.
Qed.

Lemma initials_not_space (s : string) (b : bool) :
  all not_space (initials_from b s) = true.
Proof.
  revert b. induction s as [|c s IH]; intros b; [reflexivity|].
  cbn [initials_from]. destruct (is_space c) eqn:E; [apply IH|].
  destruct b; [|apply IH]. cbn [all]. unfold not_space at 1. now rewrite E, IH.
Qed.

Lemma last_is_app (p : ascii -> bool) (a b : string) :
  last_is p (a ++ b) = if is_empty b then last_is p a else last_is p b.
Proof.
  destruct b as [|c b]; [now rewrite append_nil_r|]. cbn [is_empty].
  induction a as [|x a IH]; [reflexivity|].
  cbn [append]. rewrite last_is_cons; [exact IH | now destruct a].
Qed.

(** *** [str.replace] of two backslashes by one *)

Lemma replace_from_nonempty (old : string) (c : ascii) (s : string) :
  replace_from old one_backslash 0 (String c s) <> "".
Proof.
  cbn [replace_from]. destruct (startswith old (String c s)); discriminate.
Qed.

Lemma replace_from_last (old : string) :
  forall s skip,
    last_is is_space s = false ->
    last_is is_space (replace_from old one_backslash skip s) = false.
Proof.
  induction s as [|c s IH]; intros skip Hl; [reflexivity|].
  assert (Hs : last_is is_space s = false) by (eapply last_is_tail; eassumption).
  destruct skip as [|k]; cbn [replace_from]; [|now apply IH].
  destruct (startswith old (String c s)).
  - unfold one_backslash. cbn [append].
    destruct (replace_from old (String BACKSLASH "") (String.length old - 1) s) eqn:E.
    + reflexivity.
    + rewrite last_is_cons by discriminate. rewrite <- E. now apply IH.
  - destruct s as [|c' s].
    + exact Hl.
    + rewrite last_is_cons by apply replace_from_nonempty. now apply IH.
Qed.

Lemma replace_head (s : string) :
  head_is is_space (replace two_backslashes one_backslash s) = head_is is_space s.
Proof.
  destruct s as [|c s]; [reflexivity|]. unfold replace. cbn [replace_from].
  destruct (startswith two_backslashes (String c s)) eqn:E; [|reflexivity].
  cbn [startswith two_backslashes] in E. apply andb_true_iff in E as [E _].
  apply Ascii.eqb_eq in E. subst c. reflexivity.
Qed.

Lemma clean_replace (s : string) :
  clean s = true -> clean (replace two_backslashes one_backslash s) = true.
Proof.
  unfold clean. intros H. apply andb_true_iff in H as [Hh Hl].
  apply negb_true_iff in Hl. rewrite replace_head, Hh.
  unfold replace. now rewrite replace_from_last.
Qed.

(** *** Pieces of a split *)

Lemma all_lstrip (p : ascii -> bool) (s : string) :
  all p s = true -> all p (lstrip s) = true.
Proof.
  induction s as [|c s IH]; [trivial|]. cbn [lstrip]. intros H.
  destruct (is_space c); [|exact H].
  cbn [all] in H. apply andb_true_iff in H as [_ H]. now apply IH.
Qed.

Lemma all_rstrip (p : ascii -> bool) (s : string) :
  all p s = true -> all p (rstrip s) = true.
Proof.
  induction s as [|c s IH]; [trivial|]. cbn [rstrip all]. intros H.
  apply andb_true_iff in H as [Hc Hs].
  destruct (is_empty (rstrip s) && is_space c); [reflexivity|].
  cbn [all]. now rewrite Hc, IH.
Qed.

Lemma all_strip (p : ascii -> bool) (s : string) :
  all p s = true -> all p (strip s) = true.
Proof. intros H. now apply all_rstrip, all_lstrip. Qed.

Lemma split_on_pieces (sep : ascii) (s : string) w :
  In w (split_on sep s) -> all (fun c => negb (Ascii.eqb c sep)) w = true.
Proof.
  revert w. induction s as [|c s IH]; intros w; cbn [split_on].
  - now intros [<-|[]].
  - destruct (Ascii.eqb c sep) eqn:E.
    + intros [<-|H]; [reflexivity | now apply IH].
    + destruct (split_on sep s) as [|w0 ws].
      * intros [<-|[]]. cbn [all]. now rewrite E.
      * intros [<-|H].
        -- cbn [all]. rewrite E. apply IH. now left.
        -- apply IH. now right.
Qed.

Lemma in_firstn {A : Type} (n : nat) (l : list A) (x : A) :
  In x (firstn n l) -> In x l.
Proof.
  intros H. rewrite <- (firstn_skipn n l). apply in_or_app. now left.
Qed.

(** Line 285: what a keyword looks like. *)
Lemma parse_keywords_clean (val k : string) :
  In k (parse_keywords val) ->
  k <> "" /\ clean k = true /\ all not_comma k = true.
Proof.
  unfold parse_keywords. intros H. apply in_firstn in H.
  apply in_map_iff in H as (w & <- & Hw).
  apply filter_In in Hw as [Hw Hne].
  split; [|split].
  - destruct (strip w); [discriminate | discriminate].
  - apply clean_strip.
  - apply all_strip. apply (split_on_pieces "," val w Hw).
Qed.

(** *** Lines *)

Lemma splitlines_pieces :
  forall n s, String.length s <= n ->
    forall w, In w (splitlines s) -> all not_linebreak w = true.
Proof.
  induction n as [|n IH]; intros s Hn w.
  - destruct s; [intros [] | simpl in Hn; lia].
  - destruct s as [|c s]; [intros []|]. cbn [String.length] in Hn.
    cbn [splitlines]. destruct (is_linebreak c) eqn:E.
    + intros [<-|H]; [reflexivity|].
      destruct (Ascii.eqb c CR).
      * destruct s as [|c' s']; [destruct H|].
        destruct (Ascii.eqb c' LF).
        -- apply (IH s'); [simpl in Hn; lia | exact H].
        -- apply (IH (String c' s')); [lia | exact H].
      * apply (IH s); [lia | exact H].
    + pose proof (IH s ltac:(lia)) as IHs.
      destruct (splitlines s) as [|w0 ws].
      * intros [<-|[]]. cbn [all]. unfold not_linebreak at 1. now rewrite E.
      * intros [<-|H].
        -- cbn [all]. unfold not_linebreak at 1. rewrite E. apply IHs. now left.
        -- apply IHs. now right.
Qed.

Lemma reply_lines_pieces (text ln : string) :
  In ln (reply_lines text) ->
  ln <> "" /\ clean ln = true /\ all not_linebreak ln = true.
Proof.
  unfold reply_lines. intros H.
  apply in_map_iff in H as (w & <- & Hw).
  apply filter_In in Hw as [Hw Hne].
  split; [|split].
  - destruct (strip w); discriminate.
  - apply clean_strip.
  - apply all_strip. now apply (splitlines_pieces (String.length text) text).
Qed.

End CleanFacts.

Module RecordFacts.
Import PyChar PyStr Re Py App Ref StrFacts ReFacts ScanFacts ValidateFacts
  ExtractorFacts AssemblerFacts FormatFacts ClientFacts EndpointFacts VersionFacts StripFacts LineFacts LabelFacts CleanFacts.

(** *** The address found in the contact name *)

Lemma run_chr_in (total : nat) (p : ascii -> bool) (s : string) (caps : captures) y :
  In y (run total (Chr p) s caps) ->
  exists c, s = String c (fst y) /\ p c = true /\ snd y = caps.
Proof.
  cbn [run]. destruct s as [|c s]; [intros []|].
  destruct (p c) eqn:E; [|intros []]. intros [<-|[]]. now exists c.
Qed.

Lemma email_local_not_space (c : ascii) : is_email_local c = true -> is_space c = false.
Proof. destruct c as [[] [] [] [] [] [] [] []]; intros H; (reflexivity || discriminate H). Qed.

Lemma alpha_not_space (c : ascii) : is_alpha c = true -> is_space c = false.
Proof. destruct c as [[] [] [] [] [] [] [] []]; intros H; (reflexivity || discriminate H). Qed.

(** What the address pattern consumes begins with a character of the
    local part and ends with a letter. *)
Lemma run_email_in (total : nat) (s : string) (caps : captures) y :
  In y (run total email_body s caps) ->
  exists t, s = t ++ fst y /\ clean t = true.
Proof.
  unfold email_body. intros H.
  rewrite run_cat in H. apply in_flat_map in H as (x1 & H1 & H).
  rewrite run_plus_chr in H1.
  apply plus_rests_in in H1 as (l & Hs1 & Hl & Hne & _).
  rewrite run_cat in H. apply in_flat_map in H as (x2 & H2 & H).
  apply run_chr_in in H2 as (c2 & Hs2 & _ & _).
  rewrite run_cat in H. apply in_flat_map in H as (x3 & H3 & H).
  rewrite run_plus_chr in H3.
  apply plus_rests_in in H3 as (d & Hs3 & _ & _ & _).
  rewrite run_cat in H. apply in_flat_map in H as (x4 & H4 & H).
  apply run_chr_in in H4 as (c4 & Hs4 & _ & _).
  rewrite run_cat in H. apply in_flat_map in H as (x5 & H5 & H).
  apply run_chr_in in H5 as (a1 & Hs5 & _ & _).
  rewrite run_cat in H. apply in_flat_map in H as (x6 & H6 & H).
  apply run_chr_in in H6 as (a2 & Hs6 & Ha2 & _).
  rewrite run_star_chr in H.
  apply star_rests_in in H as (al & Hs7 & Hal & _).
  exists ((l ++ String c2 (d ++ String c4 (String a1 ""))) ++ String a2 al).
  split.
  { rewrite Hs1, Hs2, Hs3, Hs4, Hs5, Hs6, Hs7.
    rewrite !append_assoc. cbn [append]. rewrite !append_assoc. reflexivity. }
  unfold clean. apply andb_true_iff. split; apply negb_true_iff.
  - destruct l as [|c l]; [congruence|]. cbn [append head_is].
    cbn [all] in Hl. apply andb_true_iff in Hl as [Hc _].
    now apply email_local_not_space.
  - rewrite last_is_app. cbn [is_empty].
    assert (Hlast : last_is is_alpha (String a2 al) = true).
    { apply all_last; [discriminate|]. cbn [all]. now rewrite Ha2, Hal. }
    destruct (last_is is_space (String a2 al)) eqn:E; [|reflexivity].
    exfalso. clear - Hlast E.
    revert Hlast E. generalize (String a2 al) as u. induction u as [|c u IH]; [discriminate|].
    destruct u as [|c' u].
    + cbn [last_is]. intros Ha Hs. apply alpha_not_space in Ha. congruence.
    + rewrite !(last_is_cons _ c) by discriminate. exact IH.
Qed.

Lemma search_from_suffix (total : nat) (r : regex) (m : rmatch) :
  forall s, search_from total r s = Some m ->
    exists s', match_at total r s' = Some m.
Proof.
  induction s as [|c s IH]; cbn [search_from].
  - destruct (match_at total r "") eqn:E; [|discriminate].
    intros [= <-]. now exists "".
  - destruct (match_at total r (String c s)) eqn:E.
    + intros [= <-]. now exists (String c s).
    + exact IH.
Qed.

Lemma search_email_group (name : string) (m : rmatch) :
  re_search email_re name = Some m -> clean (m_group 1 m) = true.
Proof.
  unfold re_search. intros H.
  apply search_from_suffix in H as (s & H).
  revert H. unfold match_at, email_re. rewrite run_grp.
  destruct (run (String.length name) email_body s []) as [|x tl] eqn:E;
    cbn [List.map]; [discriminate|].
  intros [= <-]. unfold m_group, to_match. cbn [m_caps snd fst group Nat.eqb].
  assert (Hx : In x (x :: tl)) by now left.
  rewrite <- E in Hx. apply run_email_in in Hx as (t & Hs & Ht).
  rewrite Hs. now rewrite take_prefix.
Qed.

(** *** The steps after the loop keep the texts clean *)

Lemma fields_clean_loop (lines : list string) : fields_clean (parse_lines lines).
Proof.
  apply (fold_parse_line_invariant fields_clean).
  - unfold fields_clean. cbn. repeat split; constructor.
  - intros e ln (H1 & H2 & H3 & H4 & H5 & H6 & H7 & H8 & H9 & H10).
    parse_line_cases; unfold fields_clean; project_setters;
      repeat split; try assumption; try apply clean_strip.
    + rewrite clean_lower. apply clean_strip.
    + apply clean_replace, clean_strip.
    + apply Forall_forall. intros k Hk. now apply parse_keywords_clean in Hk.
Qed.

Lemma fields_clean_infer_email (e : extracted) :
  fields_clean e -> fields_clean (infer_email e).
Proof.
  intros (H1 & H2 & H3 & H4 & H5 & H6 & H7 & H8 & H9 & H10). unfold infer_email.
  destruct (is_empty (e_contact_email e) && nonempty (e_contact_name e));
    [|now repeat split].
  destruct (re_search email_re (e_contact_name e)) as [m|] eqn:E; [|now repeat split].
  unfold fields_clean. project_setters. repeat split; try assumption.
  - apply clean_strip.
  - eapply search_email_group; eassumption.
Qed.

(** The synthesized pattern is anchored. *)
Lemma infer_pattern_form (e : extracted) :
  exists pat,
    infer_pattern e = Ok (set_pattern pat e)
    /\ (pat = e_pattern e \/ exists body, pat = "^" ++ body ++ "$").
Proof.
  unfold infer_pattern.
  destruct (is_empty (e_pattern e) && nonempty (e_example e)).
  2:{ exists (e_pattern e). split; [now rewrite set_pattern_same | now left]. }
  destruct (re_match upper_digits_re (e_example e)) as [m|] eqn:E.
  - assert (Hne : span is_upper (e_example e) <> "").
    { intros Hsp. revert E. unfold re_match, match_at, upper_digits_re.
      rewrite run_bol_cat, run_cat, run_plus_chr, plus_rests_nil by assumption.
      discriminate. }
    destruct (match_upper_prefix _ Hne) as (m' & -> & _).
    eexists. split; [reflexivity|]. right.
    exists (m_group 1 m' ++ "\d{"
            ++ of_nat (List.length (re_findall digit (e_example e))) ++ "}").
    rewrite !append_assoc. reflexivity.
  - destruct (re_match all_digits_re (e_example e)).
    + eexists. split; [reflexivity|]. right.
      exists ("\d{" ++ of_nat (String.length (e_example e)) ++ "}").
      rewrite !append_assoc. reflexivity.
    + exists (e_pattern e). split; [now rewrite set_pattern_same | now left].
Qed.

Lemma clean_anchored (body : string) : clean ("^" ++ body ++ "$") = true.
Proof.
  unfold clean. cbn [append head_is]. change (is_space "^") with false.
  cbn [negb andb]. apply negb_true_iff.
  change (String "^" (body ++ "$")) with ("^" ++ body ++ "$").
  rewrite <- append_assoc, last_is_app. reflexivity.
Qed.

(** The record the extractor returns, with what is known of it. *)
Lemma post_process_clean (homepage_url : string) (e0 : extracted) :
  fields_clean e0 -> clean homepage_url = true ->
  exists e, post_process homepage_url e0 = Ok e /\ fields_clean e.
Proof.
  intros H0 Hu. apply fields_clean_infer_email in H0.
  destruct (infer_pattern_form (infer_email e0)) as (pat & Hpat & Hform).
  unfold post_process. rewrite Hpat. cbn [bind]. eexists. split; [reflexivity|].
  set (e1 := infer_email e0) in *.
  destruct H0 as (H1 & H2 & H3 & H4 & H5 & H6 & H7 & H8 & H9 & H10).
  assert (Hp : clean pat = true).
  { destruct Hform as [->|[body ->]]; [exact H6 | apply clean_anchored]. }
  unfold derive_prefix, default_homepage.
  destruct (is_empty (e_homepage (set_pattern pat e1)));
    destruct (is_empty _ && nonempty _);
    unfold fields_clean; project_setters; repeat split; try assumption;
    rewrite clean_lower, first_chars_split; apply not_space_clean, initials_not_space.
Qed.

Lemma lower_loop (lines : list string) :
  lower (e_prefix (parse_lines lines)) = e_prefix (parse_lines lines).
Proof.
  apply (fold_parse_line_invariant (fun e => lower (e_prefix e) = e_prefix e)).
  - reflexivity.
  - intros e ln He. parse_line_cases; project_setters; try exact He.
    apply lower_lower.
Qed.

Lemma keywords_loop (lines : list string) :
  Forall (fun k => k <> "" /\ strip k = k /\ all not_comma k = true)
         (e_keywords (parse_lines lines)).
Proof.
  apply (fold_parse_line_invariant
           (fun e => Forall (fun k => k <> "" /\ strip k = k /\ all not_comma k = true)
                            (e_keywords e))).
  - constructor.
  - intros e ln He. parse_line_cases; project_setters; try exact He.
    apply Forall_forall. intros k Hk.
    apply parse_keywords_clean in Hk as (Hne & Hc & Hnc).
    split; [exact Hne|]. split; [now apply clean_eq | exact Hnc].
Qed.

Lemma post_process_fields (homepage_url : string) (e0 : extracted) :
  exists e, post_process homepage_url e0 = Ok e
            /\ e_keywords e = e_keywords e0
            /\ e_prefix e
               = if is_empty (e_prefix e0) && nonempty (e_name e0)
                 then lower (initials (e_name e0)) else e_prefix e0.
Proof.
  destruct (post_process_result homepage_url e0) as (pat & _ & ->).
  eexists. split; [reflexivity|].
  destruct (infer_email_fields e0) as (En & Ep & _ & _ & Ek).
  destruct (default_homepage_fields homepage_url (set_pattern pat (infer_email e0)))
    as (En1 & Ep1 & _ & Ek1).
  split.
  - destruct (derive_prefix_fields
                (default_homepage homepage_url (set_pattern pat (infer_email e0))))
      as [_ ->].
    rewrite Ek1. exact Ek.
  - unfold derive_prefix. rewrite Ep1, En1. cbn [set_pattern e_prefix e_name].
    rewrite Ep, En.
    destruct (is_empty (e_prefix e0) && nonempty (e_name e0)).
    + project_setters. now rewrite first_chars_split.
    + rewrite Ep1. cbn [set_pattern e_prefix]. exact Ep.
Qed.

(** The prefix the extractor returns is free of blanks at both ends. *)
Lemma parsed_prefix_clean (final : option string) (homepage_url : string) (e : extracted) :
  parse_reply final homepage_url = Ok e -> strip (e_prefix e) = e_prefix e.
Proof.
  unfold parse_reply.
  set (e0 := parse_lines (reply_lines (reply_text final))).
  destruct (post_process_fields homepage_url e0) as (e' & -> & _ & Hp).
  intros [= <-]. apply clean_eq. rewrite Hp.
  destruct (_ && _).
  - rewrite clean_lower. apply not_space_clean, initials_not_space.
  - now destruct (fields_clean_loop (reply_lines (reply_text final))) as (_ & H & _).
Qed.

End RecordFacts.

Module PrefixFacts.
Import PyChar PyStr Re Py App Ref StrFacts ExtractorFacts StripFacts LabelFacts CleanFacts RecordFacts.

Lemma lower_nonempty (s : string) : s <> "" -> lower s <> "".
Proof. destruct s; [congruence | discriminate]. Qed.

Lemma initials_nonempty (s : string) :
  s <> "" -> head_is is_space s = false -> initials s <> "".
Proof.
  destruct s as [|c s]; [congruence|]. intros _ Hc. cbn [head_is] in Hc.
  unfold initials. cbn [initials_from]. rewrite Hc. discriminate.
Qed.

(** The name and the prefix after the steps that follow the loop. *)
Lemma post_process_name (homepage_url : string) (e0 : extracted) :
  exists e, post_process homepage_url e0 = Ok e
            /\ e_name e = e_name e0
            /\ e_prefix e
               = if is_empty (e_prefix e0) && nonempty (e_name e0)
                 then lower (initials (e_name e0)) else e_prefix e0.
Proof.
  destruct (post_process_fields homepage_url e0) as (e & He & _ & Hp).
  exists e. split; [exact He|]. split; [|exact Hp].
  destruct (post_process_result homepage_url e0) as (pat & _ & He').
  rewrite He' in He. injection He as <-.
  destruct (infer_email_fields e0) as (En & _).
  destruct (default_homepage_fields homepage_url (set_pattern pat (infer_email e0)))
    as (En1 & _).
  clear Hp He'. unfold derive_prefix.
  set (e1 := default_homepage homepage_url (set_pattern pat (infer_email e0))) in *.
  destruct (is_empty (e_prefix e1) && nonempty (e_name e1));
    unfold set_prefix; cbn [e_name]; rewrite En1;
    unfold set_pattern; cbn [e_name]; exact En.
Qed.

End PrefixFacts.

Module HomepageFacts.
Import PyChar PyStr Re Py App Ref StrFacts ExtractorFacts.

(** The homepage after the steps that follow the loop. *)
Lemma post_process_homepage (homepage_url : string) (e0 : extracted) :
  exists e, post_process homepage_url e0 = Ok e
            /\ e_homepage e = or_str (e_homepage e0) homepage_url.
Proof.
  destruct (post_process_result homepage_url e0) as (pat & _ & ->).
  eexists. split; [reflexivity|].
  assert (He : e_homepage (set_pattern pat (infer_email e0)) = e_homepage e0).
  { unfold infer_email.
    destruct (_ && _); [destruct (re_search _ _)|]; reflexivity. }
  set (e1 := set_pattern pat (infer_email e0)) in *.
  assert (Hd : e_homepage (default_homepage homepage_url e1)
               = or_str (e_homepage e0) homepage_url).
  { unfold default_homepage, or_str. rewrite He.
    destruct (is_empty (e_homepage e0)); [reflexivity | exact He]. }
  unfold derive_prefix.
  set (e2 := default_homepage homepage_url e1) in *.
  destruct (is_empty (e_prefix e2) && nonempty (e_name e2)); exact Hd.
Qed.

End HomepageFacts.

(* ================================================================== *)
(** * Record assembler: names and keys *)
(* ================================================================== *)

Module KeyFacts.
Import PyChar PyStr Re Py App Ref StrFacts ReFacts ScanFacts ValidateFacts
  ExtractorFacts AssemblerFacts FormatFacts ClientFacts EndpointFacts VersionFacts StripFacts.

Lemma or_str_nonempty (a b : string) : b <> "" -> or_str a b <> "".
Proof.
  intros Hb. unfold or_str. destruct a as [|c a]; [exact Hb | discriminate].
Qed.

Lemma label_at_label (s l : string) :
  label_at s = Some l -> l <> "" /\ all is_label_char l = true.
Proof.
  unfold label_at. destruct (scheme_of s) as [scheme|]; [|discriminate]. cbv zeta.
  set (r := drop (String.length scheme) s).
  set (r' := if startswith "www." r && nonempty (span is_label_char (drop 4 r))
             then drop 4 r else r).
  destruct (span is_label_char r') as [|c w] eqn:E; [discriminate|].
  cbn [nonempty is_empty negb]. intros [= <-].
  split; [discriminate|]. rewrite <- E. apply span_all.
Qed.

Lemma domain_label_label (l : string) :
  forall s, domain_label s = Some l -> l <> "" /\ all is_label_char l = true.
Proof.
  induction s as [|c s IH]; cbn [domain_label].
  - change (label_at "") with (@None string). discriminate.
  - destruct (label_at (String c s)) as [l'|] eqn:E; [|exact IH].
    intros [= <-]. eapply label_at_label; eassumption.
Qed.

Lemma lower_alnum (c : ascii) : is_alnum c = true -> is_key_char (PyChar.lower c) = true.
Proof. destruct c as [[] [] [] [] [] [] [] []]; intros H; (reflexivity || discriminate H). Qed.

Lemma lower_filter_alnum (s : string) :
  all is_key_char (lower (filter is_alnum s)) = true.
Proof.
  unfold lower. induction s as [|c s IH]; [reflexivity|]. cbn [filter].
  destruct (is_alnum c) eqn:E; [|exact IH].
  cbn [map all]. now rewrite (lower_alnum c E), IH.
Qed.

(** The derived name and the derived key. *)
Lemma resolved_name_form (pd : list (string * pyval)) (db : option extracted) :
  resolved_name pd db <> ""
  /\ (strip (db_str e_name db) = "" -> all is_label_char (resolved_name pd db) = true).
Proof.
  unfold resolved_name.
  destruct (domain_label (resolved_homepage pd db)) as [l|] eqn:E.
  - destruct (domain_label_label l _ E) as [Hne Hall].
    split; [now apply or_str_nonempty | now intros ->].
  - split; [now apply or_str_nonempty | now intros ->].
Qed.

Lemma resolved_prefix_form (pd : list (string * pyval)) (db : option extracted) :
  resolved_prefix pd db <> ""
  /\ (strip (db_str e_prefix db) = "" ->
      resolved_prefix pd db = "database_key"
      \/ all is_key_char (resolved_prefix pd db) = true).
Proof.
  unfold resolved_prefix. split.
  - apply or_str_nonempty, or_str_nonempty. discriminate.
  - intros ->. cbn [or_str is_empty].
    set (x := re_sub version_re "" (resolved_name pd db)).
    pose proof (lower_filter_alnum x) as H.
    unfold or_str. destruct (is_empty (lower (filter is_alnum x))); [now left | now right].
Qed.

(** The assembler on an absent publication record. *)
Lemma format_no_pubmed (e : extracted) (contributor : pyval) :
  let name := if is_empty (strip (e_name e)) then derive_name (e_homepage e)
              else strip (e_name e) in
  let key := if is_empty (strip (e_prefix e)) then derive_key name
             else strip (e_prefix e) in
  format_bioregistry_json PNone (database_info e) contributor
  = if is_empty (e_homepage e) then Raise (no_attribute PNone "get")
    else Ok (PDict [(key,
                     PDict [("contact", contact_record (Some e));
                            ("contributor", contributor_record contributor);
                            ("description", PStr (e_description e));
                            ("example", PStr (e_example e));
                            ("github_request_issue", PStr "");
                            ("homepage", PStr (e_homepage e));
                            ("keywords", PList (List.map PStr (e_keywords e)));
                            ("name", PStr name);
                            ("pattern", PStr (e_pattern e));
                            ("publications", PList []);
                            ("uri_format", PStr (e_uri_format e))])]).
Proof.
  intros name key. unfold format_bioregistry_json.
  change (database_info e) with (db_value (Some e)).
  rewrite db_field_name, db_field_prefix, db_field_description, db_field_example,
    db_field_pattern, db_field_uri_format.
  rewrite contact_of_value, contributor_of_value.
  assert (Hh : resolve_homepage PNone (db_value (Some e))
               = if is_empty (e_homepage e) then Raise (no_attribute PNone "get")
                 else Ok (PStr (e_homepage e))).
  { unfold resolve_homepage. rewrite db_field_homepage. cbn [bind db_str].
    unfold por. cbn [truthy]. now destruct (is_empty (e_homepage e)). }
  rewrite !Hh.
  assert (Hk : keywords_for PNone (db_value (Some e))
               = Ok (PList (List.map PStr (e_keywords e)))).
  { cbn. now destruct (e_keywords e). }
  rewrite Hk.
  cbn [bind strip_of subject db_str publications_of truthy].
  subst key name.
  destruct (is_empty (e_homepage e)) eqn:Eh.
  - now destruct (is_empty (strip (e_name e))).
  - destruct (is_empty (strip (e_name e))) eqn:En; cbn [bind subject]; reflexivity.
Qed.

Lemma format_no_pubmed_no_db (db contributor : pyval) :
  truthy db = false ->
  format_bioregistry_json PNone db contributor = Raise (no_attribute PNone "get").
Proof.
  intros Hdb. unfold format_bioregistry_json, db_field, resolve_homepage, db_field.
  rewrite Hdb. reflexivity.
Qed.

End KeyFacts.

(* ================================================================== *)
(** * Endpoint: answers *)
(* ================================================================== *)

Module AnswerFacts.
Import PyChar PyStr Re Py App Ref StrFacts ReFacts ScanFacts ValidateFacts
  ExtractorFacts AssemblerFacts FormatFacts ClientFacts EndpointFacts VersionFacts StripFacts.

Lemma lookup_nonempty (k : string) (d : list (string * pyval)) (v : pyval) :
  lookup k d = Some v -> truthy (PDict d) = true.
Proof. destruct d; [discriminate | reflexivity]. Qed.

(** What validation answers, when it rejects. *)
Lemma validate_rejection (json : pyval) (rejection : response) :
  validate json = Ok (inl rejection) ->
  rejection = mkResponse 400 (error_body invalid_pmid_message).
Proof.
  unfold validate.
  repeat match goal with
         | |- context [bind ?m _] => destruct m; cbn [bind]; try discriminate
         end.
  destruct (_ || _); now intros [= <-].
Qed.

(** The answers of the pipeline. *)
Lemma pipeline_well_formed (W : world) (pmid : string) (contributor : pyval)
  (r : response) :
  pipeline W pmid contributor = Ok r -> well_formed r.
Proof.
  unfold pipeline, well_formed.
  destruct (extract_pubmed_metadata W pmid) as [pubmed|]; cbn [bind]; [|discriminate].
  destruct (get pubmed "error") as [err|]; cbn [bind]; [|discriminate].
  destruct (truthy err).
  { intros [= <-]. right. split; [now right | now eexists _, _]. }
  destruct (get_default pubmed "title" (PStr "N/A")) as [t|]; cbn [bind]; [|discriminate].
  destruct (slice50 t) as [sl|]; cbn [bind]; [|discriminate].
  destruct (get pubmed "abstract") as [a|]; cbn [bind]; [|discriminate].
  destruct (por a (Ok (PStr ""))) as [a'|]; cbn [bind]; [|discriminate].
  destruct (subject a') as [text|]; cbn [bind]; [|discriminate].
  destruct (scan_urls text) as [|u urls].
  { destruct (format_bioregistry_json pubmed PNone contributor); cbn [bind];
      [|discriminate].
    intros [= <-]. right. split; [now left | now eexists _, _]. }
  destruct (extract_database_info W u) as [db|x].
  - destruct (format_bioregistry_json pubmed db contributor); cbn [bind];
      [|discriminate].
    intros [= <-]. left. split; [reflexivity | now eexists].
  - destruct (format_bioregistry_json pubmed PNone contributor); cbn [bind];
      [|discriminate].
    intros [= <-]. right. split; [now right | now eexists _, _].
Qed.

(** The lookup does not consult the agent. *)
Lemma metadata_with_agent (W : world) (f : string -> res (option string))
  (pmid : string) :
  extract_pubmed_metadata (with_agent W f) pmid = extract_pubmed_metadata W pmid.
Proof. reflexivity. Qed.

Lemma pipeline_400_with_agent (W : world) (f : string -> res (option string))
  (pmid : string) (contributor : pyval) (r : response) :
  pipeline W pmid contributor = Ok r -> status_code r = 400 ->
  pipeline (with_agent W f) pmid contributor = Ok r.
Proof.
  unfold pipeline. rewrite metadata_with_agent.
  destruct (extract_pubmed_metadata W pmid) as [pubmed|]; cbn [bind]; [|discriminate].
  destruct (get pubmed "error") as [err|]; cbn [bind]; [|discriminate].
  destruct (truthy err); [trivial|].
  destruct (get_default pubmed "title" (PStr "N/A")) as [t|]; cbn [bind]; [|discriminate].
  destruct (slice50 t) as [sl|]; cbn [bind]; [|discriminate].
  destruct (get pubmed "abstract") as [a|]; cbn [bind]; [|discriminate].
  destruct (por a (Ok (PStr ""))) as [a'|]; cbn [bind]; [|discriminate].
  destruct (subject a') as [text|]; cbn [bind]; [|discriminate].
  destruct (scan_urls text) as [|u urls]; [trivial|].
  destruct (extract_database_info W u) as [db|x].
  - destruct (format_bioregistry_json pubmed db contributor); cbn [bind];
      [|discriminate].
    intros [= <-]. discriminate.
  - destruct (format_bioregistry_json pubmed PNone contributor); cbn [bind];
      [|discriminate].
    intros [= <-]. discriminate.
Qed.

End AnswerFacts.

(* ================================================================== *)
(** * The claims of the specification *)
(* ================================================================== *)

Import PyChar PyStr Re Py App Ref.

(** ** Text scanner *)

(** C4 (as amended): for every text, the scan of app.py returns, in order
    of appearance, each run of non-blank characters other than [)] and
    []] that begins with [http://] or [https://] and has at least one
    more such character after the scheme, without its trailing run of
    [.], [,], [;], [:]; the specification's example gives its two URLs. *)
Theorem scan_urls_runs :
  (forall text : string, scan_urls text = scan_spec text)
  /\ scan_urls "see http://a.co/x, and https://b.org/y)."
     = ["http://a.co/x"; "https://b.org/y"].
Proof.
  split.
  - exact ScanFacts.scan_urls_scan_spec.
  - vm_compute. reflexivity.
Qed.

(** C4 as stated fails on a scheme with nothing after it: the run
    [http://] begins with [http://], and the pattern does not report it. *)
Lemma scan_urls_bare_scheme :
  scan_urls "http://" = []
  /\ scan_stated "http://" = ["http://"]
  /\ ~ scan_as_stated.
Proof.
  split; [vm_compute; reflexivity|].
  split; [vm_compute; reflexivity|].
  intros H. specialize (H "http://"). vm_compute in H. discriminate.
Qed.

(** ** Validation *)

(** C2 (as amended): for a body that is a JSON object (or empty) whose
    [pmid] is a string, missing or falsy, the endpoint lets the request
    through exactly when the identifier, after stripping blanks at both
    ends, is one or more digits, and the pipeline runs on the stripped
    identifier; every other such body is answered 400 with the fixed
    message. *)
Theorem validate_stripped_digits
  (json : pyval) (d : list (string * pyval)) (s : string) :
  body_items json = Some d ->
  field_or d "pmid" (PStr "") = PStr s ->
  (is_digits (strip s) = true ->
     validate json = Ok (inr (strip s, field_or d "contributor" (PDict []))))
  /\ (is_digits (strip s) = false -> rejected (validate json))
  /\ (accepted (validate json) <-> is_digits (strip s) = true).
Proof.
  intros Hd Hp.
  pose proof (ValidateFacts.validate_string_pmid json d s Hd Hp) as H.
  destruct (is_digits (strip s)); rewrite H.
  - split; [reflexivity|]. split; [discriminate|].
    split; [reflexivity|]. intros _. now eexists _, _.
  - split; [discriminate|]. split; [reflexivity|].
    split; [|discriminate]. intros (p & c & E). discriminate.
Qed.

Lemma validate_stripped_digits_witness :
  validate (PDict [("pmid", PStr " 12345678 ")]) = Ok (inr ("12345678", PDict []))
  /\ rejected (validate (PDict [("pmid", PStr "12a45")])).
Proof.
  split.
  - apply (validate_stripped_digits
             (PDict [("pmid", PStr " 12345678 ")]) [("pmid", PStr " 12345678 ")]
             " 12345678 " eq_refl eq_refl).
    vm_compute. reflexivity.
  - apply (validate_stripped_digits
             (PDict [("pmid", PStr "12a45")]) [("pmid", PStr "12a45")]
             "12a45" eq_refl eq_refl).
    vm_compute. reflexivity.
Defined.

(** C2 as stated fails: an identifier with blanks around its digits is
    not a string of digits, and the endpoint lets it through. *)
Lemma validate_padded_pmid :
  validate (PDict [("pmid", PStr " 123")]) = Ok (inr ("123", PDict []))
  /\ is_digits " 123" = false
  /\ ~ validation_as_stated.
Proof.
  split; [vm_compute; reflexivity|].
  split; [vm_compute; reflexivity|].
  intros H.
  destruct (H [("pmid", PStr " 123")] (PStr " 123") eq_refl) as [[Hacc _] _].
  destruct Hacc as (s & [= <-] & Hs).
  - now exists "123", (PDict []).
  - vm_compute in Hs. discriminate.
Qed.

(** ** Database-info extractor *)

(** C5 (as amended): when the parsed pattern is empty and the example is
    not, an example of capital letters A-Z followed by digits gives the
    pattern that anchors the letters and the number of digits, an example
    of digits only gives [^\d{N}$] for its length, and any other example
    leaves the pattern empty. *)
Theorem pattern_from_example (final : option string) (homepage_url : string) :
  let e0 := parse_lines (reply_lines (reply_text final)) in
  e_pattern e0 = "" ->
  e_example e0 <> "" ->
  (forall l d,
      letters_then_digits is_upper (e_example e0) l d ->
      exists e, parse_reply final homepage_url = Ok e
                /\ e_pattern e = "^" ++ l ++ "\d{" ++ of_nat (String.length d) ++ "}$")
  /\ (all is_digit (e_example e0) = true ->
      exists e, parse_reply final homepage_url = Ok e
                /\ e_pattern e
                   = "^\d{" ++ of_nat (String.length (e_example e0)) ++ "}$")
  /\ ((~ exists l d, letters_then_digits is_upper (e_example e0) l d) ->
      all is_digit (e_example e0) = false ->
      exists e, parse_reply final homepage_url = Ok e /\ e_pattern e = "").
Proof.
  intros e0 Hp Hex.
  destruct (ExtractorFacts.infer_email_fields e0) as (_ & _ & Eex & Epat & _).
  assert (Hout : forall pat,
             infer_pattern (infer_email e0) = Ok (set_pattern pat (infer_email e0)) ->
             exists e, parse_reply final homepage_url = Ok e /\ e_pattern e = pat).
  { intros pat Hpat. unfold parse_reply, post_process. fold e0. rewrite Hpat.
    eexists. split; [reflexivity|].
    destruct (ExtractorFacts.derive_prefix_fields
                (default_homepage homepage_url (set_pattern pat (infer_email e0))))
      as [-> _].
    destruct (ExtractorFacts.default_homepage_fields homepage_url
                (set_pattern pat (infer_email e0))) as (_ & _ & -> & _).
    reflexivity. }
  repeat split.
  - intros l d Hshape. apply Hout.
    apply ExtractorFacts.infer_pattern_upper; [congruence | now rewrite Eex].
  - intros Hall. rewrite <- Eex. apply Hout.
    apply ExtractorFacts.infer_pattern_digits; rewrite ?Eex; congruence.
  - intros Hshape Hall.
    replace "" with (e_pattern (infer_email e0)) by congruence.
    apply Hout. rewrite ExtractorFacts.set_pattern_same.
    apply ExtractorFacts.infer_pattern_other; rewrite ?Eex; try congruence.
    apply ExtractorFacts.parsed_example_stripped.
Qed.

Lemma pattern_from_example_witness :
  (exists e, parse_reply (Some "Example: ABC123") "http://db.org" = Ok e
             /\ e_pattern e = "^ABC\d{3}$")
  /\ (exists e, parse_reply (Some "Example: 12345") "http://db.org" = Ok e
                /\ e_pattern e = "^\d{5}$").
Proof.
  split.
  - apply (pattern_from_example (Some "Example: ABC123") "http://db.org"
             eq_refl ltac:(discriminate)) with (l := "ABC") (d := "123").
    repeat split; try reflexivity; discriminate.
  - apply (pattern_from_example (Some "Example: 12345") "http://db.org"
             eq_refl ltac:(discriminate)).
    reflexivity.
Defined.

(** C5 as stated fails on small letters: [abc123] is letters followed by
    digits, and the pattern stays empty. *)
Lemma pattern_from_lowercase_example :
  infer_pattern (set_example "abc123" extracted_init)
  = Ok (set_example "abc123" extracted_init)
  /\ ~ pattern_inference_as_stated.
Proof.
  split; [vm_compute; reflexivity|].
  intros H.
  specialize (H (set_example "abc123" extracted_init) "abc" "123" eq_refl).
  assert (Hshape : letters_then_digits is_alpha
                     (e_example (set_example "abc123" extracted_init)) "abc" "123").
  { repeat split; try reflexivity; discriminate. }
  specialize (H Hshape). vm_compute in H. discriminate.
Qed.

(** C6: when the parsed prefix is empty and the name is not, the prefix
    is the lower-cased concatenation of the first character of each
    blank-separated word of the name; the specification's example name
    gives [keogag]. *)
Theorem prefix_from_name (final : option string) (homepage_url : string) :
  let e0 := parse_lines (reply_lines (reply_text final)) in
  e_prefix e0 = "" ->
  e_name e0 <> "" ->
  (exists e, parse_reply final homepage_url = Ok e
             /\ e_prefix e = lower (initials (e_name e0)))
  /\ lower (initials "Kyoto Encyclopedia of Genes and Genomes") = "keogag".
Proof.
  intros e0 Hp Hn. split; [|vm_compute; reflexivity].
  destruct (ExtractorFacts.post_process_result homepage_url e0) as (pat & _ & Hpost).
  unfold parse_reply. fold e0. rewrite Hpost. eexists. split; [reflexivity|].
  destruct (ExtractorFacts.infer_email_fields e0) as (En & Ep & _).
  set (e1 := default_homepage homepage_url (set_pattern pat (infer_email e0))).
  assert (En1 : e_name e1 = e_name e0).
  { unfold e1.
    destruct (ExtractorFacts.default_homepage_fields homepage_url
                (set_pattern pat (infer_email e0))) as (-> & _).
    exact En. }
  assert (Ep1 : e_prefix e1 = "").
  { unfold e1.
    destruct (ExtractorFacts.default_homepage_fields homepage_url
                (set_pattern pat (infer_email e0))) as (_ & -> & _).
    simpl. congruence. }
  unfold derive_prefix. rewrite Ep1, En1.
  replace (nonempty (e_name e0)) with true
    by (destruct (e_name e0); [congruence | reflexivity]).
  simpl. now rewrite ExtractorFacts.first_chars_split.
Qed.

Lemma prefix_from_name_witness :
  exists e,
    parse_reply (Some "Name: Kyoto Encyclopedia of Genes and Genomes") "http://db.org"
    = Ok e
    /\ e_prefix e = "keogag".
Proof.
  apply (prefix_from_name (Some "Name: Kyoto Encyclopedia of Genes and Genomes")
           "http://db.org" eq_refl ltac:(discriminate)).
Defined.

(** C9: every record the extractor produces has at most three keywords;
    a keyword value is split on commas, each piece stripped, empty pieces
    dropped, and the first three kept; the value [a, b, c, d] gives
    [a], [b], [c]. *)
Theorem keywords_at_most_three :
  (forall (W : world) (homepage_url : string),
      match agent_final W homepage_url with
      | Ok final =>
          exists e, extract_database_info W homepage_url = Ok (database_info e)
                    /\ List.length (e_keywords e) <= 3
                    /\ get (database_info e) "keywords"
                       = Ok (PList (List.map PStr (e_keywords e)))
      | Raise x => extract_database_info W homepage_url = Raise x
      end)
  /\ (forall val : string,
         List.length (parse_keywords val) <= 3
         /\ parse_keywords val
            = firstn 3 (List.filter nonempty (List.map strip (split_on "," val))))
  /\ parse_keywords "a, b, c, d" = ["a"; "b"; "c"]
  /\ (exists e, parse_reply (Some "Keywords: a, b, c, d") "http://db.org" = Ok e
                /\ e_keywords e = ["a"; "b"; "c"]).
Proof.
  split; [|split; [|split]].
  - intros W homepage_url. unfold extract_database_info.
    destruct (agent_final W homepage_url) as [final|x]; [|reflexivity].
    cbn [bind]. unfold parse_reply.
    set (e0 := parse_lines (reply_lines (reply_text final))).
    destruct (ExtractorFacts.post_process_result homepage_url e0) as (pat & _ & ->).
    cbn [bind]. eexists. split; [reflexivity|]. split; [|reflexivity].
    destruct (ExtractorFacts.derive_prefix_fields
                (default_homepage homepage_url (set_pattern pat (infer_email e0))))
      as [_ ->].
    destruct (ExtractorFacts.default_homepage_fields homepage_url
                (set_pattern pat (infer_email e0))) as (_ & _ & _ & ->).
    destruct (ExtractorFacts.infer_email_fields e0) as (_ & _ & _ & _ & Ek).
    simpl. rewrite Ek. apply ExtractorFacts.parsed_keywords_capped.
  - intros val. split; [apply ExtractorFacts.firstn_length_le|].
    unfold parse_keywords. f_equal.
    induction (split_on "," val) as [|w ws IH]; [reflexivity|].
    simpl. destruct (nonempty (strip w)); simpl; now rewrite IH.
  - vm_compute. reflexivity.
  - eexists. split; vm_compute; reflexivity.
Qed.

(** ** Record assembler *)

(** C7: with DatabaseInfo absent or extractor-made and a publication
    record whose homepage is a string, the assembler returns a one-key
    dictionary.  When DatabaseInfo gives no name, the name is the first
    domain label of the homepage (after an optional [www.], up to the
    next dot or slash), and the literal [database] when there is no
    homepage either; when no prefix is given, the key is the name without
    its longest trailing version suffix, reduced to letters and digits,
    in lower case, and the literal [database_key] when nothing is left. *)
Theorem assembler_name_and_key
  (pd : list (string * pyval)) (db : option extracted) (contributor : pyval) :
  homepage_is_string pd = true ->
  format_bioregistry_json (PDict pd) (db_value db) contributor
  = Ok (PDict [(resolved_prefix pd db, assembled_record pd db contributor)])
  /\ get (assembled_record pd db contributor) "name" = Ok (PStr (resolved_name pd db))
  /\ (strip (db_str e_name db) = "" ->
      resolved_name pd db
      = match domain_label (resolved_homepage pd db) with
        | Some l => l
        | None => "database"
        end)
  /\ (strip (db_str e_name db) = "" -> resolved_homepage pd db = "" ->
      resolved_name pd db = "database")
  /\ (strip (db_str e_prefix db) = "" ->
      resolved_prefix pd db
      = or_str (lower (filter is_alnum (re_sub version_re "" (resolved_name pd db))))
               "database_key")
  /\ (all not_newline (resolved_homepage pd db) = true ->
      (forall p sfx,
          resolved_name pd db = p ++ sfx -> version_suffix sfx ->
          (forall q t, resolved_name pd db = q ++ t -> version_suffix t ->
                       String.length p <= String.length q) ->
          re_sub version_re "" (resolved_name pd db) = p)
      /\ ((forall q t, resolved_name pd db = q ++ t -> ~ version_suffix t) ->
          re_sub version_re "" (resolved_name pd db) = resolved_name pd db))
  /\ re_sub version_re "" "Gene Atlas v2" = "Gene Atlas"
  /\ re_sub version_re "" "Gene Atlas version 3.1" = "Gene Atlas"
  /\ domain_label "https://www.gene-atlas.org/browse" = Some "gene-atlas".
Proof.
  intros Hh. split; [exact (FormatFacts.format_assembled pd db contributor Hh)|].
  split; [reflexivity|].
  split; [intros Hn; unfold resolved_name; now rewrite Hn|].
  split; [intros Hn Hp; unfold resolved_name; now rewrite Hn, Hp|].
  split; [intros Hp; unfold resolved_prefix; now rewrite Hp|].
  split.
  { intros Hnl. apply VersionFacts.sub_version_suffix.
    now apply VersionFacts.resolved_name_last. }
  repeat split; vm_compute; reflexivity.
Qed.

Lemma assembler_name_and_key_witness :
  exists record,
    format_bioregistry_json
      (PDict [("homepage", PStr "https://www.gene-atlas.org/browse")]) PNone PNone
    = Ok (PDict [("geneatlas", record)])
    /\ get record "name" = Ok (PStr "gene-atlas").
Proof.
  destruct (assembler_name_and_key
              [("homepage", PStr "https://www.gene-atlas.org/browse")] None PNone
              eq_refl) as (Hf & Hn & _).
  eexists. split; [exact Hf | exact Hn].
Defined.

(** C8: when the publication record is present (a non-empty dictionary),
    the assembled record's publications list has exactly one entry, made
    of the record's doi, pmid, title and year, each replaced by its
    default when missing, empty or null. *)
Theorem publications_one_entry
  (pd : list (string * pyval)) (db : option extracted) (contributor : pyval) :
  pd <> [] ->
  homepage_is_string pd = true ->
  exists key record,
    format_bioregistry_json (PDict pd) (db_value db) contributor
    = Ok (PDict [(key, record)])
    /\ get record "publications"
       = Ok (PList [PDict [("doi", field_or pd "doi" (PStr ""));
                           ("pubmed", field_or pd "pmid" (PStr ""));
                           ("title", field_or pd "title" (PStr ""));
                           ("year", field_or pd "year" PNone)]]).
Proof.
  intros Hne Hh.
  exists (resolved_prefix pd db), (assembled_record pd db contributor).
  split; [exact (FormatFacts.format_assembled pd db contributor Hh)|].
  destruct pd as [|x pd]; [congruence | reflexivity].
Qed.

Lemma publications_one_entry_witness :
  exists key record,
    format_bioregistry_json
      (PDict [("title", PStr ""); ("doi", PNone); ("pmid", PStr "");
              ("year", PNone); ("homepage", PStr ""); ("keywords", PList [])])
      PNone PNone
    = Ok (PDict [(key, record)])
    /\ get record "publications"
       = Ok (PList [PDict [("doi", PStr ""); ("pubmed", PStr "");
                           ("title", PStr ""); ("year", PNone)]]).
Proof.
  apply (publications_one_entry
           [("title", PStr ""); ("doi", PNone); ("pmid", PStr "");
            ("year", PNone); ("homepage", PStr ""); ("keywords", PList [])]
           None PNone ltac:(discriminate) eq_refl).
Defined.

(** C10: when the publication record carries a non-empty keywords list,
    the assembled record's keywords are that list as it is, whatever its
    length and whatever DatabaseInfo holds; the metadata client builds
    the list from the service's terms without a cap. *)
Theorem pubmed_keywords_verbatim
  (pd : list (string * pyval)) (db : option extracted) (contributor : pyval)
  (kws : list pyval) :
  homepage_is_string pd = true ->
  lookup "keywords" pd = Some (PList kws) ->
  kws <> [] ->
  (exists key record,
      format_bioregistry_json (PDict pd) (db_value db) contributor
      = Ok (PDict [(key, record)])
      /\ get record "keywords" = Ok (PList kws))
  /\ (forall (W : world) (d : list (string * pyval)) (l : list pyval),
         lookup "keywords" d = Some (PList l) -> l <> [] ->
         keywords_of W (PDict d)
         = Ok (PList (List.map (fun x => PStr (strip (str_of W x)))
                               (List.filter truthy l)))).
Proof.
  intros Hh Hk Hne. split.
  - exists (resolved_prefix pd db), (assembled_record pd db contributor).
    split; [exact (FormatFacts.format_assembled pd db contributor Hh)|].
    unfold assembled_record, resolved_keywords, field_or. rewrite Hk.
    destruct kws; [congruence | reflexivity].
  - intros W d l Hl Hl'. unfold keywords_of, get, get_default. cbn [is_dict bind].
    rewrite Hl. destruct l; [congruence | reflexivity].
Qed.

Lemma pubmed_keywords_verbatim_witness :
  exists key record,
    format_bioregistry_json
      (PDict [("pmid", PStr "1");
              ("keywords", PList [PStr "genes"; PStr "genomes"; PStr "pathways";
                                  PStr "enzymes"; PStr "drugs"])])
      (database_info (set_keywords ["a"; "b"; "c"] extracted_init)) PNone
    = Ok (PDict [(key, record)])
    /\ get record "keywords"
       = Ok (PList [PStr "genes"; PStr "genomes"; PStr "pathways";
                    PStr "enzymes"; PStr "drugs"]).
Proof.
  apply (pubmed_keywords_verbatim
           [("pmid", PStr "1");
            ("keywords", PList [PStr "genes"; PStr "genomes"; PStr "pathways";
                                PStr "enzymes"; PStr "drugs"])]
           (Some (set_keywords ["a"; "b"; "c"] extracted_init)) PNone
           [PStr "genes"; PStr "genomes"; PStr "pathways"; PStr "enzymes"; PStr "drugs"]
           eq_refl eq_refl ltac:(discriminate)).
Defined.

(** ** Metadata client *)

(** C3 (as amended): an exception of the import or of the external call
    becomes an [error] dictionary with the exception's text, and a falsy
    reply becomes the "No metadata" error dictionary; a truthy reply is
    normalized into the eight-key record, with the requested identifier
    under [pmid], when the selected record is a dictionary whose authors
    are falsy, a list or a string, which has a truthy year or a
    publication date that is a string or falsy, and whose abstract is a
    string or falsy; on a reply of another shape the exception of the
    normalization leaves the function. *)
Theorem client_outcomes (W : world) (pmid : string) :
  match indra_import_error W with
  | Some e =>
      extract_pubmed_metadata W pmid
      = Ok (error_dict ("INDRA import error: " ++ exn_msg e))
  | None =>
      match get_metadata_for_ids W [pmid] with
      | Raise e =>
          extract_pubmed_metadata W pmid
          = Ok (error_dict ("PubMed fetch error: " ++ exn_msg e))
      | Ok raw =>
          if truthy raw then
            if item_shape_ok (selected_item raw pmid) then
              exists title doi text first_author year keywords,
                extract_pubmed_metadata W pmid
                = Ok (metadata_record title doi text first_author pmid year keywords)
            else
              exists e, extract_pubmed_metadata W pmid = Raise e
          else
            extract_pubmed_metadata W pmid
            = Ok (error_dict "No metadata returned from PubMed")
      end
  end.
Proof.
  unfold extract_pubmed_metadata.
  destruct (indra_import_error W) as [e|]; [reflexivity|].
  destruct (get_metadata_for_ids W [pmid]) as [raw|e]; [|reflexivity].
  destruct (truthy raw) eqn:Ht; cbn [negb]; [|reflexivity].
  rewrite (ClientFacts.select_item_value raw pmid Ht). cbn [bind].
  apply ClientFacts.normalize_item_outcome.
Qed.

(** C3 as stated fails on replies of other shapes: an abstract that is a
    number, or a reply that is a list of records, makes the normalization
    raise, and nothing in the function catches it. *)
Lemma client_raises_on_odd_shapes :
  extract_pubmed_metadata
    (world_of (PDict [("1", PDict [("title", PStr "T"); ("abstract", PInt 5)])])
              (Ok None)) "1"
  = Raise (expected_string (PInt 5))
  /\ extract_pubmed_metadata
       (world_of (PList [PDict [("title", PStr "T")]]) (Ok None)) "1"
     = Raise (no_attribute (PList [PDict [("title", PStr "T")]]) "get")
  /\ ~ client_never_raises.
Proof.
  split; [vm_compute; reflexivity|].
  split; [vm_compute; reflexivity|].
  intros H.
  destruct (H (world_of (PDict [("1", PDict [("abstract", PInt 5)])]) (Ok None)) "1")
    as [d Hd].
  vm_compute in Hd. discriminate.
Qed.

(** ** Endpoint *)

(** C1: for a request that passes validation and a metadata result whose
    title, when present, is a string: a result with an error field is
    answered 500 with that message and no data key; a result without a
    URL in its abstract is answered 400 with the fixed message and, under
    [data], the record assembled with DatabaseInfo absent; when the
    extractor raises, the answer is 500 with a message that includes the
    exception's text and the same partial record; otherwise it is 200
    with status [success] and the record assembled from the extractor's
    result. *)
Theorem extract_responses
  (W : world) (json : pyval) (pmid : string) (contributor r : pyval) :
  validate json = Ok (inr (pmid, contributor)) ->
  extract_pubmed_metadata W pmid = Ok r ->
  title_is_string r = true ->
  match lookup "error" (items r) with
  | Some err =>
      exists msg,
        err = PStr msg
        /\ extract W json = Ok (mkResponse 500 (error_body msg))
        /\ lookup "data" (items (error_body msg)) = None
  | None =>
      exists partial,
        format_bioregistry_json r PNone contributor = Ok partial
        /\ match scan_urls (abstract_of r) with
           | [] =>
               extract W json
               = Ok (mkResponse 400 (error_body_with_data no_url_message partial))
           | homepage_url :: _ =>
               match extract_database_info W homepage_url with
               | Raise e =>
                   extract W json
                   = Ok (mkResponse 500
                           (error_body_with_data
                              ("Database scraping failed: " ++ exn_msg e) partial))
               | Ok db_data =>
                   exists full,
                     format_bioregistry_json r db_data contributor = Ok full
                     /\ extract W json = Ok (mkResponse 200 (success_body full))
               end
           end
  end.
Proof.
  intros Hv Hc Ht. unfold extract. rewrite Hv. cbn [bind].
  destruct (EndpointFacts.client_result W pmid r Hc)
    as [(msg & -> & Hmsg) | (title & doi & text & fa & year & kws & ->)].
  - cbn [items error_dict lookup String.eqb Ascii.eqb Bool.eqb].
    exists msg. rewrite (EndpointFacts.pipeline_error W pmid contributor msg Hc Hmsg).
    now repeat split.
  - destruct title as [| b | z | title | l | d]; try discriminate.
    rewrite (EndpointFacts.pipeline_record W pmid contributor title doi text fa year
               kws Hc).
    change (lookup "error" (items (metadata_record (PStr title) doi text fa pmid
                                                   year kws)))
      with (@None pyval).
    change (abstract_of (metadata_record (PStr title) doi text fa pmid year kws))
      with text.
    set (r := metadata_record (PStr title) doi text fa pmid year kws) in *.
    exists (assembled (items r) None contributor).
    split; [exact (FormatFacts.format_assembled (items r) None contributor eq_refl)|].
    destruct (scan_urls text) as [|u urls]; [reflexivity|].
    destruct (extract_database_info W u) as [db|e] eqn:Hdb; [|reflexivity].
    destruct (EndpointFacts.extractor_result W u db Hdb) as [e' ->].
    exists (assembled (items r) (Some e') contributor).
    pose proof (FormatFacts.format_assembled (items r) (Some e') contributor eq_refl)
      as Hf.
    change (db_value (Some e')) with (database_info e') in Hf.
    change (PDict (items r)) with r in Hf.
    split; [exact Hf|]. rewrite Hf. reflexivity.
Qed.

Lemma extract_responses_witness :
  let W := world_of
             (PDict [("12345678",
                      PDict [("title", PStr "KEGG");
                             ("abstract", PStr "Available at https://www.kegg.jp/kegg.")])])
             (Ok (Some "Name: Kyoto Encyclopedia of Genes and Genomes")) in
  exists full,
    extract W (PDict [("pmid", PStr "12345678")])
    = Ok (mkResponse 200 (success_body full)).
Proof.
  intros W.
  pose proof (extract_responses W (PDict [("pmid", PStr "12345678")])
                "12345678" (PDict [])
                (metadata_record (PStr "KEGG") (PStr "")
                   "Available at https://www.kegg.jp/kegg." (PStr "") "12345678"
                   PNone (PList []))
                ltac:(vm_compute; reflexivity)
                ltac:(vm_compute; reflexivity)
                ltac:(vm_compute; reflexivity)) as H.
  vm_compute in H. destruct H as (partial & _ & full & _ & H).
  exists full. vm_compute. exact H.
Defined.

(** ** Further properties of the pipeline *)

(** X1: parsing the agent's reply and the steps after it never raise:
    the [.group(1)] of line 298, applied without a test, is only reached
    when its pattern matches. *)
Theorem parse_reply_total (final : option string) (homepage_url : string) :
  exists e, parse_reply final homepage_url = Ok e.
Proof.
  unfold parse_reply.
  destruct (ExtractorFacts.post_process_result homepage_url
              (parse_lines (reply_lines (reply_text final)))) as (pat & _ & ->).
  now eexists.
Qed.



(** X3: when the abstract has no URL, the record under [data] is keyed
    [database], carries that name, has empty example, pattern and
    uri_format, and its one publication holds the fetched doi, the
    requested identifier, the title and the year. *)
Theorem no_url_partial_record
  (W : world) (json : pyval) (pmid : string) (contributor : pyval)
  (title : string) (doi : pyval) (text : string) (first_author year keywords : pyval) :
  validate json = Ok (inr (pmid, contributor)) ->
  extract_pubmed_metadata W pmid
  = Ok (metadata_record (PStr title) doi text first_author pmid year keywords) ->
  scan_urls text = [] ->
  exists record,
    extract W json
    = Ok (mkResponse 400
            (error_body_with_data no_url_message (PDict [("database", record)])))
    /\ get record "name" = Ok (PStr "database")
    /\ get record "example" = Ok (PStr "")
    /\ get record "pattern" = Ok (PStr "")
    /\ get record "uri_format" = Ok (PStr "")
    /\ get record "publications"
       = Ok (PList [PDict [("doi", if truthy doi then doi else PStr "");
                           ("pubmed", PStr pmid);
                           ("title", PStr title);
                           ("year", if truthy year then year else PNone)]]).
Proof.
  intros Hv Hc Hscan. unfold extract. rewrite Hv. cbn [bind].
  rewrite (EndpointFacts.pipeline_record W pmid contributor title doi text
             first_author year keywords Hc).
  rewrite Hscan.
  set (r := metadata_record (PStr title) doi text first_author pmid year keywords).
  assert (Hh : resolved_homepage (items r) None = "").
  { unfold resolved_homepage, pubmed_homepage, r, metadata_record. cbn.
    now rewrite Hscan. }
  assert (Hn : resolved_name (items r) None = "database").
  { unfold resolved_name. now rewrite Hh. }
  assert (Hp : resolved_prefix (items r) None = "database").
  { unfold resolved_prefix. rewrite Hn. vm_compute. reflexivity. }
  exists (assembled_record (items r) None contributor).
  unfold assembled. rewrite Hp. split; [reflexivity|].
  split.
  { change (get (assembled_record (items r) None contributor) "name")
      with (Ok (PStr (resolved_name (items r) None)) : res pyval).
    now rewrite Hn. }
  repeat (split; [reflexivity|]).
  change (get (assembled_record (items r) None contributor) "publications")
    with (Ok (PList [publication_entry (items r)]) : res pyval).
  unfold publication_entry, field_or, r, metadata_record.
  cbn [items lookup String.eqb Ascii.eqb Bool.eqb truthy].
  destruct (truthy doi), (truthy year), pmid, title; reflexivity.
Qed.

Lemma no_url_partial_record_witness :
  exists record,
    extract (world_of (PDict [("7", PDict [("title", PStr "T"); ("year", PInt 2020);
                                          ("abstract", PStr "No link here.")])])
                      (Ok None))
            (PDict [("pmid", PStr "7")])
    = Ok (mkResponse 400
            (error_body_with_data no_url_message (PDict [("database", record)])))
    /\ get record "publications"
       = Ok (PList [PDict [("doi", PStr ""); ("pubmed", PStr "7");
                           ("title", PStr "T"); ("year", PInt 2020)]]).
Proof.
  destruct (no_url_partial_record
              (world_of (PDict [("7", PDict [("title", PStr "T"); ("year", PInt 2020);
                                            ("abstract", PStr "No link here.")])])
                        (Ok None))
              (PDict [("pmid", PStr "7")]) "7" (PDict [])
              "T" (PStr "") "No link here." (PStr "") (PInt 2020) (PList [])
              ltac:(vm_compute; reflexivity) ltac:(vm_compute; reflexivity)
              ltac:(vm_compute; reflexivity))
    as (record & He & _ & _ & _ & _ & Hp).
  exists record. split; [exact He | exact Hp].
Defined.

(** X4: every URL the scan returns begins with [http://] or [https://]
    and holds no blank, no [)] and no []]. *)
Theorem scan_urls_wellformed (text u : string) :
  In u (scan_urls text) ->
  (startswith "http://" u = true \/ startswith "https://" u = true)
  /\ all url_char u = true.
Proof.
  rewrite ScanFacts.scan_urls_scan_spec. unfold scan_spec. intros H.
  apply in_map_iff in H as (run & <- & Hrun).
  apply ScanFacts.runs_in in Hrun as (s & Hs).
  eapply ScanFacts.url_run_scheme; eassumption.
Qed.

Lemma scan_urls_wellformed_witness :
  startswith "https://" "https://b.org/y" = true
  /\ all url_char "https://b.org/y" = true.
Proof.
  destruct (scan_urls_wellformed "see http://a.co/x, and https://b.org/y)."
              "https://b.org/y" ltac:(vm_compute; right; left; reflexivity))
    as [[H|H] Hall].
  - vm_compute in H. discriminate.
  - split; assumption.
Defined.


(** X6: when the reply gives no homepage, the record's homepage is the
    URL the extractor was called with. *)
Theorem homepage_defaults_to_input (final : option string) (homepage_url : string) :
  e_homepage (parse_lines (reply_lines (reply_text final))) = "" ->
  exists e, parse_reply final homepage_url = Ok e /\ e_homepage e = homepage_url.
Proof.
  intros Hh. unfold parse_reply.
  set (e0 := parse_lines (reply_lines (reply_text final))) in *.
  destruct (ExtractorFacts.post_process_result homepage_url e0) as (pat & _ & ->).
  eexists. split; [reflexivity|].
  assert (He : e_homepage (set_pattern pat (infer_email e0)) = "").
  { unfold infer_email.
    destruct (_ && _); [destruct (re_search _ _)|]; exact Hh. }
  unfold derive_prefix, default_homepage. rewrite He.
  now destruct (_ && _).
Qed.

Lemma homepage_defaults_to_input_witness :
  exists e, parse_reply (Some "Name: Gene Atlas") "https://gene-atlas.org" = Ok e
            /\ e_homepage e = "https://gene-atlas.org".
Proof.
  exact (homepage_defaults_to_input (Some "Name: Gene Atlas")
           "https://gene-atlas.org" eq_refl).
Defined.

(** ** Further properties, by component *)

(** *** Text scanner *)

(** X7: no URL the scan returns ends with [.], [,], [;] or [:], and
    each one holds at least the seven characters of [http://]. *)
Theorem scan_urls_trimmed (text u : string) :
  In u (scan_urls text) ->
  last_is is_trailing_punct u = false /\ 7 <= String.length u.
Proof.
  rewrite ScanFacts.scan_urls_scan_spec. unfold scan_spec. intros H.
  apply in_map_iff in H as (run & <- & Hrun).
  split; [apply SeparatorFacts.rstrip_punct_last|].
  apply ScanFacts.runs_in in Hrun as (s & Hs).
  destruct (ScanFacts.url_run_scheme s run Hs) as [[H|H] _];
    apply StrFacts.startswith_split in H; rewrite H, StrFacts.length_append;
    simpl; lia.
Qed.

Lemma scan_urls_trimmed_witness :
  last_is is_trailing_punct "http://a.co/x" = false
  /\ 7 <= String.length "http://a.co/x".
Proof.
  apply (scan_urls_trimmed "see http://a.co/x, and https://b.org/y).").
  vm_compute. left. reflexivity.
Defined.

(** X8: a blank, a [)] or a []] ends the URL before it: the scan of
    two texts joined by such a character is the scan of the first
    followed by the scan of the second. *)
Theorem scan_urls_separated (a b : string) (c : ascii) :
  url_char c = false ->
  scan_urls (a ++ String c b) = (scan_urls a ++ scan_urls b)%list.
Proof.
  intros Hc. rewrite !ScanFacts.scan_urls_scan_spec. unfold scan_spec.
  rewrite (SeparatorFacts.runs_stop c b Hc) by lia. apply map_app.
Qed.

Lemma scan_urls_separated_witness :
  scan_urls ("(see http://a.co/x" ++ String ")" " or https://b.org.")
  = (scan_urls "(see http://a.co/x" ++ scan_urls " or https://b.org.")%list.
Proof. exact (scan_urls_separated "(see http://a.co/x" " or https://b.org." ")" eq_refl). Defined.

(** *** Metadata client *)

(** X9: when the record has no truthy year and its publication date
    is a string (or is missing), the year is the number read from the
    leftmost four characters of the date that are [19] or [20] and two
    digits, so it lies between 1900 and 2099; it is [None] when the date
    has no such characters. *)
Theorem year_from_pubdate (W : world) (d : list (string * pyval)) (p : string) :
  truthy (value_of d "year") = false ->
  field_or d "pubdate" (PStr "") = PStr p ->
  year_of W (PDict d)
  = Ok (match first_year p with
        | Some y => PInt (int_digits y)
        | None => PNone
        end)
  /\ (forall y, first_year p = Some y ->
        is_year y = true
        /\ (1900 <= int_digits y <= 2099)%Z
        /\ exists a b, p = a ++ y ++ b).
Proof.
  intros Hy Hp. split; [now apply YearFacts.year_of_pubdate|].
  intros y H. destruct (YearFacts.first_year_in y p H) as [Hyear Hsplit].
  split; [exact Hyear|]. split; [now apply YearFacts.is_year_range | exact Hsplit].
Qed.

Lemma year_from_pubdate_witness :
  year_of (world_of PNone (Ok None)) (PDict [("pubdate", PStr "Epub 2019 Jan 3")])
  = Ok (PInt 2019)
  /\ year_of (world_of PNone (Ok None)) (PDict [("pubdate", PStr "in press")])
     = Ok PNone.
Proof.
  split.
  - exact (proj1 (year_from_pubdate (world_of PNone (Ok None))
                    [("pubdate", PStr "Epub 2019 Jan 3")] "Epub 2019 Jan 3"
                    eq_refl eq_refl)).
  - exact (proj1 (year_from_pubdate (world_of PNone (Ok None))
                    [("pubdate", PStr "in press")] "in press" eq_refl eq_refl)).
Defined.

(** X10: whatever record the service returns, the keywords the
    client builds are a list of strings, none with a blank at either
    end. *)
Theorem metadata_keywords_stripped (W : world) (item : pyval) :
  exists l, keywords_of W item = Ok (PList (List.map PStr l))
            /\ Forall (fun k => strip k = k) l.
Proof.
  unfold keywords_of.
  destruct item as [| b | z | t | l | d]; cbn [is_dict];
    try (exists []; split; [reflexivity | constructor]).
  rewrite !ClientFacts.get_value. cbn [bind]. unfold por.
  destruct (truthy (value_of d "keywords")); cbn [bind];
    [apply MetadataFacts.keywords_value_stripped|].
  destruct (truthy (value_of d "mesh_terms")); cbn [bind];
    [apply MetadataFacts.keywords_value_stripped|].
  destruct (truthy (value_of d "keyword")); cbn [bind];
    apply MetadataFacts.keywords_value_stripped.
Qed.

(** X11: the [homepage] of a metadata record is the URL the endpoint
    follows.  The endpoint scans the abstract a second time (lines
    460-462); it answers 400 for a missing URL exactly when the
    record's homepage is empty, and otherwise runs the extractor on the
    record's homepage. *)
Theorem homepage_field_drives_pipeline
  (W : world) (pmid : string) (contributor r : pyval) :
  extract_pubmed_metadata W pmid = Ok r ->
  lookup "error" (items r) = None ->
  title_is_string r = true ->
  exists h partial,
    get r "homepage" = Ok (PStr h)
    /\ format_bioregistry_json r PNone contributor = Ok partial
    /\ (h = "" ->
        pipeline W pmid contributor
        = Ok (mkResponse 400 (error_body_with_data no_url_message partial)))
    /\ (h <> "" ->
        pipeline W pmid contributor
        = match extract_database_info W h with
          | Raise e =>
              Ok (mkResponse 500
                    (error_body_with_data ("Database scraping failed: " ++ exn_msg e)
                       partial))
          | Ok db_data =>
              bioreg <- format_bioregistry_json r db_data contributor ;;
              Ok (mkResponse 200 (success_body bioreg))
          end).
Proof.
  intros Hc He Ht.
  destruct (EndpointFacts.client_result W pmid r Hc)
    as [(msg & -> & Hmsg) | (title & doi & text & fa & year & kws & ->)].
  { discriminate. }
  destruct title as [| b | z | title | l | d]; try discriminate.
  pose proof (EndpointFacts.pipeline_record W pmid contributor title doi text fa
                year kws Hc) as Hp.
  set (r := metadata_record (PStr title) doi text fa pmid year kws) in *.
  exists (match scan_urls text with u :: _ => u | [] => "" end),
    (assembled (items r) None contributor).
  split; [reflexivity|].
  split; [exact (FormatFacts.format_assembled (items r) None contributor eq_refl)|].
  rewrite Hp.
  destruct (scan_urls text) as [|u urls] eqn:Es.
  - split; [reflexivity | congruence].
  - split; [|reflexivity]. intros ->. exfalso.
    apply (MetadataFacts.scan_urls_nonempty text ""); [|reflexivity].
    rewrite Es. now left.
Qed.

Lemma homepage_field_drives_pipeline_witness :
  let W := world_of (PDict [("7", PDict [("title", PStr "KEGG");
                                        ("abstract", PStr "See https://www.kegg.jp.")])])
                    (Ok (Some "Name: KEGG")) in
  let r := metadata_record (PStr "KEGG") (PStr "") "See https://www.kegg.jp." (PStr "")
                           "7" PNone (PList []) in
  exists h partial,
    get r "homepage" = Ok (PStr h)
    /\ format_bioregistry_json r PNone (PDict []) = Ok partial
    /\ (h = "" ->
        pipeline W "7" (PDict [])
        = Ok (mkResponse 400 (error_body_with_data no_url_message partial)))
    /\ (h <> "" ->
        pipeline W "7" (PDict [])
        = match extract_database_info W h with
          | Raise e =>
              Ok (mkResponse 500
                    (error_body_with_data ("Database scraping failed: " ++ exn_msg e)
                       partial))
          | Ok db_data =>
              bioreg <- format_bioregistry_json r db_data (PDict []) ;;
              Ok (mkResponse 200 (success_body bioreg))
          end).
Proof.
  intros W r.
  apply (homepage_field_drives_pipeline W "7" (PDict []) r); vm_compute; reflexivity.
Defined.

(** *** Database-info extractor *)

(** X12: every line the extractor parses is non-empty, has no blank
    at either end and holds no line boundary, so no line feed. *)
Theorem reply_lines_well_formed (final : option string) (ln : string) :
  In ln (reply_lines (reply_text final)) ->
  ln <> "" /\ strip ln = ln /\ all not_linebreak ln = true /\ all not_newline ln = true.
Proof.
  intros H. apply CleanFacts.reply_lines_pieces in H as (Hne & Hc & Hl).
  repeat split; try assumption; [now apply CleanFacts.clean_eq|].
  revert Hl. apply ScanFacts.all_impl. intros c.
  unfold not_linebreak, not_newline, is_char.
  destruct (Ascii.eqb_spec c LF) as [->|]; [discriminate | reflexivity].
Qed.

Lemma reply_lines_well_formed_witness :
  "Prefix: kegg" <> ""
  /\ strip "Prefix: kegg" = "Prefix: kegg"
  /\ all not_linebreak "Prefix: kegg" = true
  /\ all not_newline "Prefix: kegg" = true.
Proof.
  apply (reply_lines_well_formed (Some "Name: KEGG\n\n   Prefix: kegg  ")).
  vm_compute. right. left. reflexivity.
Defined.

(** X13: a line is split at its first colon.  The text before it,
    stripped and normalized, selects the field; the text after it,
    stripped, is the value, later colons included.  The label is not
    empty and the value holds no line feed, as on every line of a
    reply. *)
Theorem parse_line_first_colon (e : extracted) (label rest : string) :
  label <> "" -> all not_colon label = true -> all not_newline rest = true ->
  let ln := label ++ String ":" rest in
  let key := normalize_label (strip label) in
  let val := strip rest in
  (key = "name" -> parse_line e ln = set_name val e)
  /\ (key = "prefix" -> parse_line e ln = set_prefix (lower val) e)
  /\ (key = "description" -> parse_line e ln = set_description val e)
  /\ (key = "homepage" -> parse_line e ln = set_homepage val e)
  /\ (key = "example" -> parse_line e ln = set_example val e)
  /\ (key = "pattern" ->
      parse_line e ln
      = set_pattern (replace (String BACKSLASH (String BACKSLASH ""))
                             (String BACKSLASH "") val) e)
  /\ (contains "uri" key && contains "format" key = true ->
      parse_line e ln = set_uri_format val e)
  /\ (key = "contact_name" -> parse_line e ln = set_contact_name val e)
  /\ (key = "contact_email" -> parse_line e ln = set_contact_email val e)
  /\ (key = "keywords" -> parse_line e ln = set_keywords (parse_keywords val) e).
Proof.
  intros Hne Hl Hr ln key val.
  destruct (LineFacts.match_line_colon label rest Hne Hl Hr) as (m & Hm & G1 & G2).
  assert (Hp : parse_line e ln
               = if String.eqb key "name" then set_name val e
                 else if String.eqb key "prefix" then set_prefix (lower val) e
                 else if String.eqb key "description" then set_description val e
                 else if String.eqb key "homepage" then set_homepage val e
                 else if String.eqb key "example" then set_example val e
                 else if String.eqb key "pattern" then
                   set_pattern (replace (String BACKSLASH (String BACKSLASH ""))
                                        (String BACKSLASH "") val) e
                 else if contains "uri" key && contains "format" key then
                   set_uri_format val e
                 else if String.eqb key "contact_name" then set_contact_name val e
                 else if String.eqb key "contact_email" then set_contact_email val e
                 else if String.eqb key "keywords" then
                   set_keywords (parse_keywords val) e
                 else e).
  { unfold parse_line, ln. rewrite Hm. cbv zeta. rewrite G1, G2. reflexivity. }
  rewrite Hp. clear Hp Hm G1 G2.
  repeat split; try (intros ->; reflexivity).
  intros Hk.
  repeat match goal with
         | |- context [String.eqb key ?k] =>
             destruct (String.eqb_spec key k) as [E|_];
             [rewrite E in Hk; discriminate Hk|]
         end.
  now rewrite Hk.
Qed.

Lemma parse_line_first_colon_witness :
  parse_line extracted_init "Homepage: https://kegg.jp/a:b "
  = set_homepage "https://kegg.jp/a:b" extracted_init
  /\ parse_line extracted_init "URI Format :https://kegg.jp/entry/$1"
     = set_uri_format "https://kegg.jp/entry/$1" extracted_init.
Proof.
  split.
  - apply (parse_line_first_colon extracted_init "Homepage" " https://kegg.jp/a:b "
             ltac:(discriminate) eq_refl eq_refl).
    reflexivity.
  - apply (parse_line_first_colon extracted_init "URI Format " "https://kegg.jp/entry/$1"
             ltac:(discriminate) eq_refl eq_refl).
    reflexivity.
Defined.

(** X14: the normalized label is the label in lower case with every
    maximal run of underscores, hyphens and blanks replaced by one
    underscore; so runs of separators are interchangeable, and labels
    that differ in letter case only are the same label. *)
Theorem label_normal_form :
  (forall raw, normalize_label raw = lower (collapse is_label_sep "_" raw))
  /\ (forall a r1 r2 b,
         r1 <> "" -> all is_label_sep r1 = true ->
         r2 <> "" -> all is_label_sep r2 = true ->
         normalize_label (a ++ r1 ++ b) = normalize_label (a ++ r2 ++ b))
  /\ (forall raw raw', lower raw = lower raw' ->
         normalize_label raw = normalize_label raw')
  /\ normalize_label "Contact Name" = "contact_name"
  /\ normalize_label "URI - format" = "uri_format".
Proof.
  split; [exact LabelFacts.normalize_label_collapse|].
  split.
  { intros a r1 r2 b H1 Hr1 H2 Hr2. rewrite !LabelFacts.normalize_label_collapse.
    unfold collapse. now rewrite (LabelFacts.collapse_same_runs _ _ a r1 r2 b). }
  split.
  { intros raw raw' H. rewrite !LabelFacts.normalize_label_collapse. unfold collapse.
    rewrite <- (LabelFacts.collapse_lower false raw).
    rewrite <- (LabelFacts.collapse_lower false raw'). now rewrite H. }
  split; vm_compute; reflexivity.
Qed.

Lemma label_normal_form_witness :
  normalize_label "contact - _name" = normalize_label "contact_name"
  /\ normalize_label "HOMEPAGE" = normalize_label "Homepage".
Proof.
  destruct label_normal_form as (_ & Hsep & Hcase & _).
  split.
  - apply (Hsep "contact" " - _" "_" "name"); (discriminate || reflexivity).
  - apply Hcase. reflexivity.
Defined.

(** X15: the two characters backslash and [n] in a reply stand for a
    line feed: the text the extractor parses is the same, and so is the
    record. *)
Theorem escaped_newline_is_newline (a b : string) :
  reply_text (Some (a ++ escaped_newline ++ b))
  = reply_text (Some a) ++ String LF (reply_text (Some b))
  /\ reply_text (Some (a ++ String LF b))
     = reply_text (Some a) ++ String LF (reply_text (Some b))
  /\ (forall homepage_url,
        parse_reply (Some (a ++ escaped_newline ++ b)) homepage_url
        = parse_reply (Some (a ++ String LF b)) homepage_url).
Proof.
  split; [apply EscapeFacts.reply_text_escaped|].
  split; [apply EscapeFacts.reply_text_newline|].
  intros homepage_url. unfold parse_reply.
  now rewrite EscapeFacts.reply_text_escaped, EscapeFacts.reply_text_newline.
Qed.

(** X16: when the URL the extractor is called with has no blank at
    either end, no text of the record it returns has one: name, prefix,
    description, homepage, example, pattern, uri_format, contact name,
    contact e-mail and every keyword. *)
Theorem extracted_texts_stripped (final : option string) (homepage_url : string) :
  strip homepage_url = homepage_url ->
  exists e,
    parse_reply final homepage_url = Ok e
    /\ strip (e_name e) = e_name e
    /\ strip (e_prefix e) = e_prefix e
    /\ strip (e_description e) = e_description e
    /\ strip (e_homepage e) = e_homepage e
    /\ strip (e_example e) = e_example e
    /\ strip (e_pattern e) = e_pattern e
    /\ strip (e_uri_format e) = e_uri_format e
    /\ strip (e_contact_name e) = e_contact_name e
    /\ strip (e_contact_email e) = e_contact_email e
    /\ Forall (fun k => strip k = k) (e_keywords e).
Proof.
  intros Hu. unfold parse_reply.
  destruct (RecordFacts.post_process_clean homepage_url
              (parse_lines (reply_lines (reply_text final)))) as (e & -> & He).
  { apply RecordFacts.fields_clean_loop. }
  { rewrite <- Hu. apply CleanFacts.clean_strip. }
  exists e. split; [reflexivity|].
  destruct He as (H1 & H2 & H3 & H4 & H5 & H6 & H7 & H8 & H9 & H10).
  repeat (split; [now apply CleanFacts.clean_eq|]).
  eapply Forall_impl; [|exact H10]. intros k. apply CleanFacts.clean_eq.
Qed.

Lemma extracted_texts_stripped_witness :
  exists e,
    parse_reply (Some "Name:  Gene Atlas  \nContact_Name: Jane Doe <jane@x.org> ")
                "https://gene-atlas.org"
    = Ok e
    /\ strip (e_name e) = e_name e
    /\ strip (e_contact_email e) = e_contact_email e.
Proof.
  destruct (extracted_texts_stripped
              (Some "Name:  Gene Atlas  \nContact_Name: Jane Doe <jane@x.org> ")
              "https://gene-atlas.org" eq_refl)
    as (e & He & H1 & _ & _ & _ & _ & _ & _ & _ & H9 & _).
  exists e. now repeat split.
Defined.

(** X17: the prefix the extractor returns is in lower case, whether
    the reply gave it or it was derived from the name. *)
Theorem prefix_lowercase (final : option string) (homepage_url : string) :
  exists e, parse_reply final homepage_url = Ok e
            /\ lower (e_prefix e) = e_prefix e.
Proof.
  unfold parse_reply.
  set (e0 := parse_lines (reply_lines (reply_text final))).
  destruct (RecordFacts.post_process_fields homepage_url e0) as (e & -> & _ & Hp).
  exists e. split; [reflexivity|]. rewrite Hp.
  destruct (_ && _); [apply LabelFacts.lower_lower | apply RecordFacts.lower_loop].
Qed.

(** X18: every keyword the extractor returns is non-empty, has no
    blank at either end and holds no comma. *)
Theorem keywords_well_formed (final : option string) (homepage_url : string) :
  exists e, parse_reply final homepage_url = Ok e
            /\ Forall (fun k => k <> "" /\ strip k = k /\ all not_comma k = true)
                      (e_keywords e).
Proof.
  unfold parse_reply.
  set (e0 := parse_lines (reply_lines (reply_text final))).
  destruct (RecordFacts.post_process_fields homepage_url e0) as (e & -> & Hk & _).
  exists e. split; [reflexivity|]. rewrite Hk. apply RecordFacts.keywords_loop.
Qed.

(** X19: a record the extractor returns with an empty prefix has an
    empty name too: a name always yields a prefix.  So the assembler
    derives a key from a name (lines 357-361) only when that name came
    from the homepage. *)
Theorem empty_prefix_means_empty_name
  (final : option string) (homepage_url : string) (e : extracted) :
  parse_reply final homepage_url = Ok e ->
  e_prefix e = "" -> e_name e = "".
Proof.
  unfold parse_reply.
  set (e0 := parse_lines (reply_lines (reply_text final))).
  destruct (PrefixFacts.post_process_name homepage_url e0) as (e' & -> & Hn & Hp).
  intros [= <-]. rewrite Hn, Hp.
  destruct (RecordFacts.fields_clean_loop (reply_lines (reply_text final)))
    as (Hc & _). fold e0 in Hc.
  destruct (e_name e0) as [|c n] eqn:En; [reflexivity|].
  destruct (is_empty (e_prefix e0)) eqn:Ep; cbn [nonempty is_empty negb andb].
  - intros H. exfalso. revert H. apply PrefixFacts.lower_nonempty.
    apply PrefixFacts.initials_nonempty; [discriminate|].
    unfold clean in Hc. apply andb_true_iff in Hc as [Hh _].
    now apply negb_true_iff in Hh.
  - intros H. rewrite H in Ep. discriminate.
Qed.

Lemma empty_prefix_means_empty_name_witness :
  exists e, parse_reply (Some "Description: genes") "https://kegg.jp" = Ok e
            /\ e_name e = "".
Proof.
  eexists. split; [vm_compute; reflexivity|].
  apply (empty_prefix_means_empty_name (Some "Description: genes") "https://kegg.jp" _
           ltac:(vm_compute; reflexivity)).
  reflexivity.
Defined.

(** *** Record assembler *)

(** X20: when the extractor returns a non-empty prefix, that prefix
    is the key of the assembled record. *)
Theorem record_key_is_extracted_prefix
  (final : option string) (homepage_url : string) (e : extracted)
  (pd : list (string * pyval)) (contributor : pyval) :
  parse_reply final homepage_url = Ok e ->
  e_prefix e <> "" ->
  homepage_is_string pd = true ->
  exists record,
    format_bioregistry_json (PDict pd) (database_info e) contributor
    = Ok (PDict [(e_prefix e, record)]).
Proof.
  intros Hp Hne Hh.
  pose proof (FormatFacts.format_assembled pd (Some e) contributor Hh) as Hf.
  cbn [db_value] in Hf. rewrite Hf. unfold assembled. eexists. do 3 f_equal.
  unfold resolved_prefix. cbn [db_str].
  rewrite (RecordFacts.parsed_prefix_clean final homepage_url e Hp).
  unfold or_str. destruct (e_prefix e); [congruence | reflexivity].
Qed.

Lemma record_key_is_extracted_prefix_witness :
  exists e record,
    parse_reply (Some "Name: Gene Atlas\nPrefix:  GAtlas ") "https://gene-atlas.org" = Ok e
    /\ e_prefix e = "gatlas"
    /\ format_bioregistry_json (PDict [("pmid", PStr "7")]) (database_info e) PNone
       = Ok (PDict [("gatlas", record)]).
Proof.
  eexists.
  destruct (record_key_is_extracted_prefix
              (Some "Name: Gene Atlas\nPrefix:  GAtlas ") "https://gene-atlas.org"
              _ [("pmid", PStr "7")] PNone
              ltac:(vm_compute; reflexivity) ltac:(discriminate) eq_refl)
    as [record Hf].
  exists record. split; [vm_compute; reflexivity|]. split; [reflexivity | exact Hf].
Defined.

(** X21: when the extractor is called with a non-empty URL, its
    record has a homepage, and the assembled record carries that
    homepage whatever the publication record holds. *)
Theorem record_homepage_is_extracted
  (final : option string) (homepage_url : string) (e : extracted)
  (pd : list (string * pyval)) (contributor : pyval) :
  parse_reply final homepage_url = Ok e ->
  homepage_url <> "" ->
  homepage_is_string pd = true ->
  e_homepage e <> ""
  /\ exists key record,
       format_bioregistry_json (PDict pd) (database_info e) contributor
       = Ok (PDict [(key, record)])
       /\ get record "homepage" = Ok (PStr (e_homepage e)).
Proof.
  intros Hp Hu Hh.
  assert (Hne : e_homepage e <> "").
  { revert Hp. unfold parse_reply.
    destruct (HomepageFacts.post_process_homepage homepage_url
                (parse_lines (reply_lines (reply_text final)))) as (e' & -> & He).
    intros [= <-]. rewrite He. now apply KeyFacts.or_str_nonempty. }
  split; [exact Hne|].
  pose proof (FormatFacts.format_assembled pd (Some e) contributor Hh) as Hf.
  cbn [db_value] in Hf. rewrite Hf. unfold assembled. eexists _, _.
  split; [reflexivity|].
  change (get (assembled_record pd (Some e) contributor) "homepage")
    with (Ok (PStr (resolved_homepage pd (Some e))) : res pyval).
  unfold resolved_homepage, or_str. cbn [db_str].
  destruct (e_homepage e); [congruence | reflexivity].
Qed.

Lemma record_homepage_is_extracted_witness :
  exists e key record,
    parse_reply (Some "Name: KEGG") "https://www.kegg.jp" = Ok e
    /\ format_bioregistry_json (PDict [("homepage", PStr "https://other.org")])
                               (database_info e) PNone
       = Ok (PDict [(key, record)])
    /\ get record "homepage" = Ok (PStr "https://www.kegg.jp").
Proof.
  eexists.
  destruct (record_homepage_is_extracted (Some "Name: KEGG") "https://www.kegg.jp" _
              [("homepage", PStr "https://other.org")] PNone
              ltac:(vm_compute; reflexivity) ltac:(discriminate) eq_refl)
    as (_ & key & record & Hf & Hg).
  exists key, record. split; [reflexivity|]. split; [exact Hf | exact Hg].
Defined.

(** X22: with DatabaseInfo absent or extractor-made, the key and the
    name of the assembled record are never empty; a name derived from
    the homepage holds no dot and no slash, and a derived key is
    [database_key] or is made of digits and small letters only. *)
Theorem record_name_and_key_nonempty
  (pd : list (string * pyval)) (db : option extracted) (contributor : pyval) :
  homepage_is_string pd = true ->
  exists key name record,
    format_bioregistry_json (PDict pd) (db_value db) contributor
    = Ok (PDict [(key, record)])
    /\ get record "name" = Ok (PStr name)
    /\ key <> "" /\ name <> ""
    /\ (strip (db_str e_name db) = "" -> all is_label_char name = true)
    /\ (strip (db_str e_prefix db) = "" ->
        key = "database_key" \/ all is_key_char key = true).
Proof.
  intros Hh.
  exists (resolved_prefix pd db), (resolved_name pd db), (assembled_record pd db contributor).
  destruct (KeyFacts.resolved_name_form pd db) as [Hn Hnl].
  destruct (KeyFacts.resolved_prefix_form pd db) as [Hp Hpk].
  split; [exact (FormatFacts.format_assembled pd db contributor Hh)|].
  split; [reflexivity|]. now repeat split.
Qed.

Lemma record_name_and_key_nonempty_witness :
  exists key name record,
    format_bioregistry_json (PDict [("homepage", PStr "https://www.Gene-Atlas.org/x")])
                            PNone PNone
    = Ok (PDict [(key, record)])
    /\ get record "name" = Ok (PStr name)
    /\ key <> "" /\ name <> "".
Proof.
  destruct (record_name_and_key_nonempty
              [("homepage", PStr "https://www.Gene-Atlas.org/x")] None PNone eq_refl)
    as (key & name & record & Hf & Hg & Hk & Hn & _).
  exists key, name, record. now repeat split.
Defined.

(** X23: with the publication record [None], the assembler returns
    a record with an empty publications list when DatabaseInfo has a
    homepage; without one, or without DatabaseInfo, it raises the
    AttributeError of [None.get]. *)
Theorem assembler_without_publication (e : extracted) (contributor : pyval) :
  (e_homepage e <> "" ->
   exists key record,
     format_bioregistry_json PNone (database_info e) contributor
     = Ok (PDict [(key, record)])
     /\ get record "publications" = Ok (PList [])
     /\ get record "homepage" = Ok (PStr (e_homepage e))
     /\ get record "keywords" = Ok (PList (List.map PStr (e_keywords e))))
  /\ (e_homepage e = "" ->
      format_bioregistry_json PNone (database_info e) contributor
      = Raise (no_attribute PNone "get"))
  /\ (forall db, truthy db = false ->
        format_bioregistry_json PNone db contributor
        = Raise (no_attribute PNone "get")).
Proof.
  pose proof (KeyFacts.format_no_pubmed e contributor) as H.
  split; [|split].
  - intros Hne. cbv zeta in H. destruct (e_homepage e) as [|c h] eqn:E; [congruence|].
    cbn [is_empty] in H. rewrite H. eexists _, _. now repeat split.
  - intros E. cbv zeta in H. rewrite E in H. exact H.
  - intros db Hdb. now apply KeyFacts.format_no_pubmed_no_db.
Qed.

Lemma assembler_without_publication_witness :
  exists key record,
    format_bioregistry_json PNone
      (database_info (set_homepage "https://kegg.jp" extracted_init)) PNone
    = Ok (PDict [(key, record)])
    /\ get record "publications" = Ok (PList []).
Proof.
  destruct (proj1 (assembler_without_publication
                     (set_homepage "https://kegg.jp" extracted_init) PNone)
              ltac:(discriminate))
    as (key & record & Hf & Hp & _).
  now exists key, record.
Defined.

(** *** Endpoint *)

(** X24: a truthy [pmid] that is not a string, such as a JSON number,
    is not answered 400: the [.strip()] of line 440 raises before the
    [try] is entered; a truthy body that is not a JSON object raises at
    its [.get]. *)
Theorem non_string_pmid_raises (W : world) :
  (forall d v,
      lookup "pmid" d = Some v -> truthy v = true -> is_str v = false ->
      extract W (PDict d) = Raise (no_attribute v "strip"))
  /\ (forall json,
        truthy json = true -> is_dict json = false ->
        extract W json = Raise (no_attribute json "get")).
Proof.
  split.
  - intros d v Hl Ht Hs. unfold extract, validate, por.
    rewrite (AnswerFacts.lookup_nonempty _ _ _ Hl). cbn [bind].
    unfold get, get_default. rewrite Hl. cbn [bind]. rewrite Ht. cbn [bind].
    destruct v; try discriminate; reflexivity.
  - intros json Ht Hd. unfold extract, validate, por. rewrite Ht. cbn [bind].
    destruct json; try discriminate; reflexivity.
Qed.

Lemma non_string_pmid_raises_witness :
  extract (world_of PNone (Ok None)) (PDict [("pmid", PInt 12345678)])
  = Raise (no_attribute (PInt 12345678) "strip")
  /\ extract (world_of PNone (Ok None)) (PList [PStr "12345678"])
     = Raise (no_attribute (PList [PStr "12345678"]) "get").
Proof.
  destruct (non_string_pmid_raises (world_of PNone (Ok None))) as [H1 H2].
  split.
  - exact (H1 [("pmid", PInt 12345678)] (PInt 12345678) eq_refl eq_refl eq_refl).
  - exact (H2 (PList [PStr "12345678"]) eq_refl eq_refl).
Defined.

(** X25: every answer of the endpoint is either code 200 with status
    [success] and a [data] key, or code 400 or 500 with status [error]
    and a [message] key. *)
Theorem response_status_matches_code (W : world) (json : pyval) (r : response) :
  extract W json = Ok r ->
  (status_code r = 200 /\ exists data, body r = success_body data)
  \/ ((status_code r = 400 \/ status_code r = 500)
      /\ exists msg rest,
           body r = PDict (("status", PStr "error") :: ("message", msg) :: rest)).
Proof.
  unfold extract.
  destruct (validate json) as [[rejection|[pmid contributor]]|] eqn:Hv; cbn [bind];
    [| |discriminate].
  - apply AnswerFacts.validate_rejection in Hv. subst rejection.
    intros [= <-]. right. split; [now left | now eexists _, _].
  - destruct (pipeline W pmid contributor) as [r0|e] eqn:Hp.
    + intros [= <-]. exact (AnswerFacts.pipeline_well_formed W pmid contributor r0 Hp).
    + intros [= <-]. right. split; [now right | now eexists _, _].
Qed.

Lemma response_status_matches_code_witness :
  exists r,
    extract (world_of (PDict [("7", PDict [("title", PStr "T");
                                          ("abstract", PStr "No link here.")])])
                      (Ok None))
            (PDict [("pmid", PStr "7")])
    = Ok r
    /\ status_code r = 400
    /\ exists msg rest,
         body r = PDict (("status", PStr "error") :: ("message", msg) :: rest).
Proof.
  eexists. split; [vm_compute; reflexivity|].
  destruct (response_status_matches_code
              (world_of (PDict [("7", PDict [("title", PStr "T");
                                            ("abstract", PStr "No link here.")])])
                        (Ok None))
              (PDict [("pmid", PStr "7")]) _ ltac:(vm_compute; reflexivity))
    as [[H _]|[_ H]].
  - discriminate H.
  - split; [reflexivity | exact H].
Defined.

(** X26: an answer with code 400 does not depend on the browsing
    agent: it is the same with any other agent, one that fails
    included. *)
Theorem bad_request_ignores_agent
  (W : world) (f : string -> res (option string)) (json : pyval) (r : response) :
  extract W json = Ok r -> status_code r = 400 ->
  extract (with_agent W f) json = Ok r.
Proof.
  unfold extract.
  destruct (validate json) as [[rejection|[pmid contributor]]|]; cbn [bind];
    [trivial| |discriminate].
  destruct (pipeline W pmid contributor) as [r0|e] eqn:Hp.
  - intros [= <-] Hc.
    now rewrite (AnswerFacts.pipeline_400_with_agent W f pmid contributor r0 Hp Hc).
  - intros [= <-]. discriminate.
Qed.

Lemma bad_request_ignores_agent_witness :
  exists r,
    status_code r = 400
    /\ extract (with_agent
                  (world_of (PDict [("7", PDict [("title", PStr "T");
                                                ("abstract", PStr "No link here.")])])
                            (Ok None))
                  (fun _ => Raise (mkExn OtherError "agent down")))
               (PDict [("pmid", PStr "7")])
       = Ok r.
Proof.
  eexists. split; [|
    apply (bad_request_ignores_agent
             (world_of (PDict [("7", PDict [("title", PStr "T");
                                           ("abstract", PStr "No link here.")])])
                       (Ok None))
             (fun _ => Raise (mkExn OtherError "agent down"))
             (PDict [("pmid", PStr "7")]) _ ltac:(vm_compute; reflexivity));
    reflexivity].
  reflexivity.
Defined.
